(** * Offline sync and audit log of the clinic server: a shallow embedding

    The development follows the TypeScript sources:
    - [models/sync.ts]        [Sync.getDeltaRecords], [Sync.persistClientChanges]
    - [models/event-logs.ts]  [EventLog.computeHash], [logEvent], [logEvents],
                              [verifyHashes], [API.insertFromSync]
    - [models/visit.ts]       [Visit.API.upsert_core], [Visit.API.softDelete]
    - the migration [20260201_create_event_logs] (columns, defaults and the
      trigger [prevent_event_log_mutation]).

    Instants are epoch milliseconds in [Z].  A [string] holds the bytes of
    the UTF-8 encoding of a JavaScript string or of a PostgreSQL text (the
    no-break space U+00A0 is the two bytes 194 and 160).  What lives outside the
    files above is collected in two classes: [Platform] for the built-ins
    of JavaScript, Node and PostgreSQL and for [lib/utils], [Models] for the
    models whose files are not available.  Every definition that needs one
    of them takes the class as an implicit argument. *)

From Stdlib Require Import ZArith QArith String Ascii List Bool.
From stdpp Require Import gmap strings list pretty.

Set Warnings "-register-all".

Local Open Scope string_scope.
Local Open Scope Z_scope.

(** ** JavaScript values *)

Module Js.

(** An IEEE number as far as the code can observe it: not-a-number, the
    two infinities, or a finite value (a rational). *)
Inductive Num : Type :=
| NaN
| Infinity (negative : bool)
| Finite (q : Q).

Inductive Value : Type :=
| Undefined
| Null
| Boolean (b : bool)
| Number (n : Num)
| String (s : string)
| Array (xs : list Value)
| Object (props : list (string * Value)).

(** A row payload, [Record<string, any>]. *)
Abbreviation Record := (gmap string Value).

Definition Q_ltb (a b : Q) : bool := negb (Qle_bool b a).

(** [a > b] and [a < b] on numbers; every comparison with NaN is false. *)
Definition num_lt (a b : Num) : bool :=
  match a, b with
  | NaN, _ | _, NaN => false
  | Infinity true, Infinity true => false
  | Infinity true, _ => true
  | _, Infinity true => false
  | Infinity false, _ => false
  | Finite _, Infinity false => true
  | Finite x, Finite y => Q_ltb x y
  end.

Definition num_gt (a b : Num) : bool := num_lt b a.

Definition of_Z (z : Z) : Num := Finite (inject_Z z).

(** [value === 0] for a number (both zeros compare equal). *)
Definition num_is_zero (a : Num) : bool :=
  match a with
  | Finite q => Qeq_bool q 0
  | _ => false
  end.

(** [Number.isInteger]. *)
Definition isInteger (a : Num) : bool :=
  match a with
  | Finite q => (Qnum q mod Zpos (Qden q) =? 0)%Z
  | _ => false
  end.

(** The integer a number stands for, when [isInteger] holds. *)
Definition to_Z (a : Num) : Z :=
  match a with
  | Finite q => (Qnum q / Zpos (Qden q))%Z
  | _ => 0
  end.

(** [ToBoolean]. *)
Definition truthy (v : Value) : bool :=
  match v with
  | Undefined | Null => false
  | Boolean b => b
  | Number NaN => false
  | Number (Finite q) => negb (Qeq_bool q 0)
  | Number (Infinity _) => true
  | String s => negb (String.eqb s "")
  | Array _ | Object _ => true
  end.

(** [String.prototype.endsWith]. *)
Definition endsWith (s suffix : string) : bool :=
  let n := String.length s in
  let m := String.length suffix in
  if (m <=? n)%nat then String.eqb (substring (n - m) m s) suffix else false.

(** The string made of the given bytes. *)
Definition bytes (codes : list nat) : string :=
  fold_right (fun n s => String.String (ascii_of_nat n) s) EmptyString codes.

(** A byte [10xxxxxx], which continues a character of the encoding. *)
Definition isContinuation (c : ascii) : bool :=
  let n := nat_of_ascii c in (128 <=? n)%nat && (n <? 192)%nat.

(** The characters of a string: every byte that is not a continuation
    byte starts a character. *)
Fixpoint characters (s : string) : list string :=
  match s with
  | EmptyString => []
  | String.String c rest =>
      match characters rest with
      | String.String c' tail :: more =>
          if isContinuation c'
          then String.String c (String.String c' tail) :: more
          else String.String c EmptyString :: String.String c' tail :: more
      | more => String.String c EmptyString :: more
      end
  end.

(** The characters [trim] strips, WhiteSpace and LineTerminator of
    ECMAScript: U+0009 to U+000D, U+0020, U+00A0, U+1680, U+2000 to U+200A,
    U+2028, U+2029, U+202F, U+205F, U+3000 and U+FEFF. *)
Definition whiteSpace : list string :=
  [ bytes [9]; bytes [10]; bytes [11]; bytes [12]; bytes [13]; bytes [32];
    bytes [194; 160];
    bytes [225; 154; 128];
    bytes [226; 128; 128]; bytes [226; 128; 129]; bytes [226; 128; 130];
    bytes [226; 128; 131]; bytes [226; 128; 132]; bytes [226; 128; 133];
    bytes [226; 128; 134]; bytes [226; 128; 135]; bytes [226; 128; 136];
    bytes [226; 128; 137]; bytes [226; 128; 138];
    bytes [226; 128; 168]; bytes [226; 128; 169];
    bytes [226; 128; 175];
    bytes [226; 129; 159];
    bytes [227; 128; 128];
    bytes [239; 187; 191] ]%nat.

Definition isWhiteSpace (c : string) : bool := existsb (String.eqb c) whiteSpace.

Fixpoint dropWhile {A} (p : A -> bool) (l : list A) : list A :=
  match l with
  | [] => []
  | x :: rest => if p x then dropWhile p rest else l
  end.

Definition concat (l : list string) : string := fold_right String.append EmptyString l.

Definition trimStart (s : string) : string :=
  concat (dropWhile isWhiteSpace (characters s)).

Definition trimEnd (s : string) : string :=
  concat (rev (dropWhile isWhiteSpace (rev (characters s)))).

(** [String.prototype.trim]. *)
Definition trim (s : string) : string :=
  concat (rev (dropWhile isWhiteSpace (rev (dropWhile isWhiteSpace (characters s))))).

Definition isDigit (c : ascii) : bool :=
  let n := nat_of_ascii c in (48 <=? n)%nat && (n <=? 57)%nat.

Fixpoint allDigits (s : string) : bool :=
  match s with
  | EmptyString => true
  | String.String c rest => isDigit c && allDigits rest
  end.

(** The names every object literal [{}] inherits from [Object.prototype];
    reading one of them on a plain object gives a function (or, for
    [__proto__], the prototype itself): a truthy value that is not an own
    property. *)
Definition Object_prototype_keys : list string :=
  [ "constructor"; "__defineGetter__"; "__defineSetter__"; "hasOwnProperty";
    "__lookupGetter__"; "__lookupSetter__"; "isPrototypeOf";
    "propertyIsEnumerable"; "toString"; "valueOf"; "__proto__";
    "toLocaleString" ].

Inductive Error : Type :=
| TypeError (message : string)
| DatabaseError (message : string).

(** The outcome of a call that may throw. *)
Inductive Result (A : Type) : Type :=
| Ok (a : A)
| Throw (e : Error).
Arguments Ok {A} a.
Arguments Throw {A} e.

Definition bind {A B} (m : Result A) (k : A -> Result B) : Result B :=
  match m with
  | Ok a => k a
  | Throw e => Throw e
  end.

End Js.

#[global] Instance result_bind : MBind Js.Result := fun A B f m => Js.bind m f.
#[global] Instance result_ret : MRet Js.Result := @Js.Ok.

(** ** The relational store as the pull queries see it *)

Module Sql.

(** A cell of a row.  Timestamps are epoch milliseconds. *)
Inductive Value : Type :=
| Null
| Bool (b : bool)
| Timestamp (t : Z)
| Text (s : string)
| Json (v : Js.Value).

Abbreviation Row := (gmap string Value).

(** The comparison operators the query builder is called with. *)
Inductive Op : Type := Gt | Lt | Eq | Is.

(** [cell op rhs] under SQL's rules: a comparison with NULL is not true,
    [IS] compares with NULL. *)
Definition holds (cell : Value) (op : Op) (rhs : Value) : bool :=
  match op, cell, rhs with
  | Gt, Timestamp a, Timestamp b => (b <? a)%Z
  | Lt, Timestamp a, Timestamp b => (a <? b)%Z
  | Eq, Bool a, Bool b => Bool.eqb a b
  | Eq, Text a, Text b => String.eqb a b
  | Eq, Timestamp a, Timestamp b => (a =? b)%Z
  | Is, Null, Null => true
  | _, _, _ => false
  end.

Definition cell (r : Row) (column : string) : Value :=
  match r !! column with
  | Some v => v
  | None => Null
  end.

(** [.where(column, op, rhs)] on the rows selected so far. *)
Definition where_ (column : string) (op : Op) (rhs : Value) (rows : list Row) : list Row :=
  List.filter (fun r => holds (cell r column) op rhs) rows.

(** The [id] column of a row, as the string the driver returns. *)
Definition id_of (r : Row) : string :=
  match cell r "id" with
  | Text s => s
  | _ => ""
  end.

(** A row counts as live when it is not soft-deleted. *)
Definition live (r : Row) : Prop :=
  cell r "deleted_at" = Null /\ cell r "is_deleted" = Bool false.

(** A read-only view of the database: the rows of every table. *)
Record Snapshot : Type := {
  selectFrom : string -> list Row;
}.

End Sql.

(** A table descriptor, the [Table] namespace of a model. *)
Record TableInfo : Type := {
  Table_name : string;
  Table_mobileName : string;
  Table_columns : list string;   (* Object.keys(Table.columns) *)
}.

(** ** JSON documents and their two textual forms *)

Module Json.

(** The JSON-representable part of a JavaScript value, with the integers
    for numbers. *)
Inductive t : Type :=
| Null
| Bool (b : bool)
| Num (z : Z)
| Str (s : string)
| Arr (items : list t)
| Obj (members : list (string * t)).

(** The one-character string made of a double quote. *)
Definition dquote : string := String.String (ascii_of_nat 34) EmptyString.

Definition hexDigit (n : nat) : ascii :=
  ascii_of_nat (if (n <? 10)%nat then 48 + n else 87 + n).

(** One character inside a JSON string literal. *)
Definition escapeChar (c : ascii) : string :=
  let n := nat_of_ascii c in
  if (n =? 34)%nat then "\" +:+ dquote
  else if (n =? 92)%nat then "\\"
  else if (n =? 8)%nat then "\b"
  else if (n =? 12)%nat then "\f"
  else if (n =? 10)%nat then "\n"
  else if (n =? 13)%nat then "\r"
  else if (n =? 9)%nat then "\t"
  else if (n <? 32)%nat then
    "\u00" +:+ String.String (hexDigit (n / 16)) (String.String (hexDigit (n mod 16)) "")
  else String.String c "".

Fixpoint escape (s : string) : string :=
  match s with
  | EmptyString => EmptyString
  | String.String c rest => escapeChar c +:+ escape rest
  end.

Definition quote (s : string) : string := dquote +:+ escape s +:+ dquote.

(** [Array.prototype.join] / the separator-joined concatenation. *)
Fixpoint join (sep : string) (parts : list string) : string :=
  match parts with
  | [] => ""
  | [x] => x
  | x :: rest => x +:+ sep +:+ join sep rest
  end.

(** [JSON.stringify(value)]: no white space, members in insertion order. *)
Fixpoint stringify (v : t) : string :=
  match v with
  | Null => "null"
  | Bool true => "true"
  | Bool false => "false"
  | Num z => pretty z
  | Str s => quote s
  | Arr items => "[" +:+ join "," (List.map stringify items) +:+ "]"
  | Obj members =>
      "{" +:+ join "," (List.map (fun kv => quote (fst kv) +:+ ":" +:+ stringify (snd kv)) members) +:+ "}"
  end.

(** *** The [jsonb] type of PostgreSQL *)

(** A stored document.  A number is a [numeric]: the integer [unscaled]
    with [scale] digits after the decimal point, so 70.5 and 70.50 are two
    documents, which are equal and print differently. *)
Inductive jsonb : Type :=
| JNull
| JBool (b : bool)
| JNumeric (unscaled : Z) (scale : nat)
| JStr (s : string)
| JArr (items : list jsonb)
| JObj (members : list (string * jsonb)).

Fixpoint bytes_ltb (a b : string) : bool :=
  match a, b with
  | EmptyString, EmptyString => false
  | EmptyString, _ => true
  | _, EmptyString => false
  | String.String x a', String.String y b' =>
      let n := nat_of_ascii x in
      let m := nat_of_ascii y in
      if (n <? m)%nat then true else if (m <? n)%nat then false else bytes_ltb a' b'
  end.

(** The order [jsonb] keeps object keys in: shorter keys first, keys of
    equal length by their bytes. *)
Definition key_ltb (a b : string) : bool :=
  let n := String.length a in
  let m := String.length b in
  if (n <? m)%nat then true else if (m <? n)%nat then false else bytes_ltb a b.

(** Insert a member into a list sorted by [key_ltb]; a member with the
    same key is replaced (the last occurrence of a key wins). *)
Fixpoint put (k : string) (v : jsonb) (members : list (string * jsonb))
    : list (string * jsonb) :=
  match members with
  | [] => [(k, v)]
  | (k', v') :: rest =>
      if String.eqb k k' then (k, v) :: rest
      else if key_ltb k k' then (k, v) :: members
      else (k', v') :: put k v rest
  end.

(** The [::jsonb] cast applied to the text [stringify] produced: the same
    document with the members of every object sorted and made unique; an
    integer is a [numeric] of scale zero. *)
Fixpoint jsonb_in (v : t) : jsonb :=
  match v with
  | Null => JNull
  | Bool b => JBool b
  | Num z => JNumeric z 0
  | Str s => JStr s
  | Arr items => JArr (List.map jsonb_in items)
  | Obj members =>
      JObj (fold_left (fun acc kv => put (fst kv) (jsonb_in (snd kv)) acc) members [])
  end.

Fixpoint zeros (n : nat) : string :=
  match n with
  | O => EmptyString
  | S n' => String.String "0" (zeros n')
  end.

(** The text of a [numeric]: [scale] digits after the point. *)
Definition numeric_out (unscaled : Z) (scale : nat) : string :=
  match scale with
  | O => pretty unscaled
  | _ =>
      let unit := 10 ^ Z.of_nat scale in
      let magnitude := Z.abs unscaled in
      let fraction := pretty (magnitude mod unit) in
      (if unscaled <? 0 then "-" else "") +:+ pretty (magnitude / unit) +:+ "."
      +:+ zeros (scale - String.length fraction) +:+ fraction
  end.

(** [jsonb::text]: a space after every comma and colon. *)
Fixpoint jsonb_out (v : jsonb) : string :=
  match v with
  | JNull => "null"
  | JBool true => "true"
  | JBool false => "false"
  | JNumeric unscaled scale => numeric_out unscaled scale
  | JStr s => quote s
  | JArr items => "[" +:+ join ", " (List.map jsonb_out items) +:+ "]"
  | JObj members =>
      "{" +:+ join ", " (List.map (fun kv => quote (fst kv) +:+ ": " +:+ jsonb_out (snd kv)) members) +:+ "}"
  end.

(** Equality of two [jsonb] values, the [=] of SQL: numbers are compared
    by their value, whatever their scale. *)
Fixpoint eqb (a b : jsonb) : bool :=
  match a, b with
  | JNull, JNull => true
  | JBool x, JBool y => Bool.eqb x y
  | JNumeric x s, JNumeric y s' => (x * 10 ^ Z.of_nat s' =? y * 10 ^ Z.of_nat s)%Z
  | JStr x, JStr y => String.eqb x y
  | JArr xs, JArr ys =>
      (fix go (xs ys : list jsonb) : bool :=
         match xs, ys with
         | [], [] => true
         | x :: xs', y :: ys' => eqb x y && go xs' ys'
         | _, _ => false
         end) xs ys
  | JObj xs, JObj ys =>
      (fix go (xs ys : list (string * jsonb)) : bool :=
         match xs, ys with
         | [], [] => true
         | (k, x) :: xs', (k', y) :: ys' => String.eqb k k' && eqb x y && go xs' ys'
         | _, _ => false
         end) xs ys
  | _, _ => false
  end.

(** Induction over stored documents, with the hypothesis for every item
    of an array and every member of an object. *)
Section Induction.
Variable P : jsonb -> Prop.
Hypothesis HNull : P JNull.
Hypothesis HBool : forall b, P (JBool b).
Hypothesis HNum : forall z scale, P (JNumeric z scale).
Hypothesis HStr : forall s, P (JStr s).
Hypothesis HArr : forall items, Forall P items -> P (JArr items).
Hypothesis HObj : forall members, Forall (fun kv => P (snd kv)) members -> P (JObj members).

Fixpoint induction (v : jsonb) : P v :=
  match v with
  | JNull => HNull
  | JBool b => HBool b
  | JNumeric z scale => HNum z scale
  | JStr s => HStr s
  | JArr items =>
      HArr items
        ((fix go (l : list jsonb) : Forall P l :=
            match l with
            | [] => @List.Forall_nil _ P
            | x :: l' => @List.Forall_cons _ P x l' (induction x) (go l')
            end) items)
  | JObj members =>
      HObj members
        ((fix go (l : list (string * jsonb)) : Forall (fun kv => P (snd kv)) l :=
            match l with
            | [] => @List.Forall_nil _ _
            | kv :: l' => @List.Forall_cons _ _ kv l' (induction (snd kv)) (go l')
            end) members)
  end.
End Induction.

(** Test data is written with apostrophes where the text has double
    quotes. *)
Fixpoint lit (s : string) : string :=
  match s with
  | EmptyString => EmptyString
  | String.String c rest =>
      String.String (if (nat_of_ascii c =? 39)%nat then ascii_of_nat 34 else c) (lit rest)
  end.

End Json.


(** ** What the sources rely on from outside *)

(** What one call draws from its surroundings: the identifier the k-th
    call of the UUID generator returns, [Date.now()], and the [now()] of
    the database. *)
Record Draw : Type := {
  uuidv7 : nat -> string;
  Date_now : Z;
  db_now : Z;
}.

(** The columns of [visits] that [upsert_core] hands to the database as
    they arrive in the request; [Js.Undefined] is a column the query
    builder leaves out of the INSERT, which then takes its default. *)
Record VisitGiven : Type := {
  given_id : Js.Value;
  given_patient_id : Js.Value;
  given_clinic_id : Js.Value;
  given_provider_id : Js.Value;
  given_provider_name : Js.Value;
  given_is_deleted : Js.Value;
}.

(** The same columns as the database stores them. *)
Record VisitStored : Type := {
  stored_id : string;
  stored_patient_id : string;
  stored_clinic_id : string;
  stored_provider_id : string;
  stored_provider_name : option string;
  stored_is_deleted : bool;
}.

(** Built-ins of JavaScript, Node and PostgreSQL, and [lib/utils], which the
    models import.  [toSafeDateString] and [safeJSONParse] take the current
    time because they may fall back to it. *)
Class Platform : Type := {
  (** [Number(string)] *)
  Number_of_string : string -> Js.Num;
  (** [createHash("sha256").update(s).digest("hex")] and pgcrypto's
      [encode(digest(s, 'sha256'), 'hex')] *)
  sha256_hex : string -> string;
  (** [toSafeDateString] of [lib/utils], at a given current time *)
  toSafeDateString : Z -> Js.Value -> string;
  (** [safeJSONParse] of [lib/utils]: the document a value holds, or the
      fallback *)
  safeJSONParse : Js.Value -> Json.t -> Json.t;
  (** the [::timestamp with time zone] cast of a string *)
  timestamptz_in : string -> Z;
  (** the [uuid] input function: the canonical text, or a failure *)
  uuid_in : string -> option string;
  (** the [inet] input function and [inet::text] *)
  inet_in : string -> option string;
  inet_out : string -> string;
  (** the table [visits], whose migration is not among the sources: what
      an INSERT stores for the columns handed over as they arrive (their
      types, defaults and constraints), or the error the database raises *)
  visits_in : Draw -> VisitGiven -> Js.Result VisitStored;
}.

(** ** The audit log, [models/event-logs.ts] and its migration *)

Module EventLog.

Inductive ActionType : Type :=
| CREATE | UPDATE | SOFT_DELETE | PERMANENT_DELETE | VIEW | EXPORT.

Definition actionTypeText (a : ActionType) : string :=
  match a with
  | CREATE => "CREATE"
  | UPDATE => "UPDATE"
  | SOFT_DELETE => "SOFT_DELETE"
  | PERMANENT_DELETE => "PERMANENT_DELETE"
  | VIEW => "VIEW"
  | EXPORT => "EXPORT"
  end.

(** A row of [event_logs], column by column as the migration creates
    them.  [uuid] and [inet] cells hold their canonical text. *)
Record Row : Type := {
  id : string;
  transaction_id : string;
  action_type : string;
  table_name : string;
  row_id : string;
  changes : Json.jsonb;
  device_id : string;
  app_id : string;
  user_id : string;
  ip_address : option string;
  hash : string;
  hash_verified : option bool;
  metadata : Json.jsonb;
  is_deleted : bool;
  created_at : Z;
  updated_at : Z;
  last_modified : Z;
  server_created_at : Z;
  deleted_at : option Z;
}.

(** The table, keyed by its primary key. *)
Abbreviation Table := (gmap string Row).

Record LogEventParams : Type := {
  transactionId : option string;
  actionType : ActionType;
  tableName : string;
  rowId : string;
  params_changes : Json.t;
  userId : string;
  params_metadata : option Json.t;
}.

Record RequestContext : Type := {
  ipAddress : option string;
  deviceId : string;
  appId : string;
}.

(** The argument of [computeHash]. *)
Record HashData : Type := {
  data_id : string;
  data_transactionId : string;
  data_actionType : string;
  data_tableName : string;
  data_rowId : string;
  data_changes : string;
  data_deviceId : string;
  data_appId : string;
  data_userId : string;
  data_ipAddress : option string;
  data_createdAt : Z;
}.

(** The string [computeHash] digests. *)
Definition payload (data : HashData) : string :=
  Json.join "|"
    [ data_id data;
      data_transactionId data;
      data_actionType data;
      data_tableName data;
      data_rowId data;
      data_changes data;
      data_deviceId data;
      data_appId data;
      data_userId data;
      default "" (data_ipAddress data);
      pretty (data_createdAt data) ].

Definition computeHash {platform : Platform} (data : HashData) : string :=
  sha256_hex (payload data).

(** The values an INSERT gives for the columns of a row; [None] is a
    column the statement does not mention, which takes its default. *)
Record Insert : Type := {
  ins_id : string;
  ins_transaction_id : string;
  ins_action_type : string;
  ins_table_name : string;
  ins_row_id : string;
  ins_changes : Json.t;
  ins_device_id : string;
  ins_app_id : string;
  ins_user_id : string;
  ins_ip_address : option string;
  ins_hash : string;
  ins_hash_verified : option (option bool);
  ins_metadata : Json.t;
  ins_is_deleted : option bool;
  ins_created_at : Z;
  ins_updated_at : option Z;
  ins_last_modified : option Z;
  ins_server_created_at : option Z;
  ins_deleted_at : option (option Z);
}.

(** The row an INSERT stores: the casts of the column types, and the
    defaults of the migration for the columns left out
    ([hash_verified] defaults to [false], the timestamps to [now()]).
    An identifier or address the column type does not accept fails. *)
Definition row_of_insert {platform : Platform} (now : Z) (v : Insert) : Js.Result Row :=
  match uuid_in (ins_id v), uuid_in (ins_transaction_id v),
        match ins_ip_address v with
        | None => Some None
        | Some a => Some <$> inet_in a
        end with
  | Some i, Some tx, Some ip =>
      Js.Ok {| id := i;
               transaction_id := tx;
               action_type := ins_action_type v;
               table_name := ins_table_name v;
               row_id := ins_row_id v;
               changes := Json.jsonb_in (ins_changes v);
               device_id := ins_device_id v;
               app_id := ins_app_id v;
               user_id := ins_user_id v;
               ip_address := ip;
               hash := ins_hash v;
               hash_verified := default (Some false) (ins_hash_verified v);
               metadata := Json.jsonb_in (ins_metadata v);
               is_deleted := default false (ins_is_deleted v);
               created_at := ins_created_at v;
               updated_at := default now (ins_updated_at v);
               last_modified := default now (ins_last_modified v);
               server_created_at := default now (ins_server_created_at v);
               deleted_at := default None (ins_deleted_at v) |}
  | _, _, _ => Js.Throw (Js.DatabaseError "invalid input syntax")
  end.

(** [insertInto("event_logs").values(rows).execute()]: one statement, all
    rows or none; a primary key already present fails it. *)
Fixpoint insert_rows {platform : Platform} (now : Z) (values : list Insert) (tbl : Table) : Js.Result Table :=
  match values with
  | [] => Js.Ok tbl
  | v :: rest =>
      r ← row_of_insert now v;
      match tbl !! id r with
      | Some _ => Js.Throw (Js.DatabaseError "duplicate key value violates unique constraint")
      | None => insert_rows now rest (<[id r := r]> tbl)
      end
  end.

(** The same statement with [.onConflict(oc => oc.column("id").doNothing())]. *)
Definition insert_or_ignore {platform : Platform} (now : Z) (v : Insert) (tbl : Table) : Js.Result Table :=
  r ← row_of_insert now v;
  match tbl !! id r with
  | Some _ => Js.Ok tbl
  | None => Js.Ok (<[id r := r]> tbl)
  end.

(** [logEvent(database, params, ctx)].  The [created_at] cell is the
    instant [createdAt]: the statement sends [toISOString()] of it and
    casts the text back. *)
Definition logEvent {platform : Platform} (d : Draw) (database : Table)
    (params : LogEventParams) (ctx : RequestContext) : Js.Result Table :=
  let id := uuidv7 d 0%nat in
  let transactionId := default (uuidv7 d 1%nat) (transactionId params) in
  let changesStr := Json.stringify (params_changes params) in
  let createdAt := Date_now d in
  let hash :=
    computeHash {| data_id := id;
                   data_transactionId := transactionId;
                   data_actionType := actionTypeText (actionType params);
                   data_tableName := tableName params;
                   data_rowId := rowId params;
                   data_changes := changesStr;
                   data_deviceId := deviceId ctx;
                   data_appId := appId ctx;
                   data_userId := userId params;
                   data_ipAddress := ipAddress ctx;
                   data_createdAt := createdAt |} in
  let metadata := default (Json.Obj []) (params_metadata params) in
  insert_rows (db_now d)
    [ {| ins_id := id;
         ins_transaction_id := transactionId;
         ins_action_type := actionTypeText (actionType params);
         ins_table_name := tableName params;
         ins_row_id := rowId params;
         ins_changes := params_changes params;
         ins_device_id := deviceId ctx;
         ins_app_id := appId ctx;
         ins_user_id := userId params;
         ins_ip_address := ipAddress ctx;
         ins_hash := hash;
         ins_hash_verified := None;
         ins_metadata := metadata;
         ins_is_deleted := None;
         ins_created_at := createdAt;
         ins_updated_at := None;
         ins_last_modified := None;
         ins_server_created_at := None;
         ins_deleted_at := None |} ]
    database.

(** [logEvents(database, events, ctx, sharedTransactionId)]. *)
Definition logEvents {platform : Platform} (d : Draw) (database : Table)
    (events : list LogEventParams) (ctx : RequestContext)
    (sharedTransactionId : option string) : Js.Result Table :=
  match events with
  | [] => Js.Ok database
  | _ =>
      let txId := default (uuidv7 d 0%nat) sharedTransactionId in
      let first := match sharedTransactionId with Some _ => 0%nat | None => 1%nat end in
      let createdAt := Date_now d in
      let rows :=
        imap (fun i params =>
          let id := uuidv7 d (first + i)%nat in
          let transactionId := default txId (transactionId params) in
          let changesStr := Json.stringify (params_changes params) in
          let hash :=
            computeHash {| data_id := id;
                           data_transactionId := transactionId;
                           data_actionType := actionTypeText (actionType params);
                           data_tableName := tableName params;
                           data_rowId := rowId params;
                           data_changes := changesStr;
                           data_deviceId := deviceId ctx;
                           data_appId := appId ctx;
                           data_userId := userId params;
                           data_ipAddress := ipAddress ctx;
                           data_createdAt := createdAt |} in
          let metadata := default (Json.Obj []) (params_metadata params) in
          {| ins_id := id;
             ins_transaction_id := transactionId;
             ins_action_type := actionTypeText (actionType params);
             ins_table_name := tableName params;
             ins_row_id := rowId params;
             ins_changes := params_changes params;
             ins_device_id := deviceId ctx;
             ins_app_id := appId ctx;
             ins_user_id := userId params;
             ins_ip_address := ipAddress ctx;
             ins_hash := hash;
             ins_hash_verified := None;
             ins_metadata := metadata;
             ins_is_deleted := None;
             ins_created_at := createdAt;
             ins_updated_at := None;
             ins_last_modified := None;
             ins_server_created_at := None;
             ins_deleted_at := None |}) events in
      insert_rows (db_now d) rows database
  end.

(** What a mobile client pushes for one audit row, [EventLog.EncodedT]. *)
Record EncodedT : Type := {
  enc_id : string;
  enc_transaction_id : string;
  enc_action_type : string;
  enc_table_name : string;
  enc_row_id : string;
  enc_changes : Js.Value;
  enc_device_id : string;
  enc_app_id : string;
  enc_user_id : string;
  enc_ip_address : option string;
  enc_hash : string;
  enc_metadata : Js.Value;
  enc_created_at : Js.Value;
  enc_updated_at : Js.Value;
}.

(** [API.insertFromSync(eventLog)]. *)
Definition insertFromSync {platform : Platform} (d : Draw) (eventLog : EncodedT) (tbl : Table) : Js.Result Table :=
  let changes := safeJSONParse (enc_changes eventLog) (Json.Obj []) in
  let metadata := safeJSONParse (enc_metadata eventLog) (Json.Obj []) in
  insert_or_ignore (db_now d)
    {| ins_id := enc_id eventLog;
       ins_transaction_id := enc_transaction_id eventLog;
       ins_action_type := enc_action_type eventLog;
       ins_table_name := enc_table_name eventLog;
       ins_row_id := enc_row_id eventLog;
       ins_changes := changes;
       ins_device_id := enc_device_id eventLog;
       ins_app_id := enc_app_id eventLog;
       ins_user_id := enc_user_id eventLog;
       ins_ip_address := enc_ip_address eventLog;
       ins_hash := enc_hash eventLog;
       ins_hash_verified := Some None;
       ins_metadata := metadata;
       ins_is_deleted := Some false;
       ins_created_at := timestamptz_in (toSafeDateString (Date_now d) (enc_created_at eventLog));
       ins_updated_at := Some (timestamptz_in (toSafeDateString (Date_now d) (enc_updated_at eventLog)));
       ins_last_modified := Some (db_now d);
       ins_server_created_at := Some (db_now d);
       ins_deleted_at := Some None |}
    tbl.

(** *** The immutability trigger *)

Inductive TG_OP : Type := TG_UPDATE | TG_DELETE.

Definition opt_eqb (a b : option string) : bool :=
  match a, b with
  | None, None => true
  | Some x, Some y => String.eqb x y
  | _, _ => false
  end.

(** The condition of the [IF] on an UPDATE. *)
Definition core_unchanged (OLD NEW : Row) : bool :=
  String.eqb (id NEW) (id OLD) &&
  String.eqb (transaction_id NEW) (transaction_id OLD) &&
  String.eqb (action_type NEW) (action_type OLD) &&
  String.eqb (table_name NEW) (table_name OLD) &&
  String.eqb (row_id NEW) (row_id OLD) &&
  Json.eqb (changes NEW) (changes OLD) &&
  String.eqb (device_id NEW) (device_id OLD) &&
  String.eqb (app_id NEW) (app_id OLD) &&
  String.eqb (user_id NEW) (user_id OLD) &&
  String.eqb (hash NEW) (hash OLD) &&
  opt_eqb (ip_address NEW) (ip_address OLD) &&
  (created_at NEW =? created_at OLD)%Z.

(** [prevent_event_log_mutation()], fired BEFORE UPDATE and BEFORE DELETE
    for each row.  [NEW] is the proposed row of an UPDATE. *)
Definition prevent_event_log_mutation (op : TG_OP) (OLD : Row) (NEW : option Row) : Js.Result Row :=
  match op, NEW with
  | TG_UPDATE, Some new =>
      if core_unchanged OLD new then Js.Ok new
      else Js.Throw (Js.DatabaseError "event_logs is append-only: UPDATE operations are not permitted")
  | TG_UPDATE, None =>
      Js.Throw (Js.DatabaseError "event_logs is append-only: UPDATE operations are not permitted")
  | TG_DELETE, _ =>
      Js.Throw (Js.DatabaseError "event_logs is append-only: DELETE operations are not permitted")
  end.

(** [UPDATE event_logs SET ... WHERE id = key]: the trigger sees the row
    before and after; a row that does not exist fires nothing. *)
Definition sql_update (key : string) (set : Row -> Row) (tbl : Table) : Js.Result Table :=
  match tbl !! key with
  | None => Js.Ok tbl
  | Some old =>
      new ← prevent_event_log_mutation TG_UPDATE old (Some (set old));
      Js.Ok (<[key := new]> tbl)
  end.

(** [DELETE FROM event_logs WHERE id = key]. *)
Definition sql_delete (key : string) (tbl : Table) : Js.Result Table :=
  match tbl !! key with
  | None => Js.Ok tbl
  | Some old =>
      _ ← prevent_event_log_mutation TG_DELETE old None;
      Js.Ok (delete key tbl)
  end.

(** *** The verification job *)

(** [concat_ws(sep, ...)]: NULL arguments are skipped. *)
Definition concat_ws (sep : string) (args : list (option string)) : string :=
  Json.join sep (omap (fun a => a) args).

(** The text the query digests for a stored row. *)
Definition stored_payload {platform : Platform} (r : Row) : string :=
  concat_ws "|"
    [ Some (id r);
      Some (transaction_id r);
      Some (action_type r);
      Some (table_name r);
      Some (row_id r);
      Some (Json.jsonb_out (changes r));
      Some (device_id r);
      Some (app_id r);
      Some (user_id r);
      Some (default "" (inet_out <$> ip_address r));
      Some (pretty (created_at r)) ].

Definition computed_hash {platform : Platform} (r : Row) : string :=
  sha256_hex (stored_payload r).

Definition set_hash_verified (v : option bool) (r : Row) : Row :=
  {| id := id r; transaction_id := transaction_id r; action_type := action_type r;
     table_name := table_name r; row_id := row_id r; changes := changes r;
     device_id := device_id r; app_id := app_id r; user_id := user_id r;
     ip_address := ip_address r; hash := hash r; hash_verified := v;
     metadata := metadata r; is_deleted := is_deleted r; created_at := created_at r;
     updated_at := updated_at r; last_modified := last_modified r;
     server_created_at := server_created_at r; deleted_at := deleted_at r |}.

(** The row after [SET metadata = m]. *)
Definition set_metadata (m : Json.jsonb) (r : Row) : Row :=
  {| id := id r; transaction_id := transaction_id r; action_type := action_type r;
     table_name := table_name r; row_id := row_id r; changes := changes r;
     device_id := device_id r; app_id := app_id r; user_id := user_id r;
     ip_address := ip_address r; hash := hash r; hash_verified := hash_verified r;
     metadata := m; is_deleted := is_deleted r; created_at := created_at r;
     updated_at := updated_at r; last_modified := last_modified r;
     server_created_at := server_created_at r; deleted_at := deleted_at r |}.

(** The row after [SET user_id = u]. *)
Definition set_user_id (u : string) (r : Row) : Row :=
  {| id := id r; transaction_id := transaction_id r; action_type := action_type r;
     table_name := table_name r; row_id := row_id r; changes := changes r;
     device_id := device_id r; app_id := app_id r; user_id := u;
     ip_address := ip_address r; hash := hash r; hash_verified := hash_verified r;
     metadata := metadata r; is_deleted := is_deleted r; created_at := created_at r;
     updated_at := updated_at r; last_modified := last_modified r;
     server_created_at := server_created_at r; deleted_at := deleted_at r |}.

(** The rows of the CTE [unverified]: at most 10000 rows whose
    [hash_verified] is NULL. *)
Definition unverified (tbl : Table) : list Row :=
  take (Z.to_nat 10000) (List.filter (fun r => match hash_verified r with None => true | Some _ => false end)
                (snd <$> map_to_list tbl)).

Record VerifyResult : Type := { verified : Z; failed : Z }.

(** [verifyHashes(database)]: the rows after the UPDATE and the two
    counts. *)
Definition verifyHashes {platform : Platform} (database : Table) : Js.Result (Table * VerifyResult) :=
  let us := unverified database in
  tbl ← foldl (fun acc u =>
                 t ← acc;
                 sql_update (id u)
                   (set_hash_verified (Some (String.eqb (hash u) (computed_hash u)))) t)
              (Js.Ok database) us;
  let total := Z.of_nat (length us) in
  let failed := Z.of_nat (length (List.filter (fun u => negb (String.eqb (hash u) (computed_hash u))) us)) in
  Js.Ok (tbl, {| verified := total - failed; failed := failed |}).

End EventLog.

(** ** The tables the push of visits writes *)

Module Db.

(** A row of [visits]. *)
Record VisitRow : Type := {
  id : string;
  patient_id : string;
  clinic_id : string;
  provider_id : string;
  provider_name : option string;
  check_in_timestamp : option Z;
  metadata : Json.jsonb;
  is_deleted : bool;
  created_at : Z;
  updated_at : Z;
  last_modified : Z;
  server_created_at : Z;
  deleted_at : option Z;
}.

(** A row of a table that points to a visit ([prescriptions.visit_id],
    [events.visit_id], [appointments.current_visit_id]): the columns a
    soft delete of the visit reads and writes, and the other cells. *)
Record LinkedRow : Type := {
  visit_ref : option string;
  linked_is_deleted : bool;
  linked_updated_at : Z;
  linked_last_modified : Z;
  linked_cells : Sql.Row;
}.

Record Store : Type := {
  visits : gmap string VisitRow;
  prescriptions : gmap string LinkedRow;
  events : gmap string LinkedRow;
  appointments : gmap string LinkedRow;
}.

End Db.

(** The [Sync] namespace of a model: apply one pushed record, apply one
    pushed deletion.  A call draws its identifiers and clocks from a
    [Draw]. *)
Record SyncAdapter : Type := {
  upsertFromDelta : Draw -> Js.Record -> Db.Store -> Js.Result Db.Store;
  deleteFromDelta : Draw -> string -> Db.Store -> Js.Result Db.Store;
}.

(** A model as the sync code uses it. *)
Record Entity : Type := {
  Table : TableInfo;
  Sync : SyncAdapter;
}.

(** ** [models/visit.ts] *)

Module Visit.

Definition Table : TableInfo :=
  {| Table_name := "visits";
     Table_mobileName := "visits";
     Table_columns :=
       [ "id"; "patient_id"; "clinic_id"; "provider_id"; "provider_name";
         "check_in_timestamp"; "metadata"; "is_deleted"; "created_at";
         "updated_at"; "last_modified"; "server_created_at"; "deleted_at" ] |}.

(** [Visit.EncodedT], the fields [upsert_core] reads: six columns as the
    database takes them, the dates and the metadata as they arrive. *)
Record EncodedT : Type := {
  id : string;
  patient_id : string;
  clinic_id : string;
  provider_id : string;
  provider_name : option string;
  check_in_timestamp : Js.Value;
  metadata : Js.Value;
  is_deleted : bool;
  created_at : Js.Value;
  updated_at : Js.Value;
}.

(** The row of the VALUES clause, [excluded] in the conflict clause. *)
Definition values {platform : Platform} (d : Draw) (visit : EncodedT) : Db.VisitRow :=
  {| Db.id := id visit;
     Db.patient_id := patient_id visit;
     Db.clinic_id := clinic_id visit;
     Db.provider_id := provider_id visit;
     Db.provider_name := provider_name visit;
     Db.check_in_timestamp :=
       if Js.truthy (check_in_timestamp visit)
       then Some (timestamptz_in (toSafeDateString (Date_now d) (check_in_timestamp visit)))
       else None;
     Db.metadata := Json.jsonb_in (safeJSONParse (metadata visit) (Json.Obj []));
     Db.is_deleted := is_deleted visit;
     Db.created_at := timestamptz_in (toSafeDateString (Date_now d) (created_at visit));
     Db.updated_at := timestamptz_in (toSafeDateString (Date_now d) (updated_at visit));
     Db.last_modified := db_now d;
     Db.server_created_at := db_now d;
     Db.deleted_at := None |}.

(** [doUpdateSet] on the row that is already there. *)
Definition doUpdateSet (d : Draw) (excluded old : Db.VisitRow) : Db.VisitRow :=
  {| Db.id := Db.id old;
     Db.patient_id := Db.patient_id excluded;
     Db.clinic_id := Db.clinic_id excluded;
     Db.provider_id := Db.provider_id excluded;
     Db.provider_name := Db.provider_name excluded;
     Db.check_in_timestamp := Db.check_in_timestamp excluded;
     Db.metadata := Db.metadata excluded;
     Db.is_deleted := Db.is_deleted excluded;
     Db.created_at := Db.created_at old;
     Db.updated_at := db_now d;
     Db.last_modified := db_now d;
     Db.server_created_at := Db.server_created_at old;
     Db.deleted_at := Db.deleted_at old |}.

(** [API.upsert_core(visit)]: INSERT ... ON CONFLICT (id) DO UPDATE. *)
Definition upsert_core {platform : Platform} (d : Draw) (visit : EncodedT) (s : Db.Store) : Db.Store :=
  let excluded := values d visit in
  let row :=
    match Db.visits s !! id visit with
    | None => excluded
    | Some old => doUpdateSet d excluded old
    end in
  {| Db.visits := <[id visit := row]> (Db.visits s);
     Db.prescriptions := Db.prescriptions s;
     Db.events := Db.events s;
     Db.appointments := Db.appointments s |}.

Definition mark_visit_deleted (now : Z) (r : Db.VisitRow) : Db.VisitRow :=
  {| Db.id := Db.id r;
     Db.patient_id := Db.patient_id r;
     Db.clinic_id := Db.clinic_id r;
     Db.provider_id := Db.provider_id r;
     Db.provider_name := Db.provider_name r;
     Db.check_in_timestamp := Db.check_in_timestamp r;
     Db.metadata := Db.metadata r;
     Db.is_deleted := true;
     Db.created_at := Db.created_at r;
     Db.updated_at := now;
     Db.last_modified := now;
     Db.server_created_at := Db.server_created_at r;
     Db.deleted_at := Db.deleted_at r |}.

(** The UPDATE of a linked table, [... WHERE visit_id = id]. *)
Definition mark_linked_deleted (now : Z) (id : string) (r : Db.LinkedRow) : Db.LinkedRow :=
  if bool_decide (Db.visit_ref r = Some id)
  then {| Db.visit_ref := Db.visit_ref r;
          Db.linked_is_deleted := true;
          Db.linked_updated_at := now;
          Db.linked_last_modified := now;
          Db.linked_cells := Db.linked_cells r |}
  else r.

(** [API.softDelete(id)]: one transaction, four UPDATEs. *)
Definition softDelete (d : Draw) (id : string) (s : Db.Store) : Db.Store :=
  {| Db.visits := alter (mark_visit_deleted (db_now d)) id (Db.visits s);
     Db.prescriptions := mark_linked_deleted (db_now d) id <$> Db.prescriptions s;
     Db.events := mark_linked_deleted (db_now d) id <$> Db.events s;
     Db.appointments := mark_linked_deleted (db_now d) id <$> Db.appointments s |}.

Definition field_value (delta : Js.Record) (key : string) : Js.Value :=
  default Js.Undefined (delta !! key).

(** The pushed record as [upsert_core] reads it: the cast of the source
    is unchecked, the database takes the columns or raises. *)
Definition decode {platform : Platform} (d : Draw) (delta : Js.Record) : Js.Result EncodedT :=
  stored ← visits_in d
              {| given_id := field_value delta "id";
                 given_patient_id := field_value delta "patient_id";
                 given_clinic_id := field_value delta "clinic_id";
                 given_provider_id := field_value delta "provider_id";
                 given_provider_name := field_value delta "provider_name";
                 given_is_deleted := field_value delta "is_deleted" |};
  Js.Ok {| id := stored_id stored;
           patient_id := stored_patient_id stored;
           clinic_id := stored_clinic_id stored;
           provider_id := stored_provider_id stored;
           provider_name := stored_provider_name stored;
           check_in_timestamp := field_value delta "check_in_timestamp";
           metadata := field_value delta "metadata";
           is_deleted := stored_is_deleted stored;
           created_at := field_value delta "created_at";
           updated_at := field_value delta "updated_at" |}.

(** The [Sync] namespace. *)
Definition Sync {platform : Platform} : SyncAdapter :=
  {| upsertFromDelta := fun d delta s =>
       visit ← decode d delta;
       Js.Ok (upsert_core d visit s);
     deleteFromDelta := fun d id s => Js.Ok (softDelete d id s) |}.

Definition Entity {platform : Platform} : Entity := Build_Entity Table Sync.

End Visit.

(** ** The other models *)

(** The [Table] namespaces of [models/event.ts], [models/event-form.ts],
    [models/prescription.ts] and [models/patient-problem.ts]. *)
Module Event.
Definition Table : TableInfo :=
  {| Table_name := "events";
     Table_mobileName := "events";
     Table_columns :=
       [ "id"; "patient_id"; "visit_id"; "form_id"; "event_type"; "form_data";
         "metadata"; "is_deleted"; "created_at"; "updated_at"; "last_modified";
         "server_created_at"; "deleted_at"; "recorded_by_user_id" ] |}.
End Event.

Module EventForm.
Definition Table : TableInfo :=
  {| Table_name := "event_forms";
     Table_mobileName := "event_forms";
     Table_columns :=
       [ "id"; "name"; "description"; "language"; "is_editable";
         "is_snapshot_form"; "form_fields"; "metadata"; "clinic_ids";
         "translations"; "is_deleted"; "created_at"; "updated_at";
         "last_modified"; "server_created_at"; "deleted_at" ] |}.
End EventForm.

Module Prescription.
Definition Table : TableInfo :=
  {| Table_name := "prescriptions";
     Table_mobileName := "prescriptions";
     Table_columns :=
       [ "id"; "patient_id"; "provider_id"; "filled_by"; "pickup_clinic_id";
         "visit_id"; "priority"; "expiration_date"; "prescribed_at";
         "filled_at"; "status"; "items"; "notes"; "metadata"; "is_deleted";
         "created_at"; "updated_at"; "deleted_at"; "last_modified";
         "server_created_at" ] |}.
End Prescription.

Module PatientProblem.
Definition Table : TableInfo :=
  {| Table_name := "patient_problems";
     Table_mobileName := "patient_problems";
     Table_columns :=
       [ "id"; "patient_id"; "visit_id"; "problem_code_system"; "problem_code";
         "problem_label"; "clinical_status"; "verification_status";
         "severity_score"; "onset_date"; "end_date"; "recorded_by_user_id";
         "metadata"; "is_deleted"; "created_at"; "updated_at"; "last_modified";
         "server_created_at"; "deleted_at" ] |}.
End PatientProblem.

(** The models [models/sync.ts] imports whose files are not part of this
    development, and the [Sync] namespaces of the four models above, which
    are left open here: the one of [models/event.ts] is modelled below on
    the record type of the source, and a statement that needs it says how
    the pushed record is read. *)
Class Models : Type := {
  Patient : Entity;
  PatientAdditionalAttribute : Entity;
  Clinic : Entity;
  PatientRegistrationForm : Entity;
  Appointment : Entity;
  PatientVital : Entity;
  ClinicDepartment : Entity;
  DrugCatalogue : Entity;
  ClinicInventory : Entity;
  DispensingRecord : Entity;
  PrescriptionItem : Entity;
  Event_Sync : SyncAdapter;
  EventForm_Sync : SyncAdapter;
  Prescription_Sync : SyncAdapter;
  PatientProblem_Sync : SyncAdapter;
}.

(** ** [models/sync.ts] *)

Module Sync.

(** [isEpochTimestamp(value)]: [/^\d{10,13}$/] on the trimmed string, or a
    number strictly between [1e9] and [1e14]. *)
Definition isEpochTimestamp (value : Js.Value) : bool :=
  match value with
  | Js.String s =>
      let t := Js.trim s in
      Js.allDigits t && (10 <=? String.length t)%nat && (String.length t <=? 13)%nat
  | Js.Number n =>
      Js.num_gt n (Js.of_Z 1000000000) && Js.num_lt n (Js.of_Z 100000000000000)
  | _ => false
  end.

(** [isDateColumn(name)]. *)
Definition isDateColumn (name : string) : bool :=
  Js.endsWith name "_at" || Js.endsWith name "_date" ||
  String.eqb name "timestamp" || String.eqb name "last_modified".

Section WithModels.
Context {platform : Platform} {models : Models}.

Definition ENTITIES_TO_PUSH_TO_MOBILE : list Entity :=
  [ Patient;
    PatientAdditionalAttribute;
    Clinic;
    Visit.Entity;
    Build_Entity Event.Table Event_Sync;
    Build_Entity EventForm.Table EventForm_Sync;
    PatientRegistrationForm;
    Appointment;
    Build_Entity Prescription.Table Prescription_Sync;
    PatientVital;
    Build_Entity PatientProblem.Table PatientProblem_Sync;
    ClinicDepartment;
    DrugCatalogue;
    ClinicInventory;
    DispensingRecord;
    PrescriptionItem ].

Definition ENTITIES_TO_PULL_FROM_MOBILE : list Entity :=
  [ Patient;
    PatientAdditionalAttribute;
    Visit.Entity;
    Build_Entity Event.Table Event_Sync;
    Appointment;
    Build_Entity Prescription.Table Prescription_Sync;
    PatientVital;
    Build_Entity PatientProblem.Table PatientProblem_Sync;
    DispensingRecord;
    PrescriptionItem ].

(** The own properties of [pushTableNameModelMap], the result of the
    [reduce] over an empty object literal. *)
Definition pushTableNameModelMap_own : gmap string Entity :=
  foldl (fun acc entity => <[Table_name (Table entity) := entity]> acc) ∅
        ENTITIES_TO_PULL_FROM_MOBILE.

(** What reading a property of a plain object gives. *)
Inductive Property : Type :=
| Own (entity : Entity)
| Inherited
| Absent.

(** [pushTableNameModelMap[tableName]]: an own property, else what the
    object inherits from [Object.prototype], else [undefined]. *)
Definition pushTableNameModelMap (tableName : string) : Property :=
  match pushTableNameModelMap_own !! tableName with
  | Some entity => Own entity
  | None =>
      if bool_decide (tableName ∈ Js.Object_prototype_keys) then Inherited else Absent
  end.

End WithModels.

(** [DeltaData], over the kind of record it carries. *)
Record DeltaData (R : Type) : Type := {
  created : list R;
  updated : list R;
  deleted : list string;
}.
Arguments created {R} _.
Arguments updated {R} _.
Arguments deleted {R} _.

Definition createDeltaData {R} (created updated : list R) (deleted : list string) : DeltaData R :=
  {| created := created; updated := updated; deleted := deleted |}.

(** [DBChangeSet]. *)
Abbreviation DBChangeSet := (gmap string (DeltaData Sql.Row)).

(** [getMaxHistoryDaysSync()], given the environment variable
    [MAX_HISTORY_DAYS_SYNC]. *)
Definition getMaxHistoryDaysSync {platform : Platform} (envValue : option string) : option Z :=
  match envValue with
  | None => None
  | Some v =>
      if String.eqb v "" then None
      else
        let days := Number_of_string v in
        if match days with Js.NaN => true | _ => false end
           || negb (Js.num_gt days (Js.of_Z 0))
           || negb (Js.isInteger days)
        then None
        else Some (Js.to_Z days)
  end.

Definition EXEMPT_FROM_HISTORY_LIMIT : list string :=
  [ "clinics"; "patient_registration_forms"; "event_forms"; "drug_catalogue";
    "clinic_departments"; "clinic_inventory" ].

(** [effectiveLastSyncDate] as [getDeltaRecords] computes it. *)
Definition effectiveLastSyncDate (maxHistoryDays : option Z) (now clientLastSyncDate : Z) : Z :=
  match maxHistoryDays with
  | Some days =>
      let cutoffDate := now - days * 24 * 60 * 60 * 1000 in
      if clientLastSyncDate <? cutoffDate then cutoffDate else clientLastSyncDate
  | None => clientLastSyncDate
  end.

(** [lastSyncDate] of one iteration of the loop over the entities. *)
Definition lastSyncDate (maxHistoryDays : option Z) (now clientLastSyncDate : Z)
    (entity : Entity) : Z :=
  let mobile_table_name := Table_mobileName (Table entity) in
  let isExemptFromHistoryLimit :=
    bool_decide (mobile_table_name ∈ EXEMPT_FROM_HISTORY_LIMIT) in
  if isExemptFromHistoryLimit then clientLastSyncDate
  else effectiveLastSyncDate maxHistoryDays now clientLastSyncDate.

(** The body of the loop: the three queries of one entity. *)
Definition entityDelta (db : Sql.Snapshot) (lastSyncedAt lastSyncDate : Z)
    (entity : Entity) : DeltaData Sql.Row :=
  let server_table_name := Table_name (Table entity) in
  let newRecords :=
    Sql.where_ "is_deleted" Sql.Eq (Sql.Bool false)
      (Sql.where_ "deleted_at" Sql.Is Sql.Null
         (Sql.where_ "server_created_at" Sql.Gt (Sql.Timestamp lastSyncDate)
            (Sql.selectFrom db server_table_name))) in
  let updatedRecords :=
    Sql.where_ "is_deleted" Sql.Eq (Sql.Bool false)
      (Sql.where_ "deleted_at" Sql.Is Sql.Null
         (Sql.where_ "server_created_at" Sql.Lt (Sql.Timestamp lastSyncDate)
            (Sql.where_ "last_modified" Sql.Gt (Sql.Timestamp lastSyncDate)
               (Sql.selectFrom db server_table_name)))) in
  let deletedRecords :=
    if lastSyncedAt =? 0 then []
    else
      Sql.where_ "is_deleted" Sql.Eq (Sql.Bool true)
        (Sql.where_ "deleted_at" Sql.Gt (Sql.Timestamp lastSyncDate)
           (Sql.selectFrom db server_table_name)) in
  createDeltaData newRecords updatedRecords (List.map Sql.id_of deletedRecords).

(** The delta of a table that only has [created_at] and [updated_at]. *)
Definition configDelta (db : Sql.Snapshot) (table : string) (clientLastSyncDate : Z)
    : DeltaData Sql.Row :=
  {| created :=
       Sql.where_ "created_at" Sql.Gt (Sql.Timestamp clientLastSyncDate)
         (Sql.selectFrom db table);
     updated :=
       Sql.where_ "updated_at" Sql.Gt (Sql.Timestamp clientLastSyncDate)
         (Sql.where_ "created_at" Sql.Lt (Sql.Timestamp clientLastSyncDate)
            (Sql.selectFrom db table));
     deleted := [] |}.

(** [getDeltaRecords(lastSyncedAt)], run at the instant [now] against the
    snapshot [db] with the environment variable [envValue]. *)
Definition getDeltaRecords {platform : Platform} {models : Models} (envValue : option string) (now : Z)
    (db : Sql.Snapshot) (lastSyncedAt : Z) : DBChangeSet :=
  let clientLastSyncDate := lastSyncedAt in
  let maxHistoryDays := getMaxHistoryDaysSync envValue in
  let result :=
    foldl (fun (result : DBChangeSet) entity =>
             let mobile_table_name := Table_mobileName (Table entity) in
             let lastSyncDate := lastSyncDate maxHistoryDays now clientLastSyncDate entity in
             <[mobile_table_name := entityDelta db lastSyncedAt lastSyncDate entity]> result)
          ∅ ENTITIES_TO_PUSH_TO_MOBILE in
  let result :=
    <["user_clinic_permissions" :=
        configDelta db "user_clinic_permissions" clientLastSyncDate]> result in
  let result :=
    <["app_config" := configDelta db "app_config" clientLastSyncDate]> result in
  result.

(** *** Push *)

(** The value of one table key of a [PushRequest]; a list that is
    missing is [undefined]. *)
Record PushDelta : Type := {
  push_created : option (list Js.Record);
  push_updated : option (list Js.Record);
  push_deleted : option (list string);
}.

(** [Object.entries(data)] of a [PushRequest]. *)
Abbreviation PushRequest := (list (string * option PushDelta)).

(** [value === 0 || value === "0"]. *)
Definition isZero (value : Js.Value) : bool :=
  match value with
  | Js.Number n => Js.num_is_zero n
  | Js.String s => String.eqb s "0"
  | _ => false
  end.

(** The callback of [.map] in the cleaning of a record. *)
Definition cleanValue {platform : Platform} (now : Z) (key : string) (value : Js.Value) : Js.Value :=
  if isEpochTimestamp value then Js.String (toSafeDateString now value)
  else if isZero value && isDateColumn key then Js.Null
  else value.

(** [cleaned]: the entries of the record whose key is a known column,
    each mapped by [cleanValue], as an object again. *)
Definition clean {platform : Platform} (now : Z) (knownColumns : list string) (record : Js.Record) : Js.Record :=
  map_imap (fun key value => Some (cleanValue now key value))
           (filter (fun kv => kv.1 ∈ knownColumns) record).

(** The progress of a push: how many adapter calls were made (each takes
    the next [Draw]) and the store. *)
Abbreviation World := (nat * Db.Store)%type.

Section Persist.
Context {platform : Platform} {models : Models}.
Variable draws : nat -> Draw.

Fixpoint upsertAll (entity : Entity) (records : list Js.Record) (w : World) : Js.Result World :=
  match records with
  | [] => Js.Ok w
  | record :: rest =>
      let d := draws w.1 in
      let knownColumns := Table_columns (Table entity) in
      let cleaned := clean (Date_now d) knownColumns record in
      s ← upsertFromDelta (Sync entity) d cleaned w.2;
      upsertAll entity rest (S w.1, s)
  end.

Fixpoint deleteAll (entity : Entity) (ids : list string) (w : World) : Js.Result World :=
  match ids with
  | [] => Js.Ok w
  | id :: rest =>
      s ← deleteFromDelta (Sync entity) (draws w.1) id w.2;
      deleteAll entity rest (S w.1, s)
  end.

(** One iteration of the loop over the tables of the request. *)
Definition persistTable (tableName : string) (newDeltaJson : option PushDelta)
    (w : World) : Js.Result World :=
  match pushTableNameModelMap tableName with
  | Absent => Js.Ok w
  | Inherited =>
      Js.Throw (Js.TypeError "Cannot read properties of undefined (reading 'columns')")
  | Own entity =>
      let deltaData_created := default [] (newDeltaJson ≫= push_created) in
      let deltaData_updated := default [] (newDeltaJson ≫= push_updated) in
      let deltaData_deleted := default [] (newDeltaJson ≫= push_deleted) in
      w ← upsertAll entity (deltaData_created ++ deltaData_updated) w;
      deleteAll entity deltaData_deleted w
  end.

(** [persistClientChanges(data)]. *)
Fixpoint persistClientChanges (data : PushRequest) (w : World) : Js.Result World :=
  match data with
  | [] => Js.Ok w
  | (tableName, newDeltaJson) :: rest =>
      w ← persistTable tableName newDeltaJson w;
      persistClientChanges rest w
  end.

End Persist.

End Sync.

(** ** Replaying a push of visits *)

Module Replay.

(** A row of [visits] with the two columns every write stamps with
    [now()] set aside. *)
Definition mask_visit (r : Db.VisitRow) : Db.VisitRow :=
  {| Db.id := Db.id r;
     Db.patient_id := Db.patient_id r;
     Db.clinic_id := Db.clinic_id r;
     Db.provider_id := Db.provider_id r;
     Db.provider_name := Db.provider_name r;
     Db.check_in_timestamp := Db.check_in_timestamp r;
     Db.metadata := Db.metadata r;
     Db.is_deleted := Db.is_deleted r;
     Db.created_at := Db.created_at r;
     Db.updated_at := 0;
     Db.last_modified := 0;
     Db.server_created_at := Db.server_created_at r;
     Db.deleted_at := Db.deleted_at r |}.

Definition mask_linked (r : Db.LinkedRow) : Db.LinkedRow :=
  {| Db.visit_ref := Db.visit_ref r;
     Db.linked_is_deleted := Db.linked_is_deleted r;
     Db.linked_updated_at := 0;
     Db.linked_last_modified := 0;
     Db.linked_cells := Db.linked_cells r |}.

(** The store up to [updated_at] and [last_modified]. *)
Definition mask (s : Db.Store) : Db.Store :=
  {| Db.visits := mask_visit <$> Db.visits s;
     Db.prescriptions := mask_linked <$> Db.prescriptions s;
     Db.events := mask_linked <$> Db.events s;
     Db.appointments := mask_linked <$> Db.appointments s |}.

(** A pushed visit that reads the same whenever it is pushed: none of
    its dates makes [toSafeDateString] fall back to the clock (cleaning
    it gives the same record at any time, and so does the conversion of
    its check-in time), and the database takes its columns the same way
    at every call. *)
Definition clock_free {platform : Platform} (record : Js.Record) : Prop :=
  forall d d',
    let cleaned := Sync.clean (Date_now d) (Table_columns Visit.Table) record in
    cleaned = Sync.clean (Date_now d') (Table_columns Visit.Table) record /\
    Visit.decode d cleaned = Visit.decode d' cleaned /\
    let check_in := Visit.field_value cleaned "check_in_timestamp" in
    (Js.truthy check_in = true ->
     toSafeDateString (Date_now d) check_in = toSafeDateString (Date_now d') check_in).

(** The calls a push of visits makes on the model. *)
Inductive Op : Type :=
| Upsert (d : Draw) (visit : Visit.EncodedT)
| Delete (d : Draw) (id : string).

Definition apply_op {platform : Platform} (s : Db.Store) (op : Op) : Db.Store :=
  match op with
  | Upsert d visit => Visit.upsert_core d visit s
  | Delete d id => Visit.softDelete d id s
  end.

Definition run {platform : Platform} (ops : list Op) (s : Db.Store) : Db.Store :=
  foldl apply_op s ops.

(** The calls of the first loop, or the error of the first record the
    database refuses. *)
Fixpoint plan_upserts {platform : Platform} (draws : nat -> Draw) (k : nat)
    (records : list Js.Record) : Js.Result (list Op) :=
  match records with
  | [] => Js.Ok []
  | record :: rest =>
      visit ← Visit.decode (draws k)
                 (Sync.clean (Date_now (draws k)) (Table_columns Visit.Table) record);
      ops ← plan_upserts draws (S k) rest;
      Js.Ok (Upsert (draws k) visit :: ops)
  end.

(** The calls of the second loop. *)
Fixpoint plan_deletes (draws : nat -> Draw) (k : nat) (ids : list string) : list Op :=
  match ids with
  | [] => []
  | id :: rest => Delete (draws k) id :: plan_deletes draws (S k) rest
  end.

(** What an upsert writes into a row that exists, apart from the stamps. *)
Record Payload : Type := {
  p_patient_id : string;
  p_clinic_id : string;
  p_provider_id : string;
  p_provider_name : option string;
  p_check_in_timestamp : option Z;
  p_metadata : Json.jsonb;
}.

Definition payload_of (r : Db.VisitRow) : Payload :=
  {| p_patient_id := Db.patient_id r;
     p_clinic_id := Db.clinic_id r;
     p_provider_id := Db.provider_id r;
     p_provider_name := Db.provider_name r;
     p_check_in_timestamp := Db.check_in_timestamp r;
     p_metadata := Db.metadata r |}.

(** The net effect of some calls on one existing row: the payload last
    written, the deletion flag last written. *)
Record Assign : Type := {
  set_payload : option Payload;
  set_deleted : option bool;
}.

Definition nothing : Assign := {| set_payload := None; set_deleted := None |}.

(** An assignment that sets both the payload and the flag. *)
Definition full (a : Assign) : Prop :=
  is_Some (set_payload a) /\ is_Some (set_deleted a).

(** [a], then [b]. *)
Definition then_ (a b : Assign) : Assign :=
  {| set_payload := match set_payload b with Some p => Some p | None => set_payload a end;
     set_deleted := match set_deleted b with Some p => Some p | None => set_deleted a end |}.

Definition assign (a : Assign) (r : Db.VisitRow) : Db.VisitRow :=
  let p := default (payload_of r) (set_payload a) in
  {| Db.id := Db.id r;
     Db.patient_id := p_patient_id p;
     Db.clinic_id := p_clinic_id p;
     Db.provider_id := p_provider_id p;
     Db.provider_name := p_provider_name p;
     Db.check_in_timestamp := p_check_in_timestamp p;
     Db.metadata := p_metadata p;
     Db.is_deleted := default (Db.is_deleted r) (set_deleted a);
     Db.created_at := Db.created_at r;
     Db.updated_at := 0;
     Db.last_modified := 0;
     Db.server_created_at := Db.server_created_at r;
     Db.deleted_at := Db.deleted_at r |}.

(** The effect of one call on the row [key]. *)
Definition effect {platform : Platform} (key : string) (op : Op) : Assign :=
  match op with
  | Upsert d visit =>
      if decide (Visit.id visit = key)
      then {| set_payload := Some (payload_of (Visit.values d visit));
              set_deleted := Some (Visit.is_deleted visit) |}
      else nothing
  | Delete d id =>
      if decide (id = key)
      then {| set_payload := None; set_deleted := Some true |}
      else nothing
  end.

Definition summary {platform : Platform} (key : string) (ops : list Op) : Assign :=
  foldl (fun acc op => then_ acc (effect key op)) nothing ops.

(** Two calls that write the same things. *)
Definition similar {platform : Platform} (a b : Op) : Prop :=
  match a, b with
  | Upsert d visit, Upsert d' visit' =>
      Visit.id visit = Visit.id visit' /\
      Visit.is_deleted visit = Visit.is_deleted visit' /\
      payload_of (Visit.values d visit) = payload_of (Visit.values d' visit')
  | Delete _ id, Delete _ id' => id = id'
  | _, _ => False
  end.

(** Whether one of the calls inserts or updates the row [key]. *)
Definition upserts (key : string) (op : Op) : bool :=
  match op with
  | Upsert _ visit => bool_decide (Visit.id visit = key)
  | Delete _ _ => false
  end.

(** Whether a call marks a linked row as deleted. *)
Definition hits (r : Db.LinkedRow) (op : Op) : bool :=
  match op with
  | Upsert _ _ => false
  | Delete _ id => bool_decide (Db.visit_ref r = Some id)
  end.

Definition linked_step (r : Db.LinkedRow) (op : Op) : Db.LinkedRow :=
  match op with
  | Upsert _ _ => r
  | Delete d id => Visit.mark_linked_deleted (db_now d) id r
  end.

Definition marked (r : Db.LinkedRow) : Db.LinkedRow :=
  {| Db.visit_ref := Db.visit_ref r;
     Db.linked_is_deleted := true;
     Db.linked_updated_at := 0;
     Db.linked_last_modified := 0;
     Db.linked_cells := Db.linked_cells r |}.

End Replay.

(** ** Test data *)

(** A platform and a set of models to evaluate the definitions on: decimal
    numerals for [Number], an injective stand-in for the digest, dates that
    are already in their final form. *)
Module Fixture.

Fixpoint digits_value (acc : Z) (s : string) : Z :=
  match s with
  | EmptyString => acc
  | String.String c rest => digits_value (10 * acc + (Z.of_nat (nat_of_ascii c) - 48)) rest
  end.

Definition number (s : string) : Js.Num :=
  if Js.allDigits s && negb (String.eqb s "") then Js.of_Z (digits_value 0 s) else Js.NaN.

(** Dates are written [@] followed by the epoch milliseconds; epoch
    numerals are converted, dates pass unchanged, anything else falls
    back to the clock. *)
Definition date_text (now : Z) (v : Js.Value) : string :=
  match v with
  | Js.String s =>
      let t := Js.trim s in
      if Js.allDigits t && negb (String.eqb t "") then "@" +:+ t
      else
        match t with
        | String.String "@" rest =>
            if Js.allDigits rest && negb (String.eqb rest "") then t else "@" +:+ pretty now
        | _ => "@" +:+ pretty now
        end
  | Js.Number n => "@" +:+ pretty (Js.to_Z n)
  | _ => "@" +:+ pretty now
  end.

Definition date_value (s : string) : Z :=
  match s with
  | String.String _ rest => digits_value 0 rest
  | EmptyString => 0
  end.

(** A [visits] table with four text columns that are NOT NULL, a nullable
    [provider_name] and an [is_deleted] that defaults to false. *)
Definition visits_text (column : string) (v : Js.Value) : Js.Result string :=
  match v with
  | Js.String s => Js.Ok s
  | Js.Null | Js.Undefined =>
      Js.Throw (Js.DatabaseError ("null value in column " +:+ column))
  | _ => Js.Throw (Js.DatabaseError ("invalid input for column " +:+ column))
  end.

Definition visits_table (d : Draw) (given : VisitGiven) : Js.Result VisitStored :=
  i ← visits_text "id" (given_id given);
  p ← visits_text "patient_id" (given_patient_id given);
  c ← visits_text "clinic_id" (given_clinic_id given);
  pr ← visits_text "provider_id" (given_provider_id given);
  n ← match given_provider_name given with
      | Js.String s => Js.Ok (Some s)
      | Js.Null | Js.Undefined => Js.Ok None
      | _ => Js.Throw (Js.DatabaseError "invalid input for column provider_name")
      end;
  del ← match given_is_deleted given with
        | Js.Boolean b => Js.Ok b
        | Js.Undefined => Js.Ok false
        | Js.Null => Js.Throw (Js.DatabaseError "null value in column is_deleted")
        | _ => Js.Throw (Js.DatabaseError "invalid input for column is_deleted")
        end;
  Js.Ok {| stored_id := i; stored_patient_id := p; stored_clinic_id := c;
           stored_provider_id := pr; stored_provider_name := n;
           stored_is_deleted := del |}.

#[export] Instance platform : Platform :=
  {| Number_of_string := number;
     sha256_hex := fun s => s;
     toSafeDateString := date_text;
     safeJSONParse := fun _ fallback => fallback;
     timestamptz_in := date_value;
     uuid_in := Some;
     inet_in := Some;
     inet_out := fun a => a +:+ "/32";
     visits_in := visits_table |}.

Definition no_sync : SyncAdapter :=
  {| upsertFromDelta := fun _ _ s => Js.Ok s;
     deleteFromDelta := fun _ _ s => Js.Ok s |}.

Definition table (name : string) : Entity :=
  Build_Entity {| Table_name := name; Table_mobileName := name; Table_columns := ["id"] |} no_sync.

#[export] Instance models : Models :=
  {| Patient := table "patients";
     PatientAdditionalAttribute := table "patient_additional_attributes";
     Clinic := table "clinics";
     PatientRegistrationForm := table "patient_registration_forms";
     Appointment := table "appointments";
     PatientVital := table "patient_vitals";
     ClinicDepartment := table "clinic_departments";
     DrugCatalogue := table "drug_catalogue";
     ClinicInventory := table "clinic_inventory";
     DispensingRecord := table "dispensing_records";
     PrescriptionItem := table "prescription_items";
     Event_Sync := no_sync;
     EventForm_Sync := no_sync;
     Prescription_Sync := no_sync;
     PatientProblem_Sync := no_sync |}.

(** A row of a synced table. *)
Definition row (id : string) (server_created_at last_modified : Z) : Sql.Row :=
  <["id" := Sql.Text id]>
    (<["server_created_at" := Sql.Timestamp server_created_at]>
       (<["last_modified" := Sql.Timestamp last_modified]>
          (<["deleted_at" := Sql.Null]>
             (<["is_deleted" := Sql.Bool false]> ∅)))).

(** A snapshot in which one table has the given rows. *)
Definition only (table : string) (rows : list Sql.Row) : Sql.Snapshot :=
  {| Sql.selectFrom := fun t => if String.eqb t table then rows else [] |}.

Definition day : Z := 24 * 60 * 60 * 1000.

(** A push of one new visit, and a clock that advances with every call. *)
Definition visit_record : Js.Record :=
  list_to_map
    [ ("id", Js.String "v1");
      ("patient_id", Js.String "p1");
      ("clinic_id", Js.String "c1");
      ("provider_id", Js.String "u1");
      ("provider_name", Js.Null);
      ("check_in_timestamp", Js.Number (Js.of_Z 1770647000000));
      ("metadata", Js.Object []);
      ("is_deleted", Js.Boolean false);
      ("created_at", Js.String "1770647055887");
      ("updated_at", Js.String "1770647055887");
      ("_status", Js.String "created") ].

Definition visit_delta : Sync.PushDelta :=
  {| Sync.push_created := Some [visit_record];
     Sync.push_updated := Some [];
     Sync.push_deleted := Some [] |}.

Definition visit_push : Sync.PushRequest := [("visits", Some visit_delta)].

Definition ticking (k : nat) : Draw :=
  {| uuidv7 := fun _ => "019c4a7e-5b0f-7000-8000-00000000000f";
     Date_now := 1770650000000 + Z.of_nat k;
     db_now := 1770650000000 + Z.of_nat k |}.

Definition empty_store : Db.Store :=
  {| Db.visits := ∅; Db.prescriptions := ∅; Db.events := ∅; Db.appointments := ∅ |}.

(** The logging scenario: an UPDATE of the surname of patient [p1]. *)
Definition uuids (k : nat) : string :=
  match k with
  | O => "019c4a7e-5b0f-7000-8000-000000000001"
  | _ => "019c4a7e-5b0f-7000-8000-000000000002"
  end.

Definition draw : Draw :=
  {| uuidv7 := uuids; Date_now := 1770647055887; db_now := 1770647055901 |}.

Definition surname_changes : Json.t :=
  Json.Obj [("surname", Json.Obj [("old", Json.Str "Doe"); ("new", Json.Str "Smith")])].

Definition surname_update : EventLog.LogEventParams :=
  {| EventLog.transactionId := None;
     EventLog.actionType := EventLog.UPDATE;
     EventLog.tableName := "patients";
     EventLog.rowId := "p1";
     EventLog.params_changes := surname_changes;
     EventLog.userId := "u1";
     EventLog.params_metadata := None |}.

Definition ctx : EventLog.RequestContext :=
  {| EventLog.ipAddress := None; EventLog.deviceId := "ua-hash"; EventLog.appId := "web" |}.

(** What [logEvent] hands to [computeHash] in the scenario. *)
Definition surname_data : EventLog.HashData :=
  {| EventLog.data_id := "019c4a7e-5b0f-7000-8000-000000000001";
     EventLog.data_transactionId := "019c4a7e-5b0f-7000-8000-000000000002";
     EventLog.data_actionType := "UPDATE";
     EventLog.data_tableName := "patients";
     EventLog.data_rowId := "p1";
     EventLog.data_changes := Json.stringify surname_changes;
     EventLog.data_deviceId := "ua-hash";
     EventLog.data_appId := "web";
     EventLog.data_userId := "u1";
     EventLog.data_ipAddress := None;
     EventLog.data_createdAt := 1770647055887 |}.

(** The row [logEvent] stores for the scenario. *)
Definition surname_row : EventLog.Row :=
  {| EventLog.id := "019c4a7e-5b0f-7000-8000-000000000001";
     EventLog.transaction_id := "019c4a7e-5b0f-7000-8000-000000000002";
     EventLog.action_type := "UPDATE";
     EventLog.table_name := "patients";
     EventLog.row_id := "p1";
     EventLog.changes :=
       Json.JObj [("surname", Json.JObj [("new", Json.JStr "Smith"); ("old", Json.JStr "Doe")])];
     EventLog.device_id := "ua-hash";
     EventLog.app_id := "web";
     EventLog.user_id := "u1";
     EventLog.ip_address := None;
     EventLog.hash :=
       Json.lit ("019c4a7e-5b0f-7000-8000-000000000001|019c4a7e-5b0f-7000-8000-000000000002|"
                 +:+ "UPDATE|patients|p1|{'surname':{'old':'Doe','new':'Smith'}}|"
                 +:+ "ua-hash|web|u1||1770647055887");
     EventLog.hash_verified := Some false;
     EventLog.metadata := Json.JObj [];
     EventLog.is_deleted := false;
     EventLog.created_at := 1770647055887;
     EventLog.updated_at := 1770647055901;
     EventLog.last_modified := 1770647055901;
     EventLog.server_created_at := 1770647055901;
     EventLog.deleted_at := None |}.

(** The same row after an UPDATE of the columns the trigger does not
    compare. *)
Definition surname_row_touched : EventLog.Row :=
  {| EventLog.id := EventLog.id surname_row;
     EventLog.transaction_id := EventLog.transaction_id surname_row;
     EventLog.action_type := EventLog.action_type surname_row;
     EventLog.table_name := EventLog.table_name surname_row;
     EventLog.row_id := EventLog.row_id surname_row;
     EventLog.changes := EventLog.changes surname_row;
     EventLog.device_id := EventLog.device_id surname_row;
     EventLog.app_id := EventLog.app_id surname_row;
     EventLog.user_id := EventLog.user_id surname_row;
     EventLog.ip_address := EventLog.ip_address surname_row;
     EventLog.hash := EventLog.hash surname_row;
     EventLog.hash_verified := Some true;
     EventLog.metadata := EventLog.metadata surname_row;
     EventLog.is_deleted := true;
     EventLog.created_at := EventLog.created_at surname_row;
     EventLog.updated_at := 1770999999999;
     EventLog.last_modified := 1770999999999;
     EventLog.server_created_at := EventLog.server_created_at surname_row;
     EventLog.deleted_at := Some 1770999999999 |}.

End Fixture.

(** * Further models *)

(** ** The request context, [models/event-logs.ts] and the audit helpers
    of the server functions *)

Module Request.

(** A header of an incoming message: one string, or several. *)
Inductive HeaderValue : Type :=
| One (s : string)
| Many (l : list string).

(** [s.split(",")[0]]. *)
Fixpoint before_comma (s : string) : string :=
  match s with
  | EmptyString => EmptyString
  | String.String c rest =>
      if (nat_of_ascii c =? 44)%nat then EmptyString else String.String c (before_comma rest)
  end.

(** [a || b] on values that are a string, null or undefined. *)
Definition or_else (a b : option string) : option string :=
  match a with
  | Some s => if String.eqb s "" then b else Some s
  | None => b
  end.

(** [extractRequestContext(req)], from the header [x-forwarded-for], the
    address of the socket and the header [user-agent]. *)
Definition extractRequestContext {platform : Platform} (forwarded : option HeaderValue)
    (remoteAddress : option string) (userAgent : option string) : EventLog.RequestContext :=
  let forwardedIp :=
    match forwarded with
    | Some (One s) => Some (Js.trim (before_comma s))
    | Some (Many (first :: _)) => Some (Js.trim (before_comma first))
    | Some (Many []) => None
    | None => None
    end in
  let ipAddress := or_else (or_else forwardedIp remoteAddress) None in
  let deviceId := sha256_hex (default "unknown" userAgent) in
  {| EventLog.ipAddress := ipAddress;
     EventLog.deviceId := deviceId;
     EventLog.appId := "web" |}.

(** [getWebRequestContext()].  [getHeader] is [None] outside a request,
    where the call of the source throws and the initial values stay. *)
Definition getWebRequestContext {platform : Platform}
    (getHeader : option (string -> option string)) : EventLog.RequestContext :=
  match getHeader with
  | None =>
      {| EventLog.ipAddress := None; EventLog.deviceId := "unknown"; EventLog.appId := "web" |}
  | Some header =>
      let ipAddress :=
        match header "x-forwarded-for" with
        | Some forwarded => Some (Js.trim (before_comma forwarded))
        | None => None
        end in
      let userAgent := default "unknown" (header "user-agent") in
      {| EventLog.ipAddress := ipAddress;
         EventLog.deviceId := sha256_hex userAgent;
         EventLog.appId := "web" |}
  end.

(** [logAuditEvent(params)]: the table after the call; an error of
    [logEvent] is caught and logged. *)
Definition logAuditEvent {platform : Platform} (d : Draw)
    (getHeader : option (string -> option string)) (database : EventLog.Table)
    (params : EventLog.LogEventParams) : EventLog.Table :=
  match EventLog.logEvent d database params (getWebRequestContext getHeader) with
  | Js.Ok after => after
  | Js.Throw _ => database
  end.

(** Whether a string holds a comma. *)
Fixpoint has_comma (s : string) : bool :=
  match s with
  | EmptyString => false
  | String.String c rest => (nat_of_ascii c =? 44)%nat || has_comma rest
  end.

End Request.

(** ** The verification job, row by row *)

Module Job.

(** The verdict of the job on a row. *)
Definition verdict {platform : Platform} (u : EventLog.Row) : bool :=
  String.eqb (EventLog.hash u) (EventLog.computed_hash u).

(** The row in which every field lies under the key it names. *)
Definition keyed_by_id (tbl : EventLog.Table) : Prop :=
  forall key r, tbl !! key = Some r -> EventLog.id r = key.

(** The table after every unverified row has received its verdict. *)
Definition settled {platform : Platform} (tbl : EventLog.Table) : EventLog.Table :=
  (fun r => match EventLog.hash_verified r with
            | None => EventLog.set_hash_verified (Some (verdict r)) r
            | Some _ => r
            end) <$> tbl.

(** The argument of [computeHash] for an entry on another table and row. *)
Definition filed_under (data : EventLog.HashData) (tableName rowId : string)
    : EventLog.HashData :=
  {| EventLog.data_id := EventLog.data_id data;
     EventLog.data_transactionId := EventLog.data_transactionId data;
     EventLog.data_actionType := EventLog.data_actionType data;
     EventLog.data_tableName := tableName;
     EventLog.data_rowId := rowId;
     EventLog.data_changes := EventLog.data_changes data;
     EventLog.data_deviceId := EventLog.data_deviceId data;
     EventLog.data_appId := EventLog.data_appId data;
     EventLog.data_userId := EventLog.data_userId data;
     EventLog.data_ipAddress := EventLog.data_ipAddress data;
     EventLog.data_createdAt := EventLog.data_createdAt data |}.

End Job.

(** ** The stored visits as a pull reads them *)

Module VisitView.

Definition opt_timestamp (t : option Z) : Sql.Value :=
  match t with
  | Some t => Sql.Timestamp t
  | None => Sql.Null
  end.

Definition opt_text (t : option string) : Sql.Value :=
  match t with
  | Some t => Sql.Text t
  | None => Sql.Null
  end.

(** A row of [visits] as [selectAll()] returns it; the [jsonb] cell is
    kept by its text. *)
Definition sql_row (r : Db.VisitRow) : Sql.Row :=
  list_to_map
    [ ("id", Sql.Text (Db.id r));
      ("patient_id", Sql.Text (Db.patient_id r));
      ("clinic_id", Sql.Text (Db.clinic_id r));
      ("provider_id", Sql.Text (Db.provider_id r));
      ("provider_name", opt_text (Db.provider_name r));
      ("check_in_timestamp", opt_timestamp (Db.check_in_timestamp r));
      ("metadata", Sql.Text (Json.jsonb_out (Db.metadata r)));
      ("is_deleted", Sql.Bool (Db.is_deleted r));
      ("created_at", Sql.Timestamp (Db.created_at r));
      ("updated_at", Sql.Timestamp (Db.updated_at r));
      ("last_modified", Sql.Timestamp (Db.last_modified r));
      ("server_created_at", Sql.Timestamp (Db.server_created_at r));
      ("deleted_at", opt_timestamp (Db.deleted_at r)) ].

(** The database a pull sees when [visits] is the table of the store. *)
Definition snapshot (s : Db.Store) : Sql.Snapshot :=
  {| Sql.selectFrom := fun table =>
       if String.eqb table "visits" then sql_row <$> (map_to_list (Db.visits s)).*2 else [] |}.

(** No visit of the store has a [deleted_at]. *)
Definition no_deleted_at (s : Db.Store) : Prop :=
  forall key r, Db.visits s !! key = Some r -> Db.deleted_at r = None.

(** The three tables whose rows point to a visit. *)
Definition linked_tables : list (Db.Store -> gmap string Db.LinkedRow) :=
  [ Db.prescriptions; Db.events; Db.appointments ].

(** The ids a list of calls upserts, and the ids it deletes. *)
Definition upserted (ops : list Replay.Op) : list string :=
  omap (fun op => match op with
                  | Replay.Upsert _ visit => Some (Visit.id visit)
                  | Replay.Delete _ _ => None
                  end) ops.

Definition deleted (ops : list Replay.Op) : list string :=
  omap (fun op => match op with
                  | Replay.Upsert _ _ => None
                  | Replay.Delete _ id => Some id
                  end) ops.

End VisitView.

(** ** [Event.API.save] and [Event.API.softDelete], [models/event.ts] *)

Module EventApi.

(** [Event.EncodedT], the fields [save] reads; [None] is a field that is
    null or missing. *)
Record EncodedT : Type := {
  id : option string;
  patient_id : string;
  visit_id : option string;
  form_id : option string;
  event_type : option string;
  form_data : Js.Value;
  metadata : Js.Value;
  created_at : Js.Value;
  updated_at : Js.Value;
  recorded_by_user_id : option string;
}.

(** The row the query on [users] returns: [clinic_id], [id], [name]. *)
Record User : Type := {
  user_clinic_id : option string;
  user_id : string;
  user_name : string;
}.

(** [typeof v === "string" && isValidUUID(v)]. *)
Definition valid (isValidUUID : string -> bool) (v : option string) : bool :=
  match v with
  | Some s => isValidUUID s
  | None => false
  end.

(** The visit [save] inserts when the event has none. *)
Definition artificial_visit {platform : Platform} (d : Draw) (insertVisitId : string)
    (user : User) (event : EncodedT) : Db.VisitRow :=
  {| Db.id := insertVisitId;
     Db.patient_id := patient_id event;
     Db.clinic_id := default "" (Request.or_else (user_clinic_id user) None);
     Db.provider_id := user_id user;
     Db.provider_name := Some (user_name user);
     Db.check_in_timestamp :=
       if Js.truthy (created_at event)
       then Some (timestamptz_in (toSafeDateString (Date_now d) (created_at event)))
       else None;
     Db.metadata :=
       Json.jsonb_in
         (Json.Obj
            ([ ("artificially_created", Json.Bool true);
               ("created_from", Json.Str "server_event_creation") ]
             ++ match id event with
                | Some i => [("original_event_id", Json.Str i)]
                | None => []
                end)%list);
     Db.is_deleted := false;
     Db.created_at := db_now d;
     Db.updated_at := db_now d;
     Db.last_modified := db_now d;
     Db.server_created_at := db_now d;
     Db.deleted_at := None |}.

(** The cells of [events] the conflict clause takes from the new row. *)
Definition written_cells {platform : Platform} (event : EncodedT) : Sql.Row :=
  list_to_map
    [ ("patient_id", Sql.Text (patient_id event));
      ("form_id", VisitView.opt_text (form_id event));
      ("event_type", VisitView.opt_text (event_type event));
      ("form_data", Sql.Text (Json.jsonb_out (Json.jsonb_in (safeJSONParse (form_data event) (Json.Arr [])))));
      ("metadata", Sql.Text (Json.jsonb_out (Json.jsonb_in (safeJSONParse (metadata event) (Json.Obj [])))));
      ("recorded_by_user_id", VisitView.opt_text (recorded_by_user_id event)) ].

(** The row of the VALUES clause of the INSERT into [events]. *)
Definition event_values {platform : Platform} (d : Draw) (eventId : string)
    (visitId : option string) (event : EncodedT) : Db.LinkedRow :=
  {| Db.visit_ref := visitId;
     Db.linked_is_deleted := false;
     Db.linked_updated_at := timestamptz_in (toSafeDateString (Date_now d) (updated_at event));
     Db.linked_last_modified := db_now d;
     Db.linked_cells :=
       <["id" := Sql.Text eventId]>
         (<["created_at" :=
              Sql.Timestamp (timestamptz_in (toSafeDateString (Date_now d) (created_at event)))]>
            (<["server_created_at" := Sql.Timestamp (db_now d)]>
               (<["deleted_at" := Sql.Null]> (written_cells event)))) |}.

(** [doUpdateSet] on the event that is already there: the written cells
    come from the new row, the others stay. *)
Definition event_update {platform : Platform} (d : Draw) (excluded old : Db.LinkedRow)
    (event : EncodedT) : Db.LinkedRow :=
  {| Db.visit_ref := Db.visit_ref excluded;
     Db.linked_is_deleted := Db.linked_is_deleted excluded;
     Db.linked_updated_at := db_now d;
     Db.linked_last_modified := db_now d;
     Db.linked_cells := written_cells event ∪ Db.linked_cells old |}.

(** [API.save(id, event)], given [isValidUUID] of [lib/utils], the row
    the query on [users] finds and the identifiers the calls of [uuidV1()]
    return, in order. *)
Definition save {platform : Platform} (isValidUUID : string -> bool)
    (uuidV1 : nat -> string) (d : Draw) (user : option User) (id : option string)
    (event : EncodedT) (s : Db.Store) : Js.Result Db.Store :=
  let visitExists :=
    match visit_id event with
    | Some v => isValidUUID v && bool_decide (is_Some (Db.visits s !! v))
    | None => false
    end in
  let upsert (calls : nat) (visitId : option string) (s : Db.Store) : Js.Result Db.Store :=
    let eventId :=
      default (uuidV1 calls) (Request.or_else (Request.or_else id (EventApi.id event)) None) in
    let excluded := event_values d eventId visitId event in
    let row :=
      match Db.events s !! eventId with
      | None => excluded
      | Some old => event_update d excluded old event
      end in
    Js.Ok {| Db.visits := Db.visits s;
             Db.prescriptions := Db.prescriptions s;
             Db.events := <[eventId := row]> (Db.events s);
             Db.appointments := Db.appointments s |} in
  if visitExists then upsert 0%nat (visit_id event) s
  else
    match user with
    | None => Js.Ok s
    | Some user =>
        let generated := negb (valid isValidUUID (visit_id event)) in
        let insertVisitId :=
          if generated then uuidV1 0%nat else default "" (visit_id event) in
        match Db.visits s !! insertVisitId with
        | Some _ =>
            Js.Throw (Js.DatabaseError "duplicate key value violates unique constraint")
        | None =>
            upsert (if generated then 1%nat else 0%nat) (Some insertVisitId)
              {| Db.visits := <[insertVisitId := artificial_visit d insertVisitId user event]>
                                (Db.visits s);
                 Db.prescriptions := Db.prescriptions s;
                 Db.events := Db.events s;
                 Db.appointments := Db.appointments s |}
        end
    end.

(** [API.softDelete(id)] of an event. *)
Definition softDelete (d : Draw) (id : string) (s : Db.Store) : Db.Store :=
  {| Db.visits := Db.visits s;
     Db.prescriptions := Db.prescriptions s;
     Db.events :=
       alter (fun r => {| Db.visit_ref := Db.visit_ref r;
                          Db.linked_is_deleted := true;
                          Db.linked_updated_at := db_now d;
                          Db.linked_last_modified := db_now d;
                          Db.linked_cells := Db.linked_cells r |}) id (Db.events s);
     Db.appointments := Db.appointments s |}.

(** The [Sync] namespace. *)
Definition upsertFromDelta {platform : Platform} (isValidUUID : string -> bool)
    (uuidV1 : nat -> string) (d : Draw) (user : option User) (delta : EncodedT)
    (s : Db.Store) : Js.Result Db.Store :=
  save isValidUUID uuidV1 d user (id delta) delta s.

Definition deleteFromDelta (d : Draw) (id : string) (s : Db.Store) : Js.Result Db.Store :=
  Js.Ok (softDelete d id s).

End EventApi.

(** ** The [Sync] namespace of [models/patient-problem.ts] *)

Module PatientProblemSync.

(** The table [patient_problems], keyed by [id]. *)
Abbreviation Table := (gmap string Sql.Row).

(** [v ?? fallback]. *)
Definition coalesce (v fallback : Js.Value) : Js.Value :=
  match v with
  | Js.Undefined | Js.Null => fallback
  | _ => v
  end.

Definition field (delta : Js.Record) (key : string) : Js.Value :=
  default Js.Undefined (delta !! key).

(** A cell of a text column that may not be NULL. *)
Definition text_cell (v : Js.Value) : option Sql.Value :=
  match v with
  | Js.String s => Some (Sql.Text s)
  | _ => None
  end.

(** A cell of a text column that may be NULL. *)
Definition opt_text_cell (v : Js.Value) : option Sql.Value :=
  match v with
  | Js.String s => Some (Sql.Text s)
  | Js.Null => Some Sql.Null
  | _ => None
  end.

(** A cell of a timestamp column that may be NULL. *)
Definition opt_date_cell {platform : Platform} (v : Js.Value) : option Sql.Value :=
  match v with
  | Js.String s => Some (Sql.Timestamp (timestamptz_in s))
  | Js.Null => Some Sql.Null
  | _ => None
  end.

(** A cell of a numeric column that may be NULL. *)
Definition opt_number_cell (v : Js.Value) : option Sql.Value :=
  match v with
  | Js.Number n => Some (Sql.Json (Js.Number n))
  | Js.Null => Some Sql.Null
  | _ => None
  end.

(** A cell of a [jsonb] column. *)
Definition json_cell (v : Js.Value) : option Sql.Value :=
  match v with
  | Js.Object props => Some (Sql.Json (Js.Object props))
  | Js.Array xs => Some (Sql.Json (Js.Array xs))
  | _ => None
  end.

Definition bool_cell (v : Js.Value) : option Sql.Value :=
  match v with
  | Js.Boolean b => Some (Sql.Bool b)
  | _ => None
  end.

(** [pickColumns(delta)] as the row the statement stores; a value of
    another type than the column has no reading. *)
Definition pickColumns {platform : Platform} (d : Draw) (delta : Js.Record)
    : option (string * Sql.Row) :=
  match field delta "id" with
  | Js.String id =>
      patient_id ← text_cell (field delta "patient_id");
      visit_id ← opt_text_cell (coalesce (field delta "visit_id") Js.Null);
      problem_code_system ← text_cell (field delta "problem_code_system");
      problem_code ← text_cell (field delta "problem_code");
      problem_label ← text_cell (field delta "problem_label");
      clinical_status ← text_cell (field delta "clinical_status");
      verification_status ← text_cell (field delta "verification_status");
      severity_score ← opt_number_cell (coalesce (field delta "severity_score") Js.Null);
      onset_date ← opt_date_cell (coalesce (field delta "onset_date") Js.Null);
      end_date ← opt_date_cell (coalesce (field delta "end_date") Js.Null);
      recorded_by_user_id ← opt_text_cell (coalesce (field delta "recorded_by_user_id") Js.Null);
      metadata ← json_cell (coalesce (field delta "metadata") (Js.Object []));
      is_deleted ← bool_cell (coalesce (field delta "is_deleted") (Js.Boolean false));
      deleted_at ← opt_date_cell (coalesce (field delta "deleted_at") Js.Null);
      Some (id,
            list_to_map
              [ ("id", Sql.Text id);
                ("patient_id", patient_id);
                ("visit_id", visit_id);
                ("problem_code_system", problem_code_system);
                ("problem_code", problem_code);
                ("problem_label", problem_label);
                ("clinical_status", clinical_status);
                ("verification_status", verification_status);
                ("severity_score", severity_score);
                ("onset_date", onset_date);
                ("end_date", end_date);
                ("recorded_by_user_id", recorded_by_user_id);
                ("metadata", metadata);
                ("is_deleted", is_deleted);
                ("created_at", Sql.Timestamp (db_now d));
                ("updated_at", Sql.Timestamp (db_now d));
                ("last_modified", Sql.Timestamp (db_now d));
                ("server_created_at", Sql.Timestamp (db_now d));
                ("deleted_at", deleted_at) ])
  | _ => None
  end.

(** [Sync.upsertFromDelta(deltaData)]: on a conflict every column takes
    the new value but [server_created_at], which stays. *)
Definition upsertFromDelta {platform : Platform} (d : Draw) (deltaData : Js.Record)
    (tbl : Table) : Js.Result Table :=
  match pickColumns d deltaData with
  | None => Js.Throw (Js.DatabaseError "patient_problems: malformed row")
  | Some (id, row) =>
      match tbl !! id with
      | None => Js.Ok (<[id := row]> tbl)
      | Some old =>
          Js.Ok (<[id := <["server_created_at" := Sql.cell old "server_created_at"]> row]> tbl)
      end
  end.

(** [softDelete(id)]; [deleted_at] is the time of the server function. *)
Definition softDelete (d : Draw) (id : string) (tbl : Table) : Table :=
  alter (fun r => <["is_deleted" := Sql.Bool true]>
                    (<["deleted_at" := Sql.Timestamp (Date_now d)]> r)) id tbl.

(** [Sync.deleteFromDelta(id)]. *)
Definition deleteFromDelta (d : Draw) (id : string) (tbl : Table) : Js.Result Table :=
  Js.Ok (softDelete d id tbl).

(** The database a pull sees when [patient_problems] is this table. *)
Definition snapshot (tbl : Table) : Sql.Snapshot :=
  {| Sql.selectFrom := fun table =>
       if String.eqb table "patient_problems" then (map_to_list tbl).*2 else [] |}.

(** Every row of the table lies under its own id. *)
Definition keyed (tbl : Table) : Prop :=
  forall key r, tbl !! key = Some r -> Sql.cell r "id" = Sql.Text key.


End PatientProblemSync.

(** ** More test data *)

Module Sample.

(** The platform of the test data with an [inet] type that refuses the
    empty string. *)
Definition strict : Platform :=
  {| Number_of_string := Fixture.number;
     sha256_hex := fun s => s;
     toSafeDateString := Fixture.date_text;
     safeJSONParse := fun _ fallback => fallback;
     timestamptz_in := Fixture.date_value;
     uuid_in := Some;
     inet_in := fun a => if String.eqb a "" then None else Some a;
     inet_out := fun a => a +:+ "/32";
     visits_in := Fixture.visits_table |}.

(** A request whose forwarding header starts with a blank entry. *)
Definition blank_header (name : string) : option string :=
  if String.eqb name "x-forwarded-for" then Some " , 10.0.0.1" else None.

(** Short identifiers, and the clocks of the logging scenario. *)
Definition draw : Draw :=
  {| uuidv7 := fun k => "id" +:+ pretty (Z.of_nat k);
     Date_now := 1770647055887;
     db_now := 1770647055901 |}.

(** An audit row as a client pushes it. *)
Definition pushed : EventLog.EncodedT :=
  {| EventLog.enc_id := "id7";
     EventLog.enc_transaction_id := "id8";
     EventLog.enc_action_type := "UPDATE";
     EventLog.enc_table_name := "patients";
     EventLog.enc_row_id := "p1";
     EventLog.enc_changes := Js.Object [];
     EventLog.enc_device_id := "ua-hash";
     EventLog.enc_app_id := "mobile";
     EventLog.enc_user_id := "u1";
     EventLog.enc_ip_address := None;
     EventLog.enc_hash := "0000";
     EventLog.enc_metadata := Js.Object [];
     EventLog.enc_created_at := Js.String "1770647055887";
     EventLog.enc_updated_at := Js.String "1770647055887" |}.

(** The row the server stores for it. *)
Definition pushed_row : EventLog.Row :=
  {| EventLog.id := "id7";
     EventLog.transaction_id := "id8";
     EventLog.action_type := "UPDATE";
     EventLog.table_name := "patients";
     EventLog.row_id := "p1";
     EventLog.changes := Json.JObj [];
     EventLog.device_id := "ua-hash";
     EventLog.app_id := "mobile";
     EventLog.user_id := "u1";
     EventLog.ip_address := None;
     EventLog.hash := "0000";
     EventLog.hash_verified := None;
     EventLog.metadata := Json.JObj [];
     EventLog.is_deleted := false;
     EventLog.created_at := 1770647055887;
     EventLog.updated_at := 1770647055887;
     EventLog.last_modified := 1770647055901;
     EventLog.server_created_at := 1770647055901;
     EventLog.deleted_at := None |}.

(** A row of the server under the same id. *)
Definition server_row : EventLog.Row :=
  {| EventLog.id := "id7";
     EventLog.transaction_id := "id9";
     EventLog.action_type := "CREATE";
     EventLog.table_name := "visits";
     EventLog.row_id := "v1";
     EventLog.changes := Json.JObj [];
     EventLog.device_id := "ua-hash";
     EventLog.app_id := "web";
     EventLog.user_id := "u1";
     EventLog.ip_address := None;
     EventLog.hash := "1111";
     EventLog.hash_verified := Some false;
     EventLog.metadata := Json.JObj [];
     EventLog.is_deleted := false;
     EventLog.created_at := 1770000000000;
     EventLog.updated_at := 1770000000000;
     EventLog.last_modified := 1770000000000;
     EventLog.server_created_at := 1770000000000;
     EventLog.deleted_at := None |}.

(** The row [logEvents] stores for the logging scenario with the short
    identifiers, on its own in a batch. *)
Definition logged_row : EventLog.Row :=
  {| EventLog.id := "id1";
     EventLog.transaction_id := "id0";
     EventLog.action_type := "UPDATE";
     EventLog.table_name := "patients";
     EventLog.row_id := "p1";
     EventLog.changes :=
       Json.JObj [("surname", Json.JObj [("new", Json.JStr "Smith"); ("old", Json.JStr "Doe")])];
     EventLog.device_id := "ua-hash";
     EventLog.app_id := "web";
     EventLog.user_id := "u1";
     EventLog.ip_address := None;
     EventLog.hash :=
       Json.lit ("id1|id0|UPDATE|patients|p1|{'surname':{'old':'Doe','new':'Smith'}}|"
                 +:+ "ua-hash|web|u1||1770647055887");
     EventLog.hash_verified := Some false;
     EventLog.metadata := Json.JObj [];
     EventLog.is_deleted := false;
     EventLog.created_at := 1770647055887;
     EventLog.updated_at := 1770647055901;
     EventLog.last_modified := 1770647055901;
     EventLog.server_created_at := 1770647055901;
     EventLog.deleted_at := None |}.

(** A visit, an event of it, and the store that holds the two. *)
Definition visit : Db.VisitRow :=
  {| Db.id := "v1";
     Db.patient_id := "p1";
     Db.clinic_id := "c1";
     Db.provider_id := "u1";
     Db.provider_name := None;
     Db.check_in_timestamp := None;
     Db.metadata := Json.JObj [];
     Db.is_deleted := false;
     Db.created_at := 1000;
     Db.updated_at := 1000;
     Db.last_modified := 1000;
     Db.server_created_at := 1000;
     Db.deleted_at := None |}.

Definition event_row : Db.LinkedRow :=
  {| Db.visit_ref := Some "v1";
     Db.linked_is_deleted := false;
     Db.linked_updated_at := 1000;
     Db.linked_last_modified := 1000;
     Db.linked_cells := {[ "id" := Sql.Text "e1" ]} |}.

Definition store : Db.Store :=
  {| Db.visits := {[ "v1" := visit ]};
     Db.prescriptions := ∅;
     Db.events := {[ "e1" := event_row ]};
     Db.appointments := ∅ |}.

(** The visit as a client pushes it again, not deleted. *)
Definition visit_again : Visit.EncodedT :=
  {| Visit.id := "v1";
     Visit.patient_id := "p1";
     Visit.clinic_id := "c1";
     Visit.provider_id := "u1";
     Visit.provider_name := None;
     Visit.check_in_timestamp := Js.Null;
     Visit.metadata := Js.Object [];
     Visit.is_deleted := false;
     Visit.created_at := Js.String "@5";
     Visit.updated_at := Js.String "@5" |}.

(** A push that deletes the visit and then upserts it again. *)
Definition delete_then_upsert : list Replay.Op :=
  [ Replay.Delete (Fixture.ticking 0) "v1"; Replay.Upsert (Fixture.ticking 1) visit_again ].

(** An event that names no visit, the one user of the server, a check
    of identifiers by their length, and two generators of identifiers. *)
Definition event : EventApi.EncodedT :=
  {| EventApi.id := Some "e2";
     EventApi.patient_id := "p1";
     EventApi.visit_id := None;
     EventApi.form_id := None;
     EventApi.event_type := None;
     EventApi.form_data := Js.Array [];
     EventApi.metadata := Js.Object [];
     EventApi.created_at := Js.String "@5";
     EventApi.updated_at := Js.String "@5";
     EventApi.recorded_by_user_id := None |}.

Definition user : EventApi.User :=
  {| EventApi.user_clinic_id := Some "c1";
     EventApi.user_id := "u1";
     EventApi.user_name := "Ada" |}.

Definition isValidUUID (s : string) : bool := (String.length s =? 36)%nat.

Definition first (k : nat) : string := "a" +:+ pretty (Z.of_nat k).

Definition second (k : nat) : string := "b" +:+ pretty (Z.of_nat k).

(** The event as a client pushes it, the reading of a pushed record
    whose fields have the declared types, calls whose generators return
    identifiers of their own, and the models of the test data with the
    [Sync] namespace of [models/event.ts]. *)
Definition event_record : Js.Record :=
  list_to_map
    [ ("id", Js.String "e2");
      ("patient_id", Js.String "p1");
      ("form_data", Js.Array []);
      ("metadata", Js.Object []);
      ("created_at", Js.String "@5");
      ("updated_at", Js.String "@5") ].

Definition event_push : Sync.PushRequest :=
  [ ("events", Some {| Sync.push_created := Some [event_record];
                       Sync.push_updated := Some [];
                       Sync.push_deleted := Some [] |}) ].

Definition text (delta : Js.Record) (key : string) : option string :=
  match delta !! key with
  | Some (Js.String s) => Some s
  | _ => None
  end.

Definition read_event (delta : Js.Record) : EventApi.EncodedT :=
  {| EventApi.id := text delta "id";
     EventApi.patient_id := default "" (text delta "patient_id");
     EventApi.visit_id := text delta "visit_id";
     EventApi.form_id := text delta "form_id";
     EventApi.event_type := text delta "event_type";
     EventApi.form_data := Visit.field_value delta "form_data";
     EventApi.metadata := Visit.field_value delta "metadata";
     EventApi.created_at := Visit.field_value delta "created_at";
     EventApi.updated_at := Visit.field_value delta "updated_at";
     EventApi.recorded_by_user_id := text delta "recorded_by_user_id" |}.

Definition calls (k : nat) : Draw :=
  {| uuidv7 := fun n => "g" +:+ pretty (Z.of_nat k) +:+ "-" +:+ pretty (Z.of_nat n);
     Date_now := 1770650000000 + Z.of_nat k;
     db_now := 1770650000000 + Z.of_nat k |}.

Definition event_sync : SyncAdapter :=
  {| upsertFromDelta := fun d delta s =>
       EventApi.upsertFromDelta (platform := Fixture.platform) isValidUUID (uuidv7 d) d
         (Some user) (read_event delta) s;
     deleteFromDelta := EventApi.deleteFromDelta |}.

Definition models : Models :=
  {| Patient := Fixture.table "patients";
     PatientAdditionalAttribute := Fixture.table "patient_additional_attributes";
     Clinic := Fixture.table "clinics";
     PatientRegistrationForm := Fixture.table "patient_registration_forms";
     Appointment := Fixture.table "appointments";
     PatientVital := Fixture.table "patient_vitals";
     ClinicDepartment := Fixture.table "clinic_departments";
     DrugCatalogue := Fixture.table "drug_catalogue";
     ClinicInventory := Fixture.table "clinic_inventory";
     DispensingRecord := Fixture.table "dispensing_records";
     PrescriptionItem := Fixture.table "prescription_items";
     Event_Sync := event_sync;
     EventForm_Sync := Fixture.no_sync;
     Prescription_Sync := Fixture.no_sync;
     PatientProblem_Sync := Fixture.no_sync |}.

(** A patient problem as stored, and as a client pushes it again. *)
Definition problems : PatientProblemSync.Table :=
  {[ "pp1" := Fixture.row "pp1" 1000 1000 ]}.


End Sample.

(** * Properties *)

(** ** The history window and the deltas of a pull *)

Section Pull.
Context {platform : Platform} {models : Models}.

Lemma Q_ltb_lt (a b : Q) : Js.Q_ltb a b = true <-> (a < b)%Q.
Proof.
  unfold Js.Q_ltb. rewrite negb_true_iff. split.
  - intros Hle. apply Qnot_le_lt. intros H. apply Qle_bool_iff in H. congruence.
  - intros Hlt. destruct (Qle_bool b a) eqn:Hle; [|reflexivity].
    apply Qle_bool_iff in Hle. exfalso. exact (Qlt_not_le _ _ Hlt Hle).
Qed.

Lemma getMaxHistoryDaysSync_positive (envValue : option string) (days : Z) :
  Sync.getMaxHistoryDaysSync envValue = Some days -> 0 < days.
Proof.
  unfold Sync.getMaxHistoryDaysSync.
  destruct envValue as [v|]; [|discriminate].
  destruct (String.eqb v ""); [discriminate|].
  destruct (Number_of_string v) as [|neg|q]; simpl; try discriminate.
  - destruct neg; discriminate.
  - unfold Js.Q_ltb, Js.of_Z.
    destruct (Qle_bool q (inject_Z 0)) eqn:Hle; simpl; [discriminate|].
    destruct (Qnum q mod Z.pos (Qden q) =? 0) eqn:Hint; simpl; [|discriminate].
    intros [= <-].
    assert (Hpos : (0 < Qnum q)%Z).
    { destruct (Z_lt_le_dec 0 (Qnum q)) as [Hlt|Hge]; [exact Hlt|].
      exfalso. assert (Qle_bool q (inject_Z 0) = true); [|congruence].
      apply Qle_bool_iff. unfold Qle, inject_Z. simpl. lia. }
    apply Z.eqb_eq in Hint.
    apply Z.div_str_pos. split; [lia|].
    apply Z.mod_divide in Hint; [|lia].
    apply Z.divide_pos_le in Hint; lia.
Qed.

Lemma getMaxHistoryDaysSync_unset :
  Sync.getMaxHistoryDaysSync None = None /\ Sync.getMaxHistoryDaysSync (Some "") = None.
Proof. split; reflexivity. Qed.

Lemma getMaxHistoryDaysSync_invalid (v : string) :
  Number_of_string v = Js.NaN \/
  Js.num_gt (Number_of_string v) (Js.of_Z 0) = false \/
  Js.isInteger (Number_of_string v) = false ->
  Sync.getMaxHistoryDaysSync (Some v) = None.
Proof.
  intros Hbad. unfold Sync.getMaxHistoryDaysSync.
  destruct (String.eqb v ""); [reflexivity|].
  destruct Hbad as [-> | [-> | ->]]; simpl; try reflexivity.
  - destruct (Number_of_string v); reflexivity.
  - rewrite orb_true_r. reflexivity.
Qed.

Lemma effectiveLastSyncDate_max (days now clientLastSyncDate : Z) :
  Sync.effectiveLastSyncDate (Some days) now clientLastSyncDate
  = Z.max clientLastSyncDate (now - days * 86400000).
Proof.
  unfold Sync.effectiveLastSyncDate.
  destruct (Z.ltb_spec clientLastSyncDate (now - days * 24 * 60 * 60 * 1000)); lia.
Qed.

Lemma In_where (column : string) (op : Sql.Op) (rhs : Sql.Value) (rows : list Sql.Row) (r : Sql.Row) :
  In r (Sql.where_ column op rhs rows) <-> In r rows /\ Sql.holds (Sql.cell r column) op rhs = true.
Proof. unfold Sql.where_. apply filter_In. Qed.

Lemma holds_Gt (v : Sql.Value) (T : Z) :
  Sql.holds v Sql.Gt (Sql.Timestamp T) = true <-> exists t, v = Sql.Timestamp t /\ T < t.
Proof.
  destruct v; simpl; split; try discriminate; try (intros (t & [=] & _); fail).
  - intros Hlt. exists t. split; [reflexivity|]. apply Z.ltb_lt. exact Hlt.
  - intros (t' & [= <-] & Hlt). apply Z.ltb_lt. exact Hlt.
Qed.

Lemma holds_Lt (v : Sql.Value) (T : Z) :
  Sql.holds v Sql.Lt (Sql.Timestamp T) = true <-> exists t, v = Sql.Timestamp t /\ t < T.
Proof.
  destruct v; simpl; split; try discriminate; try (intros (t & [=] & _); fail).
  - intros Hlt. exists t. split; [reflexivity|]. apply Z.ltb_lt. exact Hlt.
  - intros (t' & [= <-] & Hlt). apply Z.ltb_lt. exact Hlt.
Qed.

Lemma holds_Is_Null (v : Sql.Value) :
  Sql.holds v Sql.Is Sql.Null = true <-> v = Sql.Null.
Proof. destruct v; simpl; split; congruence. Qed.

Lemma holds_Eq_Bool (v : Sql.Value) (b : bool) :
  Sql.holds v Sql.Eq (Sql.Bool b) = true <-> v = Sql.Bool b.
Proof.
  destruct v as [|b'| | |]; simpl; split; try congruence.
  - intros Heq. apply Bool.eqb_prop in Heq. congruence.
  - intros [= ->]. apply Bool.eqb_reflx.
Qed.

(** What the second query of an entity returns. *)
Lemma updated_spec (db : Sql.Snapshot) (lastSyncedAt T : Z) (entity : Entity) (r : Sql.Row) :
  In r (Sync.updated (Sync.entityDelta db lastSyncedAt T entity)) <->
  In r (Sql.selectFrom db (Table_name (Table entity))) /\ Sql.live r /\
  (exists m, Sql.cell r "last_modified" = Sql.Timestamp m /\ T < m) /\
  (exists c, Sql.cell r "server_created_at" = Sql.Timestamp c /\ c < T).
Proof.
  unfold Sync.entityDelta, Sync.createDeltaData, Sql.live. simpl.
  rewrite !In_where, holds_Gt, holds_Lt, holds_Is_Null, holds_Eq_Bool. tauto.
Qed.

(** What the first query of an entity returns. *)
Lemma created_spec (db : Sql.Snapshot) (lastSyncedAt T : Z) (entity : Entity) (r : Sql.Row) :
  In r (Sync.created (Sync.entityDelta db lastSyncedAt T entity)) <->
  In r (Sql.selectFrom db (Table_name (Table entity))) /\ Sql.live r /\
  (exists c, Sql.cell r "server_created_at" = Sql.Timestamp c /\ T < c).
Proof.
  unfold Sync.entityDelta, Sync.createDeltaData, Sql.live. simpl.
  rewrite !In_where, holds_Gt, holds_Is_Null, holds_Eq_Bool. tauto.
Qed.

(** No row is both in [created] and in [updated] of one entity. *)
Lemma created_updated_disjoint (db : Sql.Snapshot) (lastSyncedAt T : Z) (entity : Entity) (r : Sql.Row) :
  In r (Sync.created (Sync.entityDelta db lastSyncedAt T entity)) ->
  ~ In r (Sync.updated (Sync.entityDelta db lastSyncedAt T entity)).
Proof.
  rewrite created_spec, updated_spec.
  intros (_ & _ & c & Hc & Hlt) (_ & _ & _ & c' & Hc' & Hlt').
  rewrite Hc in Hc'. injection Hc' as <-. lia.
Qed.

(** A row created exactly at the cutoff is in neither list. *)
Lemma cutoff_row_in_neither_list (db : Sql.Snapshot) (lastSyncedAt T : Z) (entity : Entity) (r : Sql.Row) :
  Sql.cell r "server_created_at" = Sql.Timestamp T ->
  ~ In r (Sync.created (Sync.entityDelta db lastSyncedAt T entity)) /\
  ~ In r (Sync.updated (Sync.entityDelta db lastSyncedAt T entity)).
Proof.
  intros Hc. rewrite created_spec, updated_spec. split.
  - intros (_ & _ & c & Hc' & Hlt). rewrite Hc in Hc'. injection Hc' as <-. lia.
  - intros (_ & _ & _ & c & Hc' & Hlt). rewrite Hc in Hc'. injection Hc' as <-. lia.
Qed.

(** An invariant of the loop over the entities. *)
Lemma foldl_insert_Forall {A B : Type} (P : B -> Prop) (key : A -> string) (value : A -> B)
    (l : list A) (m : gmap string B) :
  (forall a, P (value a)) ->
  map_Forall (fun _ v => P v) m ->
  map_Forall (fun _ v => P v) (foldl (fun acc a => <[key a := value a]> acc) m l).
Proof.
  intros Hvalue. revert m.
  induction l as [|a l IH]; intros m Hm; simpl; [exact Hm|].
  apply IH. apply map_Forall_insert_2; [apply Hvalue | exact Hm].
Qed.

Lemma foldl_insert_is_Some {A B : Type} (key : A -> string) (value : A -> B)
    (l : list A) (m : gmap string B) (k : string) :
  is_Some (foldl (fun acc a => <[key a := value a]> acc) m l !! k) <->
  is_Some (m !! k) \/ exists a, In a l /\ key a = k.
Proof.
  revert m. induction l as [|a l IH]; intros m; simpl.
  - split; [intros Hm; left; exact Hm | intros [Hm | (a & [] & _)]; exact Hm].
  - rewrite IH. destruct (decide (key a = k)) as [Heq|Hne].
    + subst k. rewrite lookup_insert_eq. split.
      * intros _. right. exists a. split; [left; reflexivity | reflexivity].
      * intros _. left. eexists. reflexivity.
    + rewrite lookup_insert_ne by exact Hne. split.
      * intros [Hm | (b & Hb & Hk)]; [left; exact Hm|].
        right. exists b. split; [right; exact Hb | exact Hk].
      * intros [Hm | (b & [Hb | Hb] & Hk)]; [left; exact Hm | | ].
        -- subst b. contradiction.
        -- right. exists b. split; assumption.
Qed.

Lemma foldl_insert_lookup {A B : Type} (key : A -> string) (value : A -> B)
    (l : list A) (m : gmap string B) (k : string) (b : B) :
  foldl (fun acc a => <[key a := value a]> acc) m l !! k = Some b ->
  m !! k = Some b \/ exists a, In a l /\ key a = k /\ b = value a.
Proof.
  revert m. induction l as [|a l IH]; intros m; simpl.
  - intros Hm. left. exact Hm.
  - intros Hlookup. apply IH in Hlookup as [Hm | (a' & Hin & Hk & Hb)].
    + destruct (decide (key a = k)) as [Heq|Hne].
      * subst k. rewrite lookup_insert_eq in Hm. injection Hm as <-.
        right. exists a. split; [left; reflexivity|]. split; reflexivity.
      * rewrite lookup_insert_ne in Hm by exact Hne. left. exact Hm.
    + right. exists a'. split; [right; exact Hin|]. split; assumption.
Qed.

(** What a pull returns under the mobile name of an entity: the three
    queries of an entity of that name, at the cutoff of the loop. *)
Lemma getDeltaRecords_entity (envValue : option string) (now : Z) (db : Sql.Snapshot)
    (lastSyncedAt : Z) (key : string) :
  key <> "user_clinic_permissions" -> key <> "app_config" ->
  (forall delta,
     Sync.getDeltaRecords envValue now db lastSyncedAt !! key = Some delta ->
     exists entity,
       In entity Sync.ENTITIES_TO_PUSH_TO_MOBILE /\
       Table_mobileName (Table entity) = key /\
       delta = Sync.entityDelta db lastSyncedAt
                 (Sync.lastSyncDate (Sync.getMaxHistoryDaysSync envValue) now lastSyncedAt
                    entity) entity) /\
  ((exists entity, In entity Sync.ENTITIES_TO_PUSH_TO_MOBILE /\
                   Table_mobileName (Table entity) = key) ->
   is_Some (Sync.getDeltaRecords envValue now db lastSyncedAt !! key)).
Proof.
  intros Hne1 Hne2. unfold Sync.getDeltaRecords.
  rewrite !lookup_insert_ne by congruence. split.
  - intros delta Hlookup.
    apply (foldl_insert_lookup (fun entity => Table_mobileName (Table entity))
             (fun entity => Sync.entityDelta db lastSyncedAt
                  (Sync.lastSyncDate (Sync.getMaxHistoryDaysSync envValue) now lastSyncedAt
                     entity) entity)) in Hlookup as [Hempty | (entity & Hin & Hk & Hd)].
    + rewrite lookup_empty in Hempty. discriminate.
    + exists entity. split; [exact Hin|]. split; assumption.
  - intros Hentity.
    apply (foldl_insert_is_Some (fun entity => Table_mobileName (Table entity))).
    right. exact Hentity.
Qed.

(** A setting is taken exactly when it is not empty and [Number] reads
    it as a positive integer. *)
Lemma getMaxHistoryDaysSync_valid (envValue : option string) (days : Z) :
  Sync.getMaxHistoryDaysSync envValue = Some days <->
  exists v q, envValue = Some v /\ v <> "" /\ Number_of_string v = Js.Finite q /\
              (q == inject_Z days)%Q /\ 0 < days.
Proof.
  split.
  - intros Hdays. pose proof (getMaxHistoryDaysSync_positive _ _ Hdays) as Hpos.
    unfold Sync.getMaxHistoryDaysSync in Hdays.
    destruct envValue as [v|]; [|discriminate].
    destruct (String.eqb_spec v "") as [Hempty|Hfull]; [discriminate|].
    destruct (Number_of_string v) as [|neg|q] eqn:Hnumber; simpl in Hdays; try discriminate.
    { destruct neg; discriminate. }
    destruct (negb (Js.Q_ltb (inject_Z 0) q)); simpl in Hdays; [discriminate|].
    destruct (Qnum q mod Z.pos (Qden q) =? 0) eqn:Hint; simpl in Hdays; [|discriminate].
    injection Hdays as <-. exists v, q.
    split; [reflexivity|]. split; [exact Hfull|]. split; [exact Hnumber|].
    split; [|exact Hpos].
    apply Z.eqb_eq in Hint. unfold Qeq, inject_Z. simpl.
    rewrite Z.mul_1_r.
    rewrite (Z.div_mod (Qnum q) (Z.pos (Qden q))) at 1 by lia.
    rewrite Hint. lia.
  - intros (v & q & -> & Hfull & Hnumber & Hq & Hpos).
    unfold Sync.getMaxHistoryDaysSync.
    destruct (String.eqb_spec v "") as [Hempty|_]; [contradiction|].
    rewrite Hnumber. simpl.
    unfold Qeq, inject_Z in Hq. simpl in Hq. rewrite Z.mul_1_r in Hq.
    assert (Hgt : Js.Q_ltb (inject_Z 0) q = true).
    { apply Q_ltb_lt. unfold Qlt, inject_Z. simpl. nia. }
    rewrite Hgt. simpl.
    rewrite Hq, Z.mod_mul, Z.eqb_refl, Z.div_mul by lia. reflexivity.
Qed.

(** C6: a pull returns, for every entity pushed to mobile, the three
    queries of an entity of that mobile name at a cutoff that depends on
    the setting.  With a valid setting, one that is not empty and that
    [Number] reads as a positive integer [days], the cutoff is the
    client's watermark for an exempt name and the later of the watermark
    and [now - days] for any other; thirty days against a watermark sixty
    days old give thirty days back for a name that is not exempt and
    sixty for an exempt one.  With any other setting, an absent one among
    them, the cutoff is the watermark for every name, and the pull
    returns all the same. *)
Theorem history_window_policy (envValue : option string) (now lastSyncedAt : Z)
    (db : Sql.Snapshot) :
  let result := Sync.getDeltaRecords envValue now db lastSyncedAt in
  let valid (days : Z) : Prop :=
    exists v q, envValue = Some v /\ v <> "" /\ Number_of_string v = Js.Finite q /\
                (q == inject_Z days)%Q /\ 0 < days in
  let cut (cutoff : string -> Z) : Prop :=
    forall entity,
      In entity Sync.ENTITIES_TO_PUSH_TO_MOBILE ->
      let name := Table_mobileName (Table entity) in
      name <> "user_clinic_permissions" -> name <> "app_config" ->
      exists entity',
        In entity' Sync.ENTITIES_TO_PUSH_TO_MOBILE /\
        Table_mobileName (Table entity') = name /\
        result !! name = Some (Sync.entityDelta db lastSyncedAt (cutoff name) entity') in
  (forall days, valid days ->
     cut (fun name =>
            if bool_decide (name ∈ Sync.EXEMPT_FROM_HISTORY_LIMIT) then lastSyncedAt
            else Z.max lastSyncedAt (now - days * 86400000))) /\
  (valid 30 -> lastSyncedAt = now - 60 * 86400000 ->
     cut (fun name =>
            if bool_decide (name ∈ Sync.EXEMPT_FROM_HISTORY_LIMIT) then now - 60 * 86400000
            else now - 30 * 86400000)) /\
  ((forall days, ~ valid days) -> cut (fun _ => lastSyncedAt)) /\
  (envValue = None \/ envValue = Some "" \/
   (exists v, envValue = Some v /\
              forall q days, Number_of_string v = Js.Finite q -> (q == inject_Z days)%Q ->
                             days <= 0) ->
   forall days, ~ valid days).
Proof.
  intros result valid cut.
  assert (Hcut : forall cutoff : string -> Z,
            (forall entity,
               Sync.lastSyncDate (Sync.getMaxHistoryDaysSync envValue) now lastSyncedAt entity
               = cutoff (Table_mobileName (Table entity))) ->
            cut cutoff).
  { intros cutoff Hcutoff entity Hin name Hne1 Hne2.
    destruct (getDeltaRecords_entity envValue now db lastSyncedAt name Hne1 Hne2)
      as [Hsome Hkey].
    destruct Hkey as [delta Hdelta]; [exists entity; split; [exact Hin | reflexivity]|].
    destruct (Hsome delta Hdelta) as (entity' & Hin' & Hname & ->).
    exists entity'. split; [exact Hin'|]. split; [exact Hname|].
    fold result in Hdelta. rewrite Hdelta, Hcutoff, Hname. reflexivity. }
  assert (Hvalid : forall days, valid days ->
            forall entity,
              Sync.lastSyncDate (Sync.getMaxHistoryDaysSync envValue) now lastSyncedAt entity
              = if bool_decide (Table_mobileName (Table entity)
                                ∈ Sync.EXEMPT_FROM_HISTORY_LIMIT)
                then lastSyncedAt
                else Z.max lastSyncedAt (now - days * 86400000)).
  { intros days Hdays entity. apply getMaxHistoryDaysSync_valid in Hdays.
    unfold Sync.lastSyncDate. rewrite Hdays.
    destruct (bool_decide _); [reflexivity | apply effectiveLastSyncDate_max]. }
  split; [|split; [|split]].
  - intros days Hdays. apply Hcut. apply Hvalid. exact Hdays.
  - intros Hdays Hsixty. apply Hcut. intros entity. rewrite (Hvalid 30 Hdays).
    destruct (bool_decide _); lia.
  - intros Hinvalid. apply Hcut. intros entity.
    destruct (Sync.getMaxHistoryDaysSync envValue) as [days|] eqn:Hdays.
    + exfalso. apply (Hinvalid days). apply getMaxHistoryDaysSync_valid. exact Hdays.
    + unfold Sync.lastSyncDate. destruct (bool_decide _); reflexivity.
  - intros Hbad days (v & q & Henv & Hfull & Hnumber & Hq & Hpos).
    destruct Hbad as [Hnone | [Hempty | (v' & Henv' & Hnever)]].
    + congruence.
    + rewrite Henv in Hempty. injection Hempty as ->. contradiction.
    + rewrite Henv in Henv'. injection Henv' as <-.
      specialize (Hnever q days Hnumber Hq). lia.
Qed.

(** C8: on a bootstrap pull, [lastSyncedAt = 0], every table of the
    change set has an empty [deleted] list. *)
Theorem bootstrap_pull_has_no_deletions (envValue : option string) (now : Z)
    (db : Sql.Snapshot) (key : string) (delta : Sync.DeltaData Sql.Row) :
  Sync.getDeltaRecords envValue now db 0 !! key = Some delta ->
  Sync.deleted delta = [].
Proof.
  intros Hlookup.
  assert (Hall : map_Forall (fun _ d => Sync.deleted d = [])
                   (Sync.getDeltaRecords envValue now db 0)).
  { unfold Sync.getDeltaRecords.
    apply map_Forall_insert_2; [reflexivity|].
    apply map_Forall_insert_2; [reflexivity|].
    apply (foldl_insert_Forall (fun d => Sync.deleted d = [])
             (fun entity => Table_mobileName (Table entity))
             (fun entity => Sync.entityDelta db 0
                  (Sync.lastSyncDate (Sync.getMaxHistoryDaysSync envValue) now 0 entity) entity)).
    - intros entity. reflexivity.
    - apply map_Forall_empty. }
  exact (Hall key delta Hlookup).
Qed.

(** C10: the change set always has the keys [user_clinic_permissions] and
    [app_config]; their lists are computed from [created_at] and
    [updated_at] against the client's watermark alone, whatever the
    history setting and the clock, and their [deleted] list is empty for
    every watermark. *)
Theorem config_tables_follow_raw_watermark (envValue : option string) (now : Z)
    (db : Sql.Snapshot) (lastSyncedAt : Z) :
  let result := Sync.getDeltaRecords envValue now db lastSyncedAt in
  result !! "user_clinic_permissions"
    = Some (Sync.configDelta db "user_clinic_permissions" lastSyncedAt) /\
  result !! "app_config" = Some (Sync.configDelta db "app_config" lastSyncedAt) /\
  forall table,
    let delta := Sync.configDelta db table lastSyncedAt in
    Sync.deleted delta = [] /\
    (forall r, In r (Sync.created delta) <->
       In r (Sql.selectFrom db table) /\
       exists c, Sql.cell r "created_at" = Sql.Timestamp c /\ lastSyncedAt < c) /\
    (forall r, In r (Sync.updated delta) <->
       In r (Sql.selectFrom db table) /\
       (exists c, Sql.cell r "created_at" = Sql.Timestamp c /\ c < lastSyncedAt) /\
       (exists u, Sql.cell r "updated_at" = Sql.Timestamp u /\ lastSyncedAt < u)).
Proof.
  intros result. subst result. unfold Sync.getDeltaRecords.
  split; [|split].
  - rewrite lookup_insert_ne by discriminate. apply lookup_insert_eq.
  - apply lookup_insert_eq.
  - intros table. unfold Sync.configDelta. simpl.
    split; [reflexivity|]. split; intros r.
    + rewrite In_where, holds_Gt. tauto.
    + rewrite !In_where, holds_Gt, holds_Lt. tauto.
Qed.

End Pull.

(** C6, on the test platform: [MAX_HISTORY_DAYS_SYNC=30], a pull on day 100
    with a watermark of day 40.  The visits are cut off at day 70, the
    event forms at day 40. *)
Lemma history_window_policy_witness :
  let db := Fixture.only "visits" [] in
  let result :=
    Sync.getDeltaRecords (platform := Fixture.platform) (models := Fixture.models)
      (Some "30") (100 * Fixture.day) db (40 * Fixture.day) in
  (exists entity,
     Table_mobileName (Table entity) = "visits" /\
     result !! "visits"
     = Some (Sync.entityDelta db (40 * Fixture.day) (70 * Fixture.day) entity)) /\
  (exists entity,
     Table_mobileName (Table entity) = "event_forms" /\
     result !! "event_forms"
     = Some (Sync.entityDelta db (40 * Fixture.day) (40 * Fixture.day) entity)).
Proof.
  intros db result.
  destruct (history_window_policy (platform := Fixture.platform) (models := Fixture.models)
              (Some "30") (100 * Fixture.day) (40 * Fixture.day) db) as (Hvalid & _).
  assert (Hthirty : exists v q, Some "30" = Some v /\ v <> "" /\
                      Number_of_string (Platform := Fixture.platform) v = Js.Finite q /\
                      (q == inject_Z 30)%Q /\ 0 < 30).
  { exists "30", (inject_Z 30). split; [reflexivity|]. split; [discriminate|].
    split; [reflexivity|]. split; [reflexivity | lia]. }
  split.
  - destruct (Hvalid 30 Hthirty (Visit.Entity (platform := Fixture.platform)))
      as (entity & _ & Hname & Hlookup).
    + right. right. right. left. reflexivity.
    + discriminate.
    + discriminate.
    + exists entity. split; [exact Hname | exact Hlookup].
  - destruct (Hvalid 30 Hthirty (Build_Entity EventForm.Table Fixture.no_sync))
      as (entity & _ & Hname & Hlookup).
    + do 5 right. left. reflexivity.
    + discriminate.
    + discriminate.
    + exists entity. split; [exact Hname | exact Hlookup].
Defined.

(** C8, on the test platform: a table with a soft-deleted row, pulled with
    a watermark of zero. *)
Lemma bootstrap_pull_has_no_deletions_witness :
  exists delta,
    Sync.getDeltaRecords (platform := Fixture.platform) (models := Fixture.models) None 5000
      (Fixture.only "visits"
         [ <["deleted_at" := Sql.Timestamp 3000]>
             (<["is_deleted" := Sql.Bool true]> (Fixture.row "v1" 1000 3000)) ]) 0
      !! "visits" = Some delta /\
    Sync.deleted delta = [].
Proof.
  eexists. split.
  - vm_compute. reflexivity.
  - apply (bootstrap_pull_has_no_deletions (platform := Fixture.platform)
             (models := Fixture.models) None 5000
             (Fixture.only "visits"
                [ <["deleted_at" := Sql.Timestamp 3000]>
                    (<["is_deleted" := Sql.Bool true]> (Fixture.row "v1" 1000 3000)) ])
             "visits").
    vm_compute. reflexivity.
Defined.

(** C7: a Sql.live row of [visits] created exactly at the cutoff, 1000, and
    modified later, at 2000, is returned neither in [updated] nor in
    [created] by a pull with the watermark 1000. *)
Theorem updated_misses_row_created_at_cutoff :
  let r := Fixture.row "v1" 1000 2000 in
  let db := Fixture.only "visits" [r] in
  Sql.selectFrom db "visits" = [r] /\
  Sql.cell r "server_created_at" = Sql.Timestamp 1000 /\
  Sql.cell r "last_modified" = Sql.Timestamp 2000 /\
  Sql.cell r "deleted_at" = Sql.Null /\
  Sql.cell r "is_deleted" = Sql.Bool false /\
  Sync.getDeltaRecords (platform := Fixture.platform) (models := Fixture.models) None 5000 db 1000
    !! "visits" = Some (Sync.createDeltaData [] [] []).
Proof. repeat split; vm_compute; reflexivity. Qed.

(** ** The cleaning of pushed records and the table lookup of a push *)

Section Push.
Context {platform : Platform} {models : Models}.

Lemma clean_lookup (now : Z) (knownColumns : list string) (record : Js.Record) (key : string) :
  Sync.clean now knownColumns record !! key
  = if decide (key ∈ knownColumns) then Sync.cleanValue now key <$> record !! key else None.
Proof.
  unfold Sync.clean. rewrite map_lookup_imap, map_lookup_filter.
  destruct (record !! key) as [value|]; simpl.
  - destruct (decide (key ∈ knownColumns)) as [Hin|Hout].
    + rewrite option_guard_True by exact Hin. reflexivity.
    + rewrite option_guard_False by exact Hout. reflexivity.
  - destruct (decide (key ∈ knownColumns)); reflexivity.
Qed.

Lemma Q_ltb_inject_Z (a b : Z) : Js.Q_ltb (inject_Z a) (inject_Z b) = (a <? b).
Proof.
  unfold Js.Q_ltb, Qle_bool, inject_Z. simpl. rewrite !Z.mul_1_r.
  symmetry. apply Z.ltb_antisym.
Qed.

(** What counts as a raw epoch timestamp: a string that, once trimmed,
    is ten to thirteen digits, or a finite number strictly between 1e9
    and 1e14. *)
Lemma isEpochTimestamp_shape (value : Js.Value) :
  Sync.isEpochTimestamp value = true <->
  (exists s, value = Js.String s /\
             Js.allDigits (Js.trim s) = true /\
             (10 <= String.length (Js.trim s) <= 13)%nat) \/
  (exists q, value = Js.Number (Js.Finite q) /\
             (inject_Z 1000000000 < q)%Q /\ (q < inject_Z 100000000000000)%Q).
Proof.
  destruct value as [| |b|n|s|xs|props]; unfold Sync.isEpochTimestamp; cbv zeta;
    try (split; [discriminate | intros [(s' & Heq & _) | (q' & Heq & _)]; discriminate]).
  - destruct n as [|neg|q].
    + split; [discriminate | intros [(s' & Heq & _) | (q' & Heq & _)]; discriminate].
    + split; [destruct neg; discriminate
             | intros [(s' & Heq & _) | (q' & Heq & _)]; discriminate].
    + unfold Js.num_gt, Js.num_lt, Js.of_Z.
      rewrite andb_true_iff, !Q_ltb_lt. split.
      * intros [Hlow Hhigh]. right. exists q. split; [reflexivity|]. split; assumption.
      * intros [(s' & Heq & _) | (q' & Heq & Hlow & Hhigh)]; [discriminate|].
        injection Heq as ->. split; assumption.
  - rewrite !andb_true_iff, !Nat.leb_le. split.
    + intros [[Hdigits Hlow] Hhigh]. left. exists s. repeat split; assumption.
    + intros [(s' & Heq & Hdigits & Hlow & Hhigh) | (q' & Heq & _)]; [|discriminate].
      injection Heq as ->. repeat split; assumption.
Qed.

Lemma isEpochTimestamp_of_Z (z : Z) :
  Sync.isEpochTimestamp (Js.Number (Js.of_Z z)) = true <->
  1000000000 < z < 100000000000000.
Proof.
  unfold Sync.isEpochTimestamp, Js.num_gt, Js.num_lt, Js.of_Z.
  rewrite !Q_ltb_inject_Z, andb_true_iff, !Z.ltb_lt. tauto.
Qed.

(** [value === 0 || value === "0"]. *)
Lemma isZero_shape (value : Js.Value) :
  Sync.isZero value = true <->
  value = Js.String "0" \/ (exists q, value = Js.Number (Js.Finite q) /\ (q == 0)%Q).
Proof.
  destruct value as [| |b|n|s|xs|props]; simpl;
    try (split; [discriminate | intros [Heq | (q' & Heq & _)]; discriminate]).
  - destruct n as [|neg|q]; simpl.
    + split; [discriminate | intros [Heq | (q' & Heq & _)]; discriminate].
    + split; [discriminate | intros [Heq | (q' & Heq & _)]; discriminate].
    + rewrite Qeq_bool_iff. split.
      * intros Hzero. right. exists q. split; [reflexivity | exact Hzero].
      * intros [Heq | (q' & Heq & Hzero)]; [discriminate|]. injection Heq as ->. exact Hzero.
  - rewrite String.eqb_eq. split.
    + intros ->. left. reflexivity.
    + intros [Heq | (q' & Heq & _)]; [|discriminate]. injection Heq as ->. reflexivity.
Qed.

Lemma length_append (a b : string) :
  String.length (a +:+ b) = (String.length a + String.length b)%nat.
Proof. induction a as [|c a IH]; simpl; [reflexivity|]. rewrite IH. reflexivity. Qed.

Lemma substring_all (s : string) : substring 0 (String.length s) s = s.
Proof. induction s as [|c s IH]; simpl; [reflexivity|]. rewrite IH. reflexivity. Qed.

Lemma substring_append (p s : string) :
  substring (String.length p) (String.length s) (p +:+ s) = s.
Proof. induction p as [|c p IH]; simpl; [apply substring_all | exact IH]. Qed.

Lemma substring_split (s : string) (k : nat) :
  (k <= String.length s)%nat ->
  s = substring 0 k s +:+ substring k (String.length s - k) s.
Proof.
  revert k. induction s as [|c s IH]; intros k Hk.
  - destruct k; reflexivity.
  - destruct k as [|k]; simpl.
    + rewrite substring_all. reflexivity.
    + simpl in Hk.
      change (String c s = String c (substring 0 k s +:+ substring k (String.length s - k) s)).
      f_equal. apply IH. lia.
Qed.

(** [s.endsWith(suffix)]: [s] is some string followed by [suffix]. *)
Lemma endsWith_spec (s suffix : string) :
  Js.endsWith s suffix = true <-> exists p, s = p +:+ suffix.
Proof.
  unfold Js.endsWith. cbv zeta. split.
  - destruct (Nat.leb_spec (String.length suffix) (String.length s)) as [Hle|Hgt];
      [|discriminate].
    intros Heq. apply String.eqb_eq in Heq.
    exists (substring 0 (String.length s - String.length suffix) s).
    transitivity
      (substring 0 (String.length s - String.length suffix) s
       +:+ substring (String.length s - String.length suffix)
             (String.length s - (String.length s - String.length suffix)) s);
      [apply substring_split; lia|].
    replace (String.length s - (String.length s - String.length suffix))%nat
      with (String.length suffix) by lia.
    rewrite Heq. reflexivity.
  - intros [p ->]. rewrite length_append.
    rewrite (proj2 (Nat.leb_le _ _)) by lia.
    replace (String.length p + String.length suffix - String.length suffix)%nat
      with (String.length p) by lia.
    rewrite substring_append. apply String.eqb_refl.
Qed.

(** [isDateColumn(name)]: the name ends with [_at] or [_date], or is
    [timestamp] or [last_modified]. *)
Lemma isDateColumn_shape (name : string) :
  Sync.isDateColumn name = true <->
  (exists p, name = p +:+ "_at") \/ (exists p, name = p +:+ "_date") \/
  name = "timestamp" \/ name = "last_modified".
Proof.
  unfold Sync.isDateColumn.
  rewrite !orb_true_iff, !endsWith_spec, !String.eqb_eq. tauto.
Qed.

(** Zero is not an epoch timestamp, as a number or as a string. *)
Lemma isZero_not_epoch (value : Js.Value) :
  Sync.isZero value = true -> Sync.isEpochTimestamp value = false.
Proof.
  destruct value as [| |b|n|s|xs|props]; simpl; try discriminate.
  - destruct n as [|neg|q]; simpl; try discriminate.
    intros Hzero. apply Qeq_bool_iff in Hzero.
    unfold Js.num_gt, Js.num_lt, Js.of_Z, Js.Q_ltb.
    assert (Hle : Qle_bool q (inject_Z 1000000000) = true).
    { apply Qle_bool_iff. rewrite Hzero. discriminate. }
    rewrite Hle. reflexivity.
  - intros Hzero. apply String.eqb_eq in Hzero. subst s. reflexivity.
Qed.

Lemma cleanValue_cases (now : Z) (key : string) (value : Js.Value) :
  (Sync.isEpochTimestamp value = true ->
     Sync.cleanValue now key value = Js.String (toSafeDateString now value)) /\
  (Sync.isZero value = true -> Sync.isDateColumn key = true ->
     Sync.cleanValue now key value = Js.Null) /\
  (Sync.isEpochTimestamp value = false ->
     Sync.isZero value = false \/ Sync.isDateColumn key = false ->
     Sync.cleanValue now key value = value).
Proof.
  unfold Sync.cleanValue.
  repeat split.
  - intros ->. reflexivity.
  - intros Hzero ->. rewrite (isZero_not_epoch value Hzero), Hzero. reflexivity.
  - intros -> [-> | ->]; [reflexivity|]. rewrite andb_false_r. reflexivity.
Qed.

(** A table name that is neither a pushable table nor inherited from the
    prototype of the map is skipped: no adapter is called, the store is
    untouched, the rest of the request is processed. *)
Lemma absent_table_is_skipped (draws : nat -> Draw) (tableName : string)
    (newDeltaJson : option Sync.PushDelta) (rest : Sync.PushRequest) (w : Sync.World) :
  Sync.pushTableNameModelMap_own !! tableName = None ->
  tableName ∉ Js.Object_prototype_keys ->
  Sync.persistTable draws tableName newDeltaJson w = Js.Ok w /\
  Sync.persistClientChanges draws ((tableName, newDeltaJson) :: rest) w
  = Sync.persistClientChanges draws rest w.
Proof.
  intros Hown Hproto.
  assert (Hskip : Sync.persistTable draws tableName newDeltaJson w = Js.Ok w).
  { unfold Sync.persistTable, Sync.pushTableNameModelMap.
    rewrite Hown, bool_decide_eq_false_2 by exact Hproto. reflexivity. }
  split; [exact Hskip|]. simpl. rewrite Hskip. reflexivity.
Qed.

(** C5, where the code falls short of it.  A field that is not a known
    column is dropped, and the cleaned record is what the adapter
    receives.  A kept value is replaced by its date string when it is a
    string that, once trimmed, is ten to thirteen digits, or a number
    strictly between 1e9 and 1e14, whatever the field is called; it
    becomes null when it is 0 or "0" and the name of the field ends with
    [_at] or [_date] or is [timestamp] or [last_modified]; it passes
    unchanged otherwise.  So the ten-digit number 1000000000 is left as
    it is even in a date column, and every fourteen-digit number is
    converted. *)
Theorem push_record_cleaning (draws : nat -> Draw) (entity : Entity)
    (record : Js.Record) (rest : list Js.Record) (w : Sync.World) :
  let now := Date_now (draws w.1) in
  let columns := Table_columns (Table entity) in
  let cleaned := Sync.clean now columns record in
  let epoch (value : Js.Value) : Prop :=
    (exists s, value = Js.String s /\
               Js.allDigits (Js.trim s) = true /\
               (10 <= String.length (Js.trim s) <= 13)%nat) \/
    (exists q, value = Js.Number (Js.Finite q) /\
               (inject_Z 1000000000 < q)%Q /\ (q < inject_Z 100000000000000)%Q) in
  let zero (value : Js.Value) : Prop :=
    value = Js.String "0" \/ (exists q, value = Js.Number (Js.Finite q) /\ (q == 0)%Q) in
  let dated (key : string) : Prop :=
    (exists p, key = p +:+ "_at") \/ (exists p, key = p +:+ "_date") \/
    key = "timestamp" \/ key = "last_modified" in
  Sync.upsertAll draws entity (record :: rest) w
    = (s ← upsertFromDelta (Sync entity) (draws w.1) cleaned w.2;
       Sync.upsertAll draws entity rest (S w.1, s)) /\
  (forall key, key ∉ columns -> cleaned !! key = None) /\
  (forall key, key ∈ columns -> record !! key = None -> cleaned !! key = None) /\
  (forall key value, key ∈ columns -> record !! key = Some value ->
     (epoch value -> cleaned !! key = Some (Js.String (toSafeDateString now value))) /\
     (zero value -> dated key -> cleaned !! key = Some Js.Null) /\
     (~ epoch value -> ~ (zero value /\ dated key) -> cleaned !! key = Some value)) /\
  (forall key, key ∈ columns ->
     record !! key = Some (Js.Number (Js.of_Z 1000000000)) ->
     cleaned !! key = Some (Js.Number (Js.of_Z 1000000000))) /\
  (forall key z, key ∈ columns -> 10000000000000 <= z < 100000000000000 ->
     record !! key = Some (Js.Number (Js.of_Z z)) ->
     cleaned !! key = Some (Js.String (toSafeDateString now (Js.Number (Js.of_Z z))))).
Proof.
  intros now columns cleaned epoch zero dated. subst cleaned columns.
  assert (Hkept : forall key value, key ∈ Table_columns (Table entity) ->
                    record !! key = Some value ->
                    Sync.clean now (Table_columns (Table entity)) record !! key
                    = Some (Sync.cleanValue now key value)).
  { intros key value Hin Hsome. rewrite clean_lookup, Hsome.
    destruct (decide _); [reflexivity|contradiction]. }
  split; [reflexivity|]. split; [|split; [|split; [|split]]].
  - intros key Hout. rewrite clean_lookup. destruct (decide _); [contradiction|reflexivity].
  - intros key Hin Hnone. rewrite clean_lookup, Hnone. destruct (decide _); reflexivity.
  - intros key value Hin Hsome. rewrite (Hkept key value Hin Hsome).
    destruct (cleanValue_cases now key value) as (Hepoch & Hzero & Hother).
    repeat split.
    + intros He. apply isEpochTimestamp_shape in He. rewrite (Hepoch He). reflexivity.
    + intros Hz Hd. apply isZero_shape in Hz. apply isDateColumn_shape in Hd.
      rewrite (Hzero Hz Hd). reflexivity.
    + intros He Hzd. rewrite Hother; [reflexivity | |].
      * destruct (Sync.isEpochTimestamp value) eqn:Htest; [|reflexivity].
        exfalso. apply He, isEpochTimestamp_shape. exact Htest.
      * destruct (Sync.isZero value) eqn:Hz; [|left; reflexivity].
        destruct (Sync.isDateColumn key) eqn:Hd; [|right; reflexivity].
        exfalso. apply Hzd. split; [apply isZero_shape | apply isDateColumn_shape]; assumption.
  - intros key Hin Hsome. rewrite (Hkept key _ Hin Hsome). reflexivity.
  - intros key z Hin Hz Hsome. rewrite (Hkept key _ Hin Hsome).
    destruct (cleanValue_cases now key (Js.Number (Js.of_Z z))) as (Hepoch & _ & _).
    rewrite Hepoch; [reflexivity|]. apply isEpochTimestamp_of_Z. lia.
Qed.

(** C9: a table name that the map of pushable tables inherits from
    [Object.prototype] and does not hold itself is not skipped: the push
    throws at it, before the tables that follow are processed. *)
Theorem inherited_table_name_throws (draws : nat -> Draw) (tableName : string)
    (newDeltaJson : option Sync.PushDelta) (rest : Sync.PushRequest) (w : Sync.World) :
  Sync.pushTableNameModelMap_own !! tableName = None ->
  tableName ∈ Js.Object_prototype_keys ->
  Sync.persistClientChanges draws ((tableName, newDeltaJson) :: rest) w
  = Js.Throw (Js.TypeError "Cannot read properties of undefined (reading 'columns')").
Proof.
  intros Hown Hproto. simpl.
  unfold Sync.persistTable, Sync.pushTableNameModelMap.
  rewrite Hown, bool_decide_eq_true_2 by exact Hproto. reflexivity.
Qed.

End Push.

(** [provider_name] is not a date-like name, yet a ten-digit value in it
    is replaced by a date string. *)
Example epoch_value_converted_in_any_column :
  let record : Js.Record := {[ "provider_name" := Js.String "0712345678" ]} in
  let cleaned := Sync.clean (platform := Fixture.platform) 0 (Table_columns Visit.Table) record in
  Sync.isDateColumn "provider_name" = false /\
  record !! "provider_name" = Some (Js.String "0712345678") /\
  cleaned !! "provider_name" = Some (Js.String "@0712345678") /\
  cleaned !! "provider_name" <> record !! "provider_name".
Proof. vm_compute. repeat split; try reflexivity. discriminate. Qed.

(** The bounds on numbers are not those of ten to thirteen digits: the
    ten-digit 1e9 is left alone, the fourteen-digit 1e13 is converted. *)
Example epoch_number_bounds :
  Sync.isEpochTimestamp (Js.Number (Js.of_Z 1000000000)) = false /\
  Sync.isEpochTimestamp (Js.Number (Js.of_Z 10000000000000)) = true.
Proof. split; reflexivity. Qed.

(** [trim] strips every white space character and line terminator at
    both ends, and leaves the zero width space U+200B, which is neither. *)
Example trim_strips_white_space :
  forallb (fun c => String.eqb (Js.trim (c +:+ "10.0.0.1" +:+ c)) "10.0.0.1") Js.whiteSpace
  = true /\
  Js.trim (Js.bytes [226; 128; 139]%nat +:+ "x") = Js.bytes [226; 128; 139]%nat +:+ "x".
Proof. split; vm_compute; reflexivity. Qed.

(** The test is made on the trimmed string, and [trim] strips the
    no-break space. *)
Example epoch_string_behind_a_no_break_space :
  Js.trim (Js.bytes [194; 160]%nat +:+ "1770647055887") = "1770647055887" /\
  Sync.isEpochTimestamp (Js.String (Js.bytes [194; 160]%nat +:+ "1770647055887")) = true.
Proof. split; vm_compute; reflexivity. Qed.

(** C5, on the test platform: a pushed visit whose [created_at] is the
    ten-digit number 1000000000, whose [updated_at] is a fourteen-digit
    number, whose [provider_name] is ten digits, with a zero [deleted_at]
    and the client's [_status]. *)
Lemma push_record_cleaning_witness :
  let record : Js.Record :=
    <["created_at" := Js.Number (Js.of_Z 1000000000)]>
      (<["updated_at" := Js.Number (Js.of_Z 12345678901234)]>
         (<["provider_name" := Js.String "0712345678"]>
            (<["deleted_at" := Js.String "0"]>
               (<["_status" := Js.String "created"]> ∅)))) in
  let cleaned :=
    Sync.clean (platform := Fixture.platform) 7 (Table_columns Visit.Table) record in
  cleaned !! "_status" = None /\
  cleaned !! "created_at" = Some (Js.Number (Js.of_Z 1000000000)) /\
  cleaned !! "updated_at" = Some (Js.String "@12345678901234") /\
  cleaned !! "provider_name" = Some (Js.String "@0712345678") /\
  cleaned !! "deleted_at" = Some Js.Null.
Proof.
  intros record cleaned.
  destruct (push_record_cleaning (platform := Fixture.platform)
              (fun _ => {| uuidv7 := Fixture.uuids; Date_now := 7; db_now := 7 |})
              (Visit.Entity (platform := Fixture.platform)) record []
              (0%nat, {| Db.visits := ∅; Db.prescriptions := ∅; Db.events := ∅;
                         Db.appointments := ∅ |}))
    as (_ & Hdropped & _ & Hkept & Hten & Hfourteen).
  split; [|split; [|split; [|split]]].
  - apply Hdropped. apply (bool_decide_eq_false_1 _). reflexivity.
  - apply Hten; [apply (bool_decide_eq_true_1 _)|]; reflexivity.
  - apply (Hfourteen "updated_at" 12345678901234);
      [apply (bool_decide_eq_true_1 _); reflexivity | lia | reflexivity].
  - destruct (Hkept "provider_name" (Js.String "0712345678")) as (Hepoch & _ & _).
    + apply (bool_decide_eq_true_1 _). reflexivity.
    + reflexivity.
    + apply Hepoch. left. exists "0712345678". split; [reflexivity|].
      split; [reflexivity|]. vm_compute. split; repeat constructor.
  - destruct (Hkept "deleted_at" (Js.String "0")) as (_ & Hzero & _).
    + apply (bool_decide_eq_true_1 _). reflexivity.
    + reflexivity.
    + apply Hzero; [left; reflexivity|]. left. exists "deleted". reflexivity.
Defined.

(** C9, on the test models: a request whose first key is [toString]. *)
Lemma inherited_table_name_throws_witness :
  Sync.persistClientChanges (platform := Fixture.platform) (models := Fixture.models)
    (fun _ => Fixture.draw)
    [ ("toString", Some {| Sync.push_created := Some []; Sync.push_updated := Some [];
                           Sync.push_deleted := Some [] |});
      ("visits", Some {| Sync.push_created := Some []; Sync.push_updated := Some [];
                         Sync.push_deleted := Some ["v1"] |}) ]
    (0%nat, {| Db.visits := ∅; Db.prescriptions := ∅; Db.events := ∅; Db.appointments := ∅ |})
  = Js.Throw (Js.TypeError "Cannot read properties of undefined (reading 'columns')").
Proof.
  apply (inherited_table_name_throws (platform := Fixture.platform) (models := Fixture.models)).
  - vm_compute. reflexivity.
  - apply (bool_decide_eq_true_1 _). reflexivity.
Defined.

(** The scenario of an unknown table, [foo_bar]: it is skipped and the
    tables after it are processed. *)
Example foo_bar_is_skipped :
  Sync.persistClientChanges (platform := Fixture.platform) (models := Fixture.models)
    (fun _ => Fixture.draw)
    [ ("foo_bar", Some {| Sync.push_created := Some [∅]; Sync.push_updated := None;
                          Sync.push_deleted := Some ["x"] |});
      ("visits", None) ]
    (0%nat, {| Db.visits := ∅; Db.prescriptions := ∅; Db.events := ∅; Db.appointments := ∅ |})
  = Js.Ok (0%nat, {| Db.visits := ∅; Db.prescriptions := ∅; Db.events := ∅; Db.appointments := ∅ |}).
Proof. vm_compute. reflexivity. Qed.

(** ** The audit log *)

(** Every stored document is equal to itself. *)
Lemma Json_eqb_refl (a : Json.jsonb) : Json.eqb a a = true.
Proof.
  induction a as [ |x|x scale|x|items IH|members IH] using Json.induction; simpl.
  - reflexivity.
  - destruct x; reflexivity.
  - apply Z.eqb_refl.
  - apply String.eqb_refl.
  - induction IH as [|x xs Hx _ IHxs]; [reflexivity|]. rewrite Hx, IHxs. reflexivity.
  - induction IH as [|[k x] xs Hx _ IHxs]; [reflexivity|].
    simpl in Hx. rewrite String.eqb_refl, Hx, IHxs. reflexivity.
Qed.

Section AuditLog.
Context {platform : Platform}.

Lemma opt_eqb_eq (a b : option string) : EventLog.opt_eqb a b = true <-> a = b.
Proof.
  destruct a, b; simpl; try (split; [discriminate | congruence]).
  - rewrite String.eqb_eq. split; congruence.
  - split; reflexivity.
Qed.

(** The fields the trigger compares. *)
Lemma core_unchanged_iff (OLD NEW : EventLog.Row) :
  EventLog.core_unchanged OLD NEW = true <->
  EventLog.id NEW = EventLog.id OLD /\
  EventLog.transaction_id NEW = EventLog.transaction_id OLD /\
  EventLog.action_type NEW = EventLog.action_type OLD /\
  EventLog.table_name NEW = EventLog.table_name OLD /\
  EventLog.row_id NEW = EventLog.row_id OLD /\
  Json.eqb (EventLog.changes NEW) (EventLog.changes OLD) = true /\
  EventLog.device_id NEW = EventLog.device_id OLD /\
  EventLog.app_id NEW = EventLog.app_id OLD /\
  EventLog.user_id NEW = EventLog.user_id OLD /\
  EventLog.hash NEW = EventLog.hash OLD /\
  EventLog.ip_address NEW = EventLog.ip_address OLD /\
  EventLog.created_at NEW = EventLog.created_at OLD.
Proof.
  unfold EventLog.core_unchanged.
  rewrite !andb_true_iff, !String.eqb_eq, opt_eqb_eq, Z.eqb_eq. tauto.
Qed.

(** C3, where the trigger falls short of it: on a stored row a DELETE is
    refused, and an UPDATE is refused exactly when it changes one of the
    twelve fields [id], [transaction_id], [action_type], [table_name],
    [row_id], [changes], [device_id], [app_id], [user_id], [hash],
    [ip_address], [created_at] ([changes] compared as [jsonb]); every other
    UPDATE is accepted and stored as proposed.  So an UPDATE that rewrites
    [metadata], which is neither [hash_verified] nor a sync column, is
    accepted, and [hash_verified] can be set again whatever it holds. *)
Theorem event_log_trigger_guards_audit_fields (OLD NEW : EventLog.Row) (key : string)
    (tbl : EventLog.Table) :
  tbl !! key = Some OLD ->
  let unchanged :=
    EventLog.id NEW = EventLog.id OLD /\
    EventLog.transaction_id NEW = EventLog.transaction_id OLD /\
    EventLog.action_type NEW = EventLog.action_type OLD /\
    EventLog.table_name NEW = EventLog.table_name OLD /\
    EventLog.row_id NEW = EventLog.row_id OLD /\
    Json.eqb (EventLog.changes NEW) (EventLog.changes OLD) = true /\
    EventLog.device_id NEW = EventLog.device_id OLD /\
    EventLog.app_id NEW = EventLog.app_id OLD /\
    EventLog.user_id NEW = EventLog.user_id OLD /\
    EventLog.hash NEW = EventLog.hash OLD /\
    EventLog.ip_address NEW = EventLog.ip_address OLD /\
    EventLog.created_at NEW = EventLog.created_at OLD in
  (exists e, EventLog.sql_delete key tbl = Js.Throw e) /\
  (unchanged -> EventLog.sql_update key (fun _ => NEW) tbl = Js.Ok (<[key := NEW]> tbl)) /\
  (~ unchanged -> exists e, EventLog.sql_update key (fun _ => NEW) tbl = Js.Throw e) /\
  (forall m, EventLog.sql_update key (EventLog.set_metadata m) tbl
             = Js.Ok (<[key := EventLog.set_metadata m OLD]> tbl)) /\
  (forall v, EventLog.sql_update key (EventLog.set_hash_verified v) tbl
             = Js.Ok (<[key := EventLog.set_hash_verified v OLD]> tbl)).
Proof.
  intros Hrow unchanged.
  assert (Hcore : EventLog.core_unchanged OLD NEW = true <-> unchanged)
    by apply core_unchanged_iff.
  unfold EventLog.sql_delete, EventLog.sql_update. rewrite Hrow. simpl.
  split; [eexists; reflexivity|]. split; [|split; [|split]].
  - intros Hsame. apply Hcore in Hsame. rewrite Hsame. reflexivity.
  - intros Hdiff. destruct (EventLog.core_unchanged OLD NEW) eqn:Htest.
    + exfalso. apply Hdiff, Hcore. reflexivity.
    + eexists. reflexivity.
  - intros m.
    assert (Hsame : EventLog.core_unchanged OLD (EventLog.set_metadata m OLD) = true).
    { apply core_unchanged_iff. simpl.
      repeat split; first [reflexivity | apply Json_eqb_refl]. }
    rewrite Hsame. reflexivity.
  - intros v.
    assert (Hsame : EventLog.core_unchanged OLD (EventLog.set_hash_verified v OLD) = true).
    { apply core_unchanged_iff. simpl.
      repeat split; first [reflexivity | apply Json_eqb_refl]. }
    rewrite Hsame. reflexivity.
Qed.

(** C2: a call of [logEvent] that returns has stored exactly one new
    row, and the [hash_verified] of that row is [false], the default of
    the column, not NULL: the verification job does not select it. *)
Theorem logEvent_row_is_stored_with_hash_verified_false (d : Draw)
    (database : EventLog.Table) (params : EventLog.LogEventParams)
    (ctx : EventLog.RequestContext) (after : EventLog.Table) :
  EventLog.logEvent d database params ctx = Js.Ok after ->
  exists row,
    database !! EventLog.id row = None /\
    after = <[EventLog.id row := row]> database /\
    EventLog.hash_verified row = Some false /\
    row ∉ EventLog.unverified after.
Proof.
  unfold EventLog.logEvent. simpl.
  destruct (EventLog.row_of_insert _ _) as [row|e] eqn:Hrow; [|discriminate].
  simpl. destruct (database !! EventLog.id row) eqn:Hfresh; [discriminate|].
  intros [= <-]. exists row.
  assert (Hfalse : EventLog.hash_verified row = Some false).
  { unfold EventLog.row_of_insert in Hrow. simpl in Hrow.
    repeat match type of Hrow with
           | context [match ?x with _ => _ end] => destruct x; try discriminate
           end;
      injection Hrow as <-; reflexivity. }
  split; [exact Hfresh|]. split; [reflexivity|]. split; [exact Hfalse|].
  unfold EventLog.unverified. intros Hin.
  apply (subseteq_take _ _) in Hin.
  apply list_elem_of_In, filter_In in Hin. destruct Hin as [_ Hnull].
  rewrite Hfalse in Hnull. discriminate.
Qed.

(** The sibling path: a row pushed by a client is stored with a NULL
    [hash_verified]. *)
Lemma insertFromSync_row_is_unverified (d : Draw) (eventLog : EventLog.EncodedT)
    (tbl after : EventLog.Table) (key : string) :
  uuid_in (EventLog.enc_id eventLog) = Some key ->
  tbl !! key = None ->
  EventLog.insertFromSync d eventLog tbl = Js.Ok after ->
  EventLog.hash_verified <$> after !! key = Some None.
Proof.
  intros Hid Hfresh. unfold EventLog.insertFromSync, EventLog.insert_or_ignore.
  unfold EventLog.row_of_insert. simpl. rewrite Hid.
  destruct (uuid_in (EventLog.enc_transaction_id eventLog)); [|discriminate].
  destruct (match EventLog.enc_ip_address eventLog with
            | Some a => Some <$> inet_in a
            | None => Some None
            end); [|discriminate].
  simpl. rewrite Hfresh. intros [= <-]. rewrite lookup_insert_eq. reflexivity.
Qed.

End AuditLog.

(** ** Replaying a push of visits *)

Section Replaying.
Context {platform : Platform}.

Lemma assign_then (a b : Replay.Assign) (r : Db.VisitRow) :
  Replay.assign (Replay.then_ a b) r = Replay.assign b (Replay.assign a r).
Proof.
  destruct a as [[pa|] [da|]], b as [[pb|] [db|]], r; try destruct pa; try destruct pb;
    reflexivity.
Qed.

Lemma assign_idem (a : Replay.Assign) (r : Db.VisitRow) :
  Replay.assign a (Replay.assign a r) = Replay.assign a r.
Proof. destruct a as [[pa|] [da|]], r; try destruct pa; reflexivity. Qed.

Lemma assign_mask (a : Replay.Assign) (r : Db.VisitRow) :
  Replay.assign a (Replay.mask_visit r) = Replay.assign a r.
Proof. destruct a as [[pa|] [da|]], r; reflexivity. Qed.

Lemma assign_nothing (r : Db.VisitRow) :
  Replay.assign Replay.nothing r = Replay.mask_visit r.
Proof. destruct r; reflexivity. Qed.

Lemma then_assoc (a b c : Replay.Assign) :
  Replay.then_ a (Replay.then_ b c) = Replay.then_ (Replay.then_ a b) c.
Proof. destruct a as [[?|] [?|]], b as [[?|] [?|]], c as [[?|] [?|]]; reflexivity. Qed.

Lemma then_nothing_l (a : Replay.Assign) : Replay.then_ Replay.nothing a = a.
Proof. destruct a as [[?|] [?|]]; reflexivity. Qed.

Lemma then_full (a b : Replay.Assign) : Replay.full b -> Replay.then_ a b = b.
Proof. intros [[p Hp] [d Hd]]. destruct b as [pb db]. simpl in *. subst. reflexivity. Qed.

Lemma full_then (a b : Replay.Assign) : Replay.full a -> Replay.full (Replay.then_ a b).
Proof.
  intros [[p Hp] [d Hd]]. destruct a as [pa da], b as [[?|] [?|]]; simpl in *; subst;
    split; eexists; reflexivity.
Qed.

Lemma summary_fold (key : string) (ops : list Replay.Op) (a : Replay.Assign) :
  foldl (fun acc op => Replay.then_ acc (Replay.effect key op)) a ops
  = Replay.then_ a (Replay.summary key ops).
Proof.
  unfold Replay.summary. revert a.
  induction ops as [|op ops IH]; intros a; simpl.
  - destruct a as [[?|] [?|]]; reflexivity.
  - rewrite IH. rewrite (IH (Replay.then_ Replay.nothing _)).
    rewrite then_nothing_l, then_assoc. reflexivity.
Qed.

Lemma summary_cons (key : string) (op : Replay.Op) (ops : list Replay.Op) :
  Replay.summary key (op :: ops)
  = Replay.then_ (Replay.effect key op) (Replay.summary key ops).
Proof.
  unfold Replay.summary at 1. simpl. rewrite summary_fold, then_nothing_l. reflexivity.
Qed.

Lemma lookup_upsert_core (d : Draw) (visit : Visit.EncodedT) (s : Db.Store) (key : string) :
  Db.visits (Visit.upsert_core d visit s) !! key
  = if decide (Visit.id visit = key)
    then Some (match Db.visits s !! key with
               | None => Visit.values d visit
               | Some old => Visit.doUpdateSet d (Visit.values d visit) old
               end)
    else Db.visits s !! key.
Proof.
  unfold Visit.upsert_core. simpl.
  destruct (decide (Visit.id visit = key)) as [<-|Hne].
  - rewrite lookup_insert_eq. reflexivity.
  - rewrite lookup_insert_ne by exact Hne. reflexivity.
Qed.

Lemma lookup_softDelete (d : Draw) (id : string) (s : Db.Store) (key : string) :
  Db.visits (Visit.softDelete d id s) !! key
  = if decide (id = key)
    then Visit.mark_visit_deleted (db_now d) <$> Db.visits s !! key
    else Db.visits s !! key.
Proof.
  unfold Visit.softDelete. simpl.
  destruct (decide (id = key)) as [<-|Hne].
  - rewrite lookup_alter_eq. reflexivity.
  - rewrite lookup_alter_ne by exact Hne. reflexivity.
Qed.

(** One call on a row that exists. *)
Lemma step_existing (op : Replay.Op) (s : Db.Store) (key : string) (r : Db.VisitRow) :
  Db.visits s !! key = Some r ->
  exists r', Db.visits (Replay.apply_op s op) !! key = Some r' /\
             Replay.mask_visit r' = Replay.assign (Replay.effect key op) (Replay.mask_visit r).
Proof.
  intros Hr. destruct op as [d visit|d id]; cbn [Replay.apply_op Replay.effect].
  - rewrite lookup_upsert_core, Hr.
    destruct (decide (Visit.id visit = key)); eexists; (split; [reflexivity|]).
    + destruct r; reflexivity.
    + destruct r; reflexivity.
  - rewrite lookup_softDelete, Hr.
    destruct (decide (id = key)); eexists; (split; [reflexivity|]).
    + destruct r; reflexivity.
    + destruct r; reflexivity.
Qed.

(** Several calls on a row that exists. *)
Lemma run_existing (ops : list Replay.Op) (s : Db.Store) (key : string) (r : Db.VisitRow) :
  Db.visits s !! key = Some r ->
  exists r', Db.visits (Replay.run ops s) !! key = Some r' /\
             Replay.mask_visit r'
             = Replay.assign (Replay.summary key ops) (Replay.mask_visit r).
Proof.
  revert s r. induction ops as [|op ops IH]; intros s r Hr.
  - exists r. split; [exact Hr|]. destruct r; reflexivity.
  - destruct (step_existing op s key r Hr) as (r1 & Hr1 & Hmask1).
    destruct (IH (Replay.apply_op s op) r1 Hr1) as (r' & Hr' & Hmask).
    exists r'. split; [exact Hr'|].
    rewrite Hmask, Hmask1, summary_cons, assign_then. reflexivity.
Qed.

Lemma values_is_assigned (d : Draw) (visit : Visit.EncodedT) (key : string) :
  Visit.id visit = key ->
  Replay.assign (Replay.effect key (Replay.Upsert d visit))
    (Replay.mask_visit (Visit.values d visit))
  = Replay.mask_visit (Visit.values d visit).
Proof.
  intros Hid. simpl. destruct (decide (Visit.id visit = key)); [|contradiction].
  reflexivity.
Qed.

Lemma effect_upsert_full (d : Draw) (visit : Visit.EncodedT) (key : string) :
  Visit.id visit = key -> Replay.full (Replay.effect key (Replay.Upsert d visit)).
Proof.
  intros Hid. simpl. destruct (decide (Visit.id visit = key)); [|contradiction].
  split; eexists; reflexivity.
Qed.

(** Several calls on a row that does not exist yet: it stays absent when
    no call upserts it; otherwise the row that results is a fixed point
    of the net effect of the calls. *)
Lemma run_from_absent (ops : list Replay.Op) (s : Db.Store) (key : string) :
  Db.visits s !! key = None ->
  match Db.visits (Replay.run ops s) !! key with
  | None => forallb (fun op => negb (Replay.upserts key op)) ops = true
  | Some r1 =>
      Replay.full (Replay.summary key ops) /\
      Replay.assign (Replay.summary key ops) (Replay.mask_visit r1) = Replay.mask_visit r1
  end.
Proof.
  revert s. induction ops as [|op ops IH]; intros s Habsent.
  - simpl. rewrite Habsent. reflexivity.
  - destruct (Replay.upserts key op) eqn:Hup.
    + destruct op as [d visit|d id]; [|discriminate].
      apply bool_decide_eq_true_1 in Hup.
      assert (Hr0 : Db.visits (Replay.apply_op s (Replay.Upsert d visit)) !! key
                    = Some (Visit.values d visit)).
      { cbn [Replay.apply_op]. rewrite lookup_upsert_core, Habsent.
        destruct (decide (Visit.id visit = key)); [reflexivity|contradiction]. }
      destruct (run_existing ops _ key _ Hr0) as (r1 & Hr1 & Hmask).
      change (Replay.run (Replay.Upsert d visit :: ops) s)
        with (Replay.run ops (Replay.apply_op s (Replay.Upsert d visit))).
      rewrite Hr1. rewrite summary_cons. split.
      * apply full_then, effect_upsert_full, Hup.
      * assert (Hnet : Replay.mask_visit r1
                       = Replay.assign
                           (Replay.then_ (Replay.effect key (Replay.Upsert d visit))
                              (Replay.summary key ops))
                           (Replay.mask_visit (Visit.values d visit))).
        { rewrite assign_then, (values_is_assigned d visit key Hup). exact Hmask. }
        rewrite Hnet. apply assign_idem.
    + assert (Hstill : Db.visits (Replay.apply_op s op) !! key = None).
      { destruct op as [d visit|d id]; cbn [Replay.apply_op].
        - rewrite lookup_upsert_core.
          destruct (decide (Visit.id visit = key)) as [Heq|]; [|exact Habsent].
          simpl in Hup. rewrite bool_decide_eq_true_2 in Hup by exact Heq. discriminate.
        - rewrite lookup_softDelete, Habsent. destruct (decide (id = key)); reflexivity. }
      specialize (IH (Replay.apply_op s op) Hstill).
      change (Replay.run (op :: ops) s) with (Replay.run ops (Replay.apply_op s op)).
      destruct (Db.visits (Replay.run ops (Replay.apply_op s op)) !! key) as [r1|].
      * destruct IH as [Hfull Hfix]. rewrite summary_cons, (then_full _ _ Hfull).
        split; assumption.
      * simpl. rewrite Hup. exact IH.
Qed.

Lemma run_absent (ops : list Replay.Op) (s : Db.Store) (key : string) :
  Db.visits s !! key = None ->
  forallb (fun op => negb (Replay.upserts key op)) ops = true ->
  Db.visits (Replay.run ops s) !! key = None.
Proof.
  revert s. induction ops as [|op ops IH]; intros s Habsent Hnone; [exact Habsent|].
  simpl in Hnone. apply andb_true_iff in Hnone as [Hop Hrest].
  change (Replay.run (op :: ops) s) with (Replay.run ops (Replay.apply_op s op)).
  apply IH; [|exact Hrest].
  destruct op as [d visit|d id]; cbn [Replay.apply_op].
  - rewrite lookup_upsert_core.
    destruct (decide (Visit.id visit = key)) as [Heq|]; [|exact Habsent].
    simpl in Hop. rewrite bool_decide_eq_true_2 in Hop by exact Heq. discriminate.
  - rewrite lookup_softDelete, Habsent. destruct (decide (id = key)); reflexivity.
Qed.

Lemma similar_effect (key : string) (a b : Replay.Op) :
  Replay.similar a b -> Replay.effect key a = Replay.effect key b.
Proof.
  destruct a as [d visit|d id], b as [d' visit'|d' id']; simpl; try contradiction.
  - intros (Hid & Hdel & Hpay). rewrite Hid, Hdel, Hpay. reflexivity.
  - intros ->. reflexivity.
Qed.

Lemma similar_upserts (key : string) (a b : Replay.Op) :
  Replay.similar a b -> Replay.upserts key a = Replay.upserts key b.
Proof.
  destruct a as [d visit|d id], b as [d' visit'|d' id']; simpl; try contradiction.
  - intros (Hid & _). rewrite Hid. reflexivity.
  - reflexivity.
Qed.

Lemma similar_hits (r : Db.LinkedRow) (a b : Replay.Op) :
  Replay.similar a b -> Replay.hits r a = Replay.hits r b.
Proof.
  destruct a as [d visit|d id], b as [d' visit'|d' id']; simpl; try contradiction.
  - reflexivity.
  - intros ->. reflexivity.
Qed.

Lemma similar_summary (key : string) (ops ops' : list Replay.Op) :
  Forall2 Replay.similar ops ops' -> Replay.summary key ops = Replay.summary key ops'.
Proof.
  induction 1 as [|a b ops ops' Hab _ IH]; [reflexivity|].
  rewrite !summary_cons, IH, (similar_effect key a b Hab). reflexivity.
Qed.

Lemma similar_no_upserts (key : string) (ops ops' : list Replay.Op) :
  Forall2 Replay.similar ops ops' ->
  forallb (fun op => negb (Replay.upserts key op)) ops
  = forallb (fun op => negb (Replay.upserts key op)) ops'.
Proof.
  induction 1 as [|a b ops ops' Hab _ IH]; [reflexivity|].
  simpl. rewrite IH, (similar_upserts key a b Hab). reflexivity.
Qed.

Lemma similar_any_hit (r : Db.LinkedRow) (ops ops' : list Replay.Op) :
  Forall2 Replay.similar ops ops' ->
  existsb (Replay.hits r) ops = existsb (Replay.hits r) ops'.
Proof.
  induction 1 as [|a b ops ops' Hab _ IH]; [reflexivity|].
  simpl. rewrite IH, (similar_hits r a b Hab). reflexivity.
Qed.

(** The row [key] of [visits] after a second, similar run. *)
Lemma visits_replay_key (ops ops' : list Replay.Op) (s : Db.Store) (key : string) :
  Forall2 Replay.similar ops ops' ->
  Replay.mask_visit <$> Db.visits (Replay.run ops' (Replay.run ops s)) !! key
  = Replay.mask_visit <$> Db.visits (Replay.run ops s) !! key.
Proof.
  intros Hsim.
  assert (Hfix : match Db.visits (Replay.run ops s) !! key with
                 | None => forallb (fun op => negb (Replay.upserts key op)) ops = true
                 | Some r1 =>
                     Replay.assign (Replay.summary key ops) (Replay.mask_visit r1)
                     = Replay.mask_visit r1
                 end).
  { destruct (Db.visits s !! key) as [r|] eqn:Hstart.
    - destruct (run_existing ops s key r Hstart) as (r1 & -> & Hmask).
      rewrite Hmask. apply assign_idem.
    - pose proof (run_from_absent ops s key Hstart) as Habs.
      destruct (Db.visits (Replay.run ops s) !! key); [apply Habs | exact Habs]. }
  destruct (Db.visits (Replay.run ops s) !! key) as [r1|] eqn:Hr1.
  - destruct (run_existing ops' _ key r1 Hr1) as (r2 & -> & Hmask).
    simpl. rewrite Hmask, <- (similar_summary key ops ops' Hsim), Hfix. reflexivity.
  - rewrite (run_absent ops' _ key Hr1); [reflexivity|].
    rewrite <- (similar_no_upserts key ops ops' Hsim). exact Hfix.
Qed.

(** *** The linked tables *)

Lemma run_linked (ops : list Replay.Op) (s : Db.Store) :
  Db.prescriptions (Replay.run ops s)
    = (fun r => foldl Replay.linked_step r ops) <$> Db.prescriptions s /\
  Db.events (Replay.run ops s)
    = (fun r => foldl Replay.linked_step r ops) <$> Db.events s /\
  Db.appointments (Replay.run ops s)
    = (fun r => foldl Replay.linked_step r ops) <$> Db.appointments s.
Proof.
  revert s. induction ops as [|op ops IH]; intros s.
  - simpl. rewrite !map_fmap_id. repeat split; reflexivity.
  - change (Replay.run (op :: ops) s) with (Replay.run ops (Replay.apply_op s op)).
    destruct (IH (Replay.apply_op s op)) as (Hp & He & Ha).
    rewrite Hp, He, Ha.
    destruct op as [d visit|d id]; cbn [Replay.apply_op].
    + repeat split; reflexivity.
    + unfold Visit.softDelete. cbn [Db.prescriptions Db.events Db.appointments].
      rewrite <- !map_fmap_compose. repeat split; reflexivity.
Qed.

Lemma linked_step_ref (r : Db.LinkedRow) (ops : list Replay.Op) :
  Db.visit_ref (foldl Replay.linked_step r ops) = Db.visit_ref r /\
  Db.linked_cells (foldl Replay.linked_step r ops) = Db.linked_cells r.
Proof.
  revert r. induction ops as [|op ops IH]; intros r; [split; reflexivity|].
  simpl. destruct (IH (Replay.linked_step r op)) as [-> ->].
  destruct op as [d visit|d id]; simpl; [split; reflexivity|].
  unfold Visit.mark_linked_deleted. destruct (bool_decide _); split; reflexivity.
Qed.

Lemma linked_net_effect (r : Db.LinkedRow) (ops : list Replay.Op) :
  Replay.mask_linked (foldl Replay.linked_step r ops)
  = if existsb (Replay.hits r) ops then Replay.marked r else Replay.mask_linked r.
Proof.
  revert r. induction ops as [|op ops IH]; intros r; [reflexivity|].
  simpl. rewrite IH.
  destruct op as [d visit|d id]; simpl; [reflexivity|].
  unfold Visit.mark_linked_deleted.
  destruct (bool_decide (Db.visit_ref r = Some id)) eqn:Hhit; simpl; [|reflexivity].
  destruct (existsb _ ops); reflexivity.
Qed.

Lemma any_hit_same_ref (r r' : Db.LinkedRow) (ops : list Replay.Op) :
  Db.visit_ref r = Db.visit_ref r' ->
  existsb (Replay.hits r) ops = existsb (Replay.hits r') ops.
Proof.
  intros Href. induction ops as [|op ops IH]; [reflexivity|].
  simpl. rewrite IH. destruct op as [d visit|d id]; simpl; [reflexivity|].
  rewrite Href. reflexivity.
Qed.

Lemma linked_replay (ops ops' : list Replay.Op) (r : Db.LinkedRow) :
  Forall2 Replay.similar ops ops' ->
  Replay.mask_linked (foldl Replay.linked_step (foldl Replay.linked_step r ops) ops')
  = Replay.mask_linked (foldl Replay.linked_step r ops).
Proof.
  intros Hsim. rewrite (linked_net_effect (foldl Replay.linked_step r ops) ops').
  destruct (linked_step_ref r ops) as [Href Hcells].
  assert (Hhits : existsb (Replay.hits (foldl Replay.linked_step r ops)) ops'
                  = existsb (Replay.hits r) ops).
  { rewrite (similar_any_hit r ops ops' Hsim). apply any_hit_same_ref, Href. }
  rewrite Hhits, linked_net_effect.
  destruct (existsb (Replay.hits r) ops); [|reflexivity].
  unfold Replay.marked. rewrite Href, Hcells. reflexivity.
Qed.

(** A second, similar run leaves the store as the first one left it, up
    to [updated_at] and [last_modified]. *)
Lemma run_replay (ops ops' : list Replay.Op) (s : Db.Store) :
  Forall2 Replay.similar ops ops' ->
  Replay.mask (Replay.run ops' (Replay.run ops s)) = Replay.mask (Replay.run ops s).
Proof.
  intros Hsim. unfold Replay.mask.
  destruct (run_linked ops' (Replay.run ops s)) as (Hp' & He' & Ha').
  destruct (run_linked ops s) as (Hp & He & Ha).
  f_equal.
  - apply map_eq. intros key. rewrite !lookup_fmap. apply visits_replay_key, Hsim.
  - rewrite Hp', Hp, <- !map_fmap_compose. apply map_fmap_ext.
    intros key r _. apply linked_replay, Hsim.
  - rewrite He', He, <- !map_fmap_compose. apply map_fmap_ext.
    intros key r _. apply linked_replay, Hsim.
  - rewrite Ha', Ha, <- !map_fmap_compose. apply map_fmap_ext.
    intros key r _. apply linked_replay, Hsim.
Qed.

End Replaying.

Section ReplayingPush.
Context {platform : Platform} {models : Models}.

Lemma bind_Ok {A : Type} (m : Js.Result A) : (x ← m; Js.Ok x) = m.
Proof. destruct m; reflexivity. Qed.

Lemma upsertAll_visits (draws : nat -> Draw) (records : list Js.Record) (k : nat) (s : Db.Store) :
  Sync.upsertAll draws Visit.Entity records (k, s)
  = match Replay.plan_upserts draws k records with
    | Js.Ok ops => Js.Ok ((k + length records)%nat, Replay.run ops s)
    | Js.Throw e => Js.Throw e
    end.
Proof.
  revert k s. induction records as [|record rest IH]; intros k s.
  - simpl. rewrite Nat.add_0_r. reflexivity.
  - cbn [Sync.upsertAll Replay.plan_upserts fst snd].
    change (Table_columns (Table Visit.Entity)) with (Table_columns Visit.Table).
    change (upsertFromDelta (Sync Visit.Entity)) with (upsertFromDelta Visit.Sync).
    cbn [upsertFromDelta Visit.Sync].
    destruct (Visit.decode _ _) as [visit|e]; [|reflexivity].
    cbn. rewrite IH.
    destruct (Replay.plan_upserts draws (S k) rest) as [ops|e]; [|reflexivity].
    cbn. rewrite Nat.add_succ_r. reflexivity.
Qed.

Lemma deleteAll_visits (draws : nat -> Draw) (ids : list string) (k : nat) (s : Db.Store) :
  Sync.deleteAll draws Visit.Entity ids (k, s)
  = Js.Ok ((k + length ids)%nat, Replay.run (Replay.plan_deletes draws k ids) s).
Proof.
  revert k s. induction ids as [|id rest IH]; intros k s.
  - simpl. rewrite Nat.add_0_r. reflexivity.
  - cbn [Sync.deleteAll Replay.plan_deletes fst snd].
    change (deleteFromDelta (Sync Visit.Entity)) with (deleteFromDelta Visit.Sync).
    cbn. rewrite IH. rewrite Nat.add_succ_r. reflexivity.
Qed.

Lemma decode_fields (d : Draw) (delta : Js.Record) (visit : Visit.EncodedT) :
  Visit.decode d delta = Js.Ok visit ->
  Visit.check_in_timestamp visit = Visit.field_value delta "check_in_timestamp".
Proof.
  unfold Visit.decode. destruct (visits_in d _) as [stored|e]; [|discriminate].
  cbn. intros [= <-]. reflexivity.
Qed.

(** The calls planned for the same records at another time write the
    same things, when no date of the records falls back to the clock. *)
Lemma plan_upserts_similar (draws draws' : nat -> Draw) (records : list Js.Record)
    (k k' : nat) (ops : list Replay.Op) :
  Forall Replay.clock_free records ->
  Replay.plan_upserts draws k records = Js.Ok ops ->
  exists ops', Replay.plan_upserts draws' k' records = Js.Ok ops' /\
               Forall2 Replay.similar ops ops'.
Proof.
  intros Hfree. revert k k' ops.
  induction Hfree as [|record rest Hrec _ IH]; intros k k' ops Hplan.
  - injection Hplan as <-. exists []. split; [reflexivity | constructor].
  - cbn [Replay.plan_upserts] in *.
    destruct (Hrec (draws k) (draws' k')) as (Hclean & Hread & Hcheck).
    cbv zeta in Hclean, Hread, Hcheck.
    rewrite <- Hclean, <- Hread.
    destruct (Visit.decode _ _) as [visit|e] eqn:Hdec; [|discriminate].
    cbn in Hplan |- *.
    destruct (Replay.plan_upserts draws (S k) rest) as [ops1|e] eqn:Hrest; [|discriminate].
    cbn in Hplan. injection Hplan as <-.
    destruct (IH (S k) (S k') ops1 Hrest) as (ops1' & -> & Hsim).
    eexists. split; [reflexivity|]. constructor; [|exact Hsim].
    simpl. split; [reflexivity|]. split; [reflexivity|].
    unfold Replay.payload_of, Visit.values. simpl.
    rewrite (decode_fields _ _ _ Hdec) in *.
    destruct (Js.truthy _); [|reflexivity].
    rewrite (Hcheck eq_refl). reflexivity.
Qed.

Lemma plan_deletes_similar (draws draws' : nat -> Draw) (ids : list string) (k k' : nat) :
  Forall2 Replay.similar (Replay.plan_deletes draws k ids) (Replay.plan_deletes draws' k' ids).
Proof.
  revert k k'. induction ids as [|id rest IH]; intros k k'; simpl; constructor.
  - reflexivity.
  - apply IH.
Qed.

(** [visits] is a key of the map of pushable tables, and its value is the
    visit model, unless a model listed after it carries the same name. *)
Lemma visits_is_pushable :
  Table_name (Table Appointment) <> "visits" ->
  Table_name (Table PatientVital) <> "visits" ->
  Table_name (Table DispensingRecord) <> "visits" ->
  Table_name (Table PrescriptionItem) <> "visits" ->
  Sync.pushTableNameModelMap "visits" = Sync.Own Visit.Entity.
Proof.
  intros Ha Hv Hd Hi.
  unfold Sync.pushTableNameModelMap, Sync.pushTableNameModelMap_own,
    Sync.ENTITIES_TO_PULL_FROM_MOBILE.
  cbn [foldl].
  rewrite lookup_insert_ne by exact Hi.
  rewrite lookup_insert_ne by exact Hd.
  rewrite lookup_insert_ne by discriminate.
  rewrite lookup_insert_ne by exact Hv.
  rewrite lookup_insert_ne by discriminate.
  rewrite lookup_insert_ne by exact Ha.
  rewrite lookup_insert_ne by discriminate.
  rewrite lookup_insert_eq. reflexivity.
Qed.

Lemma persistTable_visits (draws : nat -> Draw) (delta : option Sync.PushDelta)
    (k : nat) (s : Db.Store) :
  Sync.pushTableNameModelMap "visits" = Sync.Own Visit.Entity ->
  let records := (default [] (delta ≫= Sync.push_created)
                  ++ default [] (delta ≫= Sync.push_updated))%list in
  let ids := default [] (delta ≫= Sync.push_deleted) in
  Sync.persistTable draws "visits" delta (k, s)
  = match Replay.plan_upserts draws k records with
    | Js.Ok ops =>
        Js.Ok ((k + length records + length ids)%nat,
               Replay.run (ops ++ Replay.plan_deletes draws (k + length records) ids)%list s)
    | Js.Throw e => Js.Throw e
    end.
Proof.
  intros Hown records ids. unfold Sync.persistTable. rewrite Hown.
  fold records. fold ids. rewrite upsertAll_visits.
  destruct (Replay.plan_upserts draws k records) as [ops|e]; [|reflexivity].
  cbn. rewrite deleteAll_visits. unfold Replay.run. rewrite foldl_app. reflexivity.
Qed.

Lemma insertFromSync_idempotent (d d' : Draw) (eventLog : EventLog.EncodedT)
    (tbl after : EventLog.Table) :
  EventLog.insertFromSync d eventLog tbl = Js.Ok after ->
  EventLog.insertFromSync d' eventLog after = Js.Ok after.
Proof.
  unfold EventLog.insertFromSync, EventLog.insert_or_ignore, EventLog.row_of_insert.
  cbn [EventLog.ins_id EventLog.ins_transaction_id EventLog.ins_ip_address].
  destruct (uuid_in (EventLog.enc_id eventLog)) as [i|]; [|discriminate].
  destruct (uuid_in (EventLog.enc_transaction_id eventLog)) as [tx|]; [|discriminate].
  destruct (match EventLog.enc_ip_address eventLog with
            | Some a => Some <$> inet_in a
            | None => Some None
            end) as [ip|]; [|discriminate].
  cbn. destruct (tbl !! i) eqn:Hrow.
  - intros [= <-]. rewrite Hrow. reflexivity.
  - intros [= <-]. rewrite lookup_insert_eq. reflexivity.
Qed.

(** X30: a push of visits that went through goes through again, and
    the second run leaves every row of [visits] and of the tables linked
    to it as the first run left it in all columns but [updated_at] and
    [last_modified], which every call stamps anew, provided the pushed
    records read the same at every call (no date makes the conversion
    fall back to the clock, the database takes the columns alike); an
    audit row pushed a second time is ignored, the table stays exactly as
    it was. *)
Theorem visits_push_replay_up_to_stamps (draws : nat -> Draw)
    (delta : option Sync.PushDelta) (w0 w1 : Sync.World) :
  (Sync.pushTableNameModelMap "visits" = Sync.Own Visit.Entity ->
   Forall Replay.clock_free
     (default [] (delta ≫= Sync.push_created)
      ++ default [] (delta ≫= Sync.push_updated))%list ->
   Sync.persistClientChanges draws [("visits", delta)] w0 = Js.Ok w1 ->
   exists w2,
     Sync.persistClientChanges draws [("visits", delta)] w1 = Js.Ok w2 /\
     Replay.mask w2.2 = Replay.mask w1.2) /\
  (forall (d d' : Draw) (eventLog : EventLog.EncodedT) (tbl after : EventLog.Table),
     EventLog.insertFromSync d eventLog tbl = Js.Ok after ->
     EventLog.insertFromSync d' eventLog after = Js.Ok after).
Proof.
  split; [|intros d d' eventLog tbl after; apply insertFromSync_idempotent].
  intros Hown Hfree. destruct w0 as [k0 s0].
  cbn [Sync.persistClientChanges]. rewrite !bind_Ok.
  rewrite (persistTable_visits draws delta k0 s0 Hown).
  destruct (Replay.plan_upserts draws k0 _) as [ops|e] eqn:Hplan; [|discriminate].
  intros [= <-]. cbn [snd].
  destruct (plan_upserts_similar draws draws _ k0
              (k0 + length (default [] (delta ≫= Sync.push_created)
                            ++ default [] (delta ≫= Sync.push_updated))%list
               + length (default [] (delta ≫= Sync.push_deleted)))%nat
              ops Hfree Hplan) as (ops' & Hplan' & Hsim).
  rewrite (persistTable_visits draws delta _ _ Hown), Hplan'.
  eexists. split; [reflexivity|]. cbn [snd].
  apply run_replay. apply Forall2_app; [exact Hsim | apply plan_deletes_similar].
Qed.

End ReplayingPush.

(** The retry of a push of one new visit replaces the [updated_at] the
    client sent by the time of the retry. *)
Lemma replayed_visit_push_changes_the_stamps :
  exists w1 w2,
    Sync.persistClientChanges (platform := Fixture.platform) (models := Fixture.models)
      Fixture.ticking Fixture.visit_push (0%nat, Fixture.empty_store) = Js.Ok w1 /\
    Sync.persistClientChanges (platform := Fixture.platform) (models := Fixture.models)
      Fixture.ticking Fixture.visit_push w1 = Js.Ok w2 /\
    Db.updated_at <$> Db.visits w1.2 !! "v1" = Some 1770647055887 /\
    Db.updated_at <$> Db.visits w2.2 !! "v1" = Some 1770650000001 /\
    w2.2 <> w1.2.
Proof.
  eexists. eexists.
  split; [vm_compute; reflexivity|].
  split; [vm_compute; reflexivity|].
  split; [vm_compute; reflexivity|].
  split; [vm_compute; reflexivity|].
  intros Heq.
  apply (f_equal (fun s => Db.updated_at <$> Db.visits s !! "v1")) in Heq.
  vm_compute in Heq. discriminate.
Qed.

(** On the test platform: the push of one new visit, run twice. *)
Lemma visits_push_replay_up_to_stamps_witness :
  exists w1,
    Sync.persistClientChanges (platform := Fixture.platform) (models := Fixture.models)
      Fixture.ticking Fixture.visit_push (0%nat, Fixture.empty_store) = Js.Ok w1 /\
    exists w2,
      Sync.persistClientChanges (platform := Fixture.platform) (models := Fixture.models)
        Fixture.ticking Fixture.visit_push w1 = Js.Ok w2 /\
      Replay.mask w2.2 = Replay.mask w1.2.
Proof.
  eexists. split; [vm_compute; reflexivity|].
  apply (proj1 (visits_push_replay_up_to_stamps (platform := Fixture.platform)
                  (models := Fixture.models) Fixture.ticking (Some Fixture.visit_delta)
                  (0%nat, Fixture.empty_store) _)).
  - apply (visits_is_pushable (platform := Fixture.platform) (models := Fixture.models));
      discriminate.
  - constructor; [|constructor].
    intros d d'. split; [|split].
    + vm_compute. reflexivity.
    + vm_compute. reflexivity.
    + vm_compute. intros _. reflexivity.
  - vm_compute. reflexivity.
Defined.

(** C1: the text digested when the surname update is logged and the text
    the verification job digests for the row that was stored differ, on
    every platform: the stored [changes] print with a space after each
    colon and comma and with their members in another order.  With a
    digest that tells the two texts apart the recomputed hash is not the
    stored one. *)
Theorem verification_digests_another_text :
  EventLog.logEvent (platform := Fixture.platform) Fixture.draw ∅
    Fixture.surname_update Fixture.ctx
  = Js.Ok {[ EventLog.id Fixture.surname_row := Fixture.surname_row ]} /\
  EventLog.hash Fixture.surname_row
  = EventLog.computeHash (platform := Fixture.platform) Fixture.surname_data /\
  EventLog.payload Fixture.surname_data
  = Json.lit ("019c4a7e-5b0f-7000-8000-000000000001|019c4a7e-5b0f-7000-8000-000000000002|"
              +:+ "UPDATE|patients|p1|{'surname':{'old':'Doe','new':'Smith'}}|"
              +:+ "ua-hash|web|u1||1770647055887") /\
  (forall platform : Platform,
     EventLog.stored_payload (platform := platform) Fixture.surname_row
     = Json.lit ("019c4a7e-5b0f-7000-8000-000000000001|019c4a7e-5b0f-7000-8000-000000000002|"
                 +:+ "UPDATE|patients|p1|{'surname': {'new': 'Smith', 'old': 'Doe'}}|"
                 +:+ "ua-hash|web|u1||1770647055887") /\
     EventLog.stored_payload (platform := platform) Fixture.surname_row
     <> EventLog.payload Fixture.surname_data) /\
  EventLog.computed_hash (platform := Fixture.platform) Fixture.surname_row
  <> EventLog.hash Fixture.surname_row.
Proof.
  split; [vm_compute; reflexivity|].
  split; [vm_compute; reflexivity|].
  split; [vm_compute; reflexivity|].
  split.
  - intros platform. split; [vm_compute; reflexivity|]. vm_compute. discriminate.
  - vm_compute. discriminate.
Qed.

(** With no changes and no address the two texts are the same. *)
Example empty_changes_verify :
  match
    EventLog.logEvent (platform := Fixture.platform) Fixture.draw ∅
      {| EventLog.transactionId := None;
         EventLog.actionType := EventLog.VIEW;
         EventLog.tableName := "patients";
         EventLog.rowId := "p1";
         EventLog.params_changes := Json.Obj [];
         EventLog.userId := "u1";
         EventLog.params_metadata := None |}
      Fixture.ctx
  with
  | Js.Ok tbl =>
      (fun r => String.eqb (EventLog.computed_hash (platform := Fixture.platform) r)
                  (EventLog.hash r))
        <$> tbl !! "019c4a7e-5b0f-7000-8000-000000000001"
  | Js.Throw _ => None
  end = Some true.
Proof. vm_compute. reflexivity. Qed.

(** C2, on the test platform: the surname update logged into an empty
    table. *)
Lemma logEvent_row_is_stored_with_hash_verified_false_witness :
  exists row,
    (∅ : EventLog.Table) !! EventLog.id row = None /\
    ({[ EventLog.id Fixture.surname_row := Fixture.surname_row ]} : EventLog.Table)
    = <[EventLog.id row := row]> ∅ /\
    EventLog.hash_verified row = Some false /\
    row ∉ EventLog.unverified {[ EventLog.id Fixture.surname_row := Fixture.surname_row ]}.
Proof.
  apply (logEvent_row_is_stored_with_hash_verified_false (platform := Fixture.platform)
           Fixture.draw ∅ Fixture.surname_update Fixture.ctx).
  vm_compute. reflexivity.
Defined.

(** An UPDATE that changes [is_deleted], [updated_at], [last_modified]
    and [deleted_at] passes the trigger, and so does a second change of
    [hash_verified], from true to false. *)
Example update_of_other_columns_passes_the_trigger :
  EventLog.prevent_event_log_mutation EventLog.TG_UPDATE Fixture.surname_row
    (Some Fixture.surname_row_touched) = Js.Ok Fixture.surname_row_touched /\
  EventLog.last_modified Fixture.surname_row_touched
  <> EventLog.last_modified Fixture.surname_row /\
  EventLog.hash_verified Fixture.surname_row_touched = Some true /\
  EventLog.prevent_event_log_mutation EventLog.TG_UPDATE Fixture.surname_row_touched
    (Some (EventLog.set_hash_verified (Some false) Fixture.surname_row_touched))
  = Js.Ok (EventLog.set_hash_verified (Some false) Fixture.surname_row_touched).
Proof. vm_compute. repeat split; try reflexivity. discriminate. Qed.

(** C3, on the stored surname update: an UPDATE that rewrites [metadata]
    is accepted and stored; an UPDATE of [user_id] and a DELETE are
    refused. *)
Lemma event_log_trigger_guards_audit_fields_witness :
  let tbl : EventLog.Table := {[ EventLog.id Fixture.surname_row := Fixture.surname_row ]} in
  let key := EventLog.id Fixture.surname_row in
  let forged := Json.JObj [("forged", Json.JBool true)] in
  EventLog.sql_update key (EventLog.set_metadata forged) tbl
  = Js.Ok (<[key := EventLog.set_metadata forged Fixture.surname_row]> tbl) /\
  EventLog.metadata (EventLog.set_metadata forged Fixture.surname_row)
  <> EventLog.metadata Fixture.surname_row /\
  (exists e, EventLog.sql_update key
               (fun _ => EventLog.set_user_id "u2" Fixture.surname_row) tbl = Js.Throw e) /\
  (exists e, EventLog.sql_delete key tbl = Js.Throw e).
Proof.
  intros tbl key forged.
  destruct (event_log_trigger_guards_audit_fields Fixture.surname_row
              (EventLog.set_user_id "u2" Fixture.surname_row) key tbl)
    as (Hdelete & _ & Hrefused & Hmetadata & _); [apply lookup_singleton_eq|].
  split; [apply Hmetadata|]. split; [discriminate|].
  split; [|exact Hdelete].
  apply Hrefused. intros (_ & _ & _ & _ & _ & _ & _ & _ & Huser & _). discriminate.
Defined.

(** * Further properties *)

(** ** More on the pull *)

Section PullMore.
Context {platform : Platform} {models : Models}.

Lemma config_lists_disjoint (db : Sql.Snapshot) (table : string) (T : Z) (r : Sql.Row) :
  In r (Sync.created (Sync.configDelta db table T)) ->
  ~ In r (Sync.updated (Sync.configDelta db table T)).
Proof.
  unfold Sync.configDelta. simpl. rewrite !In_where, !holds_Gt, holds_Lt.
  intros (_ & c & Hc & Hlt) ((_ & c' & Hc' & Hlt') & _).
  rewrite Hc in Hc'. injection Hc' as <-. lia.
Qed.

(** X1: in every entry of the change set of a pull, no row is both in
    [created] and in [updated]. *)
Theorem pull_created_and_updated_are_disjoint (envValue : option string) (now : Z)
    (db : Sql.Snapshot) (lastSyncedAt : Z) (key : string)
    (delta : Sync.DeltaData Sql.Row) (r : Sql.Row) :
  Sync.getDeltaRecords envValue now db lastSyncedAt !! key = Some delta ->
  In r (Sync.created delta) -> ~ In r (Sync.updated delta).
Proof.
  intros Hlookup.
  assert (Hall : map_Forall
                   (fun _ d => forall r, In r (Sync.created d) -> ~ In r (Sync.updated d))
                   (Sync.getDeltaRecords envValue now db lastSyncedAt)).
  { unfold Sync.getDeltaRecords.
    apply map_Forall_insert_2; [intros r'; apply config_lists_disjoint|].
    apply map_Forall_insert_2; [intros r'; apply config_lists_disjoint|].
    apply (foldl_insert_Forall
             (fun d => forall r, In r (Sync.created d) -> ~ In r (Sync.updated d))
             (fun entity => Table_mobileName (Table entity))
             (fun entity => Sync.entityDelta db lastSyncedAt
                  (Sync.lastSyncDate (Sync.getMaxHistoryDaysSync envValue) now lastSyncedAt entity)
                  entity)).
    - intros entity r'. apply created_updated_disjoint.
    - apply map_Forall_empty. }
  exact (Hall key delta Hlookup r).
Qed.

(** X2: the change set of a pull has exactly the keys
    [user_clinic_permissions], [app_config] and the mobile table names of
    the entities pushed to mobile, whatever the tables hold. *)
Theorem pull_has_a_key_for_every_table (envValue : option string) (now : Z)
    (db : Sql.Snapshot) (lastSyncedAt : Z) (key : string) :
  is_Some (Sync.getDeltaRecords envValue now db lastSyncedAt !! key) <->
  key = "user_clinic_permissions" \/ key = "app_config" \/
  exists entity, In entity Sync.ENTITIES_TO_PUSH_TO_MOBILE /\
                 Table_mobileName (Table entity) = key.
Proof.
  unfold Sync.getDeltaRecords.
  destruct (decide (key = "app_config")) as [->|Hne1].
  { rewrite lookup_insert_eq. split; [intros _; right; left; reflexivity|].
    intros _. eexists. reflexivity. }
  rewrite lookup_insert_ne by congruence.
  destruct (decide (key = "user_clinic_permissions")) as [->|Hne2].
  { rewrite lookup_insert_eq. split; [intros _; left; reflexivity|].
    intros _. eexists. reflexivity. }
  rewrite lookup_insert_ne by congruence.
  rewrite (foldl_insert_is_Some (fun entity => Table_mobileName (Table entity))).
  rewrite lookup_empty. split.
  - intros [[x Hx] | Hentity]; [discriminate|]. right. right. exact Hentity.
  - intros [Hk | [Hk | Hentity]]; [contradiction | contradiction | right; exact Hentity].
Qed.

Lemma lastSyncDate_lower_bound (maxHistoryDays : option Z) (now T : Z) (entity : Entity) :
  T <= Sync.lastSyncDate maxHistoryDays now T entity.
Proof.
  unfold Sync.lastSyncDate, Sync.effectiveLastSyncDate.
  destruct (bool_decide _); [lia|].
  destruct maxHistoryDays as [days|]; [|lia].
  destruct (Z.ltb_spec T (now - days * 24 * 60 * 60 * 1000)); lia.
Qed.

Lemma lastSyncDate_monotone (maxHistoryDays : option Z) (now T1 T2 : Z) (entity : Entity) :
  T1 <= T2 ->
  Sync.lastSyncDate maxHistoryDays now T1 entity
  <= Sync.lastSyncDate maxHistoryDays now T2 entity.
Proof.
  intros Hle. unfold Sync.lastSyncDate, Sync.effectiveLastSyncDate.
  destruct (bool_decide _); [exact Hle|].
  destruct maxHistoryDays as [days|]; [|exact Hle].
  destruct (Z.ltb_spec T1 (now - days * 24 * 60 * 60 * 1000));
    destruct (Z.ltb_spec T2 (now - days * 24 * 60 * 60 * 1000)); lia.
Qed.

(** X3: with a valid history setting, one that is not empty and that
    [Number] reads as a positive integer [days], a pull never returns
    under a name that is not exempt a row older than the window, however
    old the watermark: every row in [created] was created, and every row
    in [updated] was modified, after [now - days] and after the
    watermark. *)
Theorem history_limit_bounds_the_backlog (v : string) (q : Q) (now lastSyncedAt days : Z)
    (db : Sql.Snapshot) (key : string) (delta : Sync.DeltaData Sql.Row) (r : Sql.Row) :
  v <> "" -> Number_of_string v = Js.Finite q -> (q == inject_Z days)%Q -> 0 < days ->
  key ∉ Sync.EXEMPT_FROM_HISTORY_LIMIT ->
  key <> "user_clinic_permissions" -> key <> "app_config" ->
  Sync.getDeltaRecords (Some v) now db lastSyncedAt !! key = Some delta ->
  (In r (Sync.created delta) ->
     exists c, Sql.cell r "server_created_at" = Sql.Timestamp c /\
               now - days * 86400000 < c /\ lastSyncedAt < c) /\
  (In r (Sync.updated delta) ->
     exists m, Sql.cell r "last_modified" = Sql.Timestamp m /\
               now - days * 86400000 < m /\ lastSyncedAt < m).
Proof.
  intros Hfull Hnumber Hq Hpos Hout Hne1 Hne2 Hlookup.
  assert (Hdays : Sync.getMaxHistoryDaysSync (Some v) = Some days).
  { apply getMaxHistoryDaysSync_valid. exists v, q. repeat split; assumption. }
  destruct (getDeltaRecords_entity (Some v) now db lastSyncedAt key Hne1 Hne2) as [Hsome _].
  destruct (Hsome delta Hlookup) as (entity & _ & Hname & ->).
  assert (HT : Sync.lastSyncDate (Sync.getMaxHistoryDaysSync (Some v)) now lastSyncedAt entity
               = Z.max lastSyncedAt (now - days * 86400000)).
  { unfold Sync.lastSyncDate. rewrite Hname.
    rewrite bool_decide_eq_false_2 by exact Hout.
    rewrite Hdays. apply effectiveLastSyncDate_max. }
  rewrite HT. split.
  - rewrite created_spec. intros (_ & _ & c & Hc & Hlt).
    exists c. split; [exact Hc | lia].
  - rewrite updated_spec. intros (_ & _ & (m & Hm & Hlt) & _).
    exists m. split; [exact Hm | lia].
Qed.

(** X4: for the same tables, clock and setting, a later watermark never
    adds a row to the [created] list of an entity. *)
Theorem created_shrinks_as_the_watermark_advances (maxHistoryDays : option Z) (now T1 T2 : Z)
    (db : Sql.Snapshot) (entity : Entity) (r : Sql.Row) :
  T1 <= T2 ->
  In r (Sync.created (Sync.entityDelta db T2
                        (Sync.lastSyncDate maxHistoryDays now T2 entity) entity)) ->
  In r (Sync.created (Sync.entityDelta db T1
                        (Sync.lastSyncDate maxHistoryDays now T1 entity) entity)).
Proof.
  intros Hle. rewrite !created_spec.
  intros (Hin & Hlive & c & Hc & Hlt).
  split; [exact Hin|]. split; [exact Hlive|].
  exists c. split; [exact Hc|].
  pose proof (lastSyncDate_monotone maxHistoryDays now T1 T2 entity Hle). lia.
Qed.

(** X5: for a watermark other than zero the [deleted] list of an entity
    holds exactly the ids of the rows flagged as deleted whose [deleted_at]
    is later than the cutoff.  A row flagged as deleted whose [deleted_at]
    is NULL is in none of the three lists, and a table in which no row has
    a [deleted_at] reports no deletion at all. *)
Theorem deleted_list_needs_deleted_at (db : Sql.Snapshot) (lastSyncedAt T : Z)
    (entity : Entity) :
  lastSyncedAt <> 0 ->
  let delta := Sync.entityDelta db lastSyncedAt T entity in
  (forall id, In id (Sync.deleted delta) <->
     exists r, In r (Sql.selectFrom db (Table_name (Table entity))) /\
               Sql.id_of r = id /\
               Sql.cell r "is_deleted" = Sql.Bool true /\
               exists t, Sql.cell r "deleted_at" = Sql.Timestamp t /\ T < t) /\
  (forall r, Sql.cell r "is_deleted" = Sql.Bool true ->
             ~ In r (Sync.created delta) /\ ~ In r (Sync.updated delta)) /\
  ((forall r, In r (Sql.selectFrom db (Table_name (Table entity))) ->
              Sql.cell r "deleted_at" = Sql.Null) ->
   Sync.deleted delta = []).
Proof.
  intros Hnonzero delta.
  assert (Hspec : forall id, In id (Sync.deleted delta) <->
     exists r, In r (Sql.selectFrom db (Table_name (Table entity))) /\
               Sql.id_of r = id /\
               Sql.cell r "is_deleted" = Sql.Bool true /\
               exists t, Sql.cell r "deleted_at" = Sql.Timestamp t /\ T < t).
  { intros id. subst delta. unfold Sync.entityDelta, Sync.createDeltaData. simpl.
    destruct (Z.eqb_spec lastSyncedAt 0) as [Heq|_]; [contradiction|].
    rewrite in_map_iff. split.
    - intros (r & Hid & Hin). rewrite !In_where, holds_Gt, holds_Eq_Bool in Hin.
      exists r. tauto.
    - intros (r & Hin & Hid & Hdel & Hat). exists r. split; [exact Hid|].
      rewrite !In_where, holds_Gt, holds_Eq_Bool. tauto. }
  split; [exact Hspec|]. split.
  - intros r Hdel. subst delta. rewrite created_spec, updated_spec. unfold Sql.live.
    split; intros (_ & (_ & Hlive) & _); rewrite Hdel in Hlive; discriminate.
  - intros Hnull. destruct (Sync.deleted delta) as [|id rest] eqn:Hlist; [reflexivity|].
    exfalso. destruct (proj1 (Hspec id)) as (r & Hin & _ & _ & t & Ht & _).
    + left. reflexivity.
    + rewrite (Hnull r Hin) in Ht. discriminate.
Qed.

End PullMore.

(** ** More on the push *)

Section PushMore.
Context {platform : Platform} {models : Models}.

(** X6: a request all of whose keys are unknown table names (neither a
    pushable table nor a name inherited from the prototype) goes through
    and leaves the store, and the count of adapter calls, as they were. *)
Theorem push_of_unknown_tables_writes_nothing (draws : nat -> Draw)
    (data : Sync.PushRequest) (w : Sync.World) :
  Forall (fun kv => Sync.pushTableNameModelMap_own !! kv.1 = None /\
                    kv.1 ∉ Js.Object_prototype_keys) data ->
  Sync.persistClientChanges draws data w = Js.Ok w.
Proof.
  induction 1 as [|[tableName newDeltaJson] rest [Hown Hproto] _ IH]; [reflexivity|].
  destruct (absent_table_is_skipped draws tableName newDeltaJson rest w Hown Hproto)
    as [_ Hskip].
  rewrite Hskip. exact IH.
Qed.

(** X7: the tables of a request are processed in the order of the
    request, each on the store the previous ones left; once a table
    throws, the tables after it are not processed. *)
Theorem push_tables_run_in_request_order (draws : nat -> Draw)
    (data1 data2 : Sync.PushRequest) (w : Sync.World) :
  Sync.persistClientChanges draws (data1 ++ data2)%list w
  = match Sync.persistClientChanges draws data1 w with
    | Js.Ok w1 => Sync.persistClientChanges draws data2 w1
    | Js.Throw e => Js.Throw e
    end.
Proof.
  revert w. induction data1 as [|[tableName newDeltaJson] rest IH]; intros w; [reflexivity|].
  simpl. destruct (Sync.persistTable draws tableName newDeltaJson w) as [w1|e]; simpl.
  - apply IH.
  - reflexivity.
Qed.

(** X8: a record that has only known columns, no value that looks like an
    epoch timestamp and no zero in a date-named column comes out of the
    cleaning exactly as it went in. *)
Theorem clean_leaves_a_clean_record_alone (now : Z) (knownColumns : list string)
    (record : Js.Record) :
  (forall key value, record !! key = Some value ->
     key ∈ knownColumns /\
     Sync.isEpochTimestamp value = false /\
     (Sync.isZero value = false \/ Sync.isDateColumn key = false)) ->
  Sync.clean now knownColumns record = record.
Proof.
  intros Hclean. apply map_eq. intros key. rewrite clean_lookup.
  destruct (record !! key) as [value|] eqn:Hvalue.
  - destruct (Hclean key value Hvalue) as (Hin & Hepoch & Hzero).
    destruct (decide (key ∈ knownColumns)); [|contradiction].
    simpl. f_equal.
    destruct (cleanValue_cases now key value) as (_ & _ & Hother).
    apply Hother; assumption.
  - destruct (decide (key ∈ knownColumns)); reflexivity.
Qed.

End PushMore.

(** ** More on the audit log *)

Section AuditLogMore.
Context {platform : Platform}.

Lemma core_unchanged_set_hash_verified (v : option bool) (r : EventLog.Row) :
  EventLog.core_unchanged r (EventLog.set_hash_verified v r) = true.
Proof.
  apply core_unchanged_iff. simpl. repeat split; first [reflexivity | apply Json_eqb_refl].
Qed.

(** X9: an UPDATE the trigger lets through keeps the stored hash and
    every field the verification job digests, [changes] up to the digits
    of its numbers (the trigger compares it as [jsonb], the job digests
    its text).  When [changes] prints as before, as it does when the
    UPDATE leaves the column alone, the digested text and the verdict are
    the same before and after. *)
Theorem permitted_update_keeps_the_verdict (OLD NEW : EventLog.Row) :
  EventLog.prevent_event_log_mutation EventLog.TG_UPDATE OLD (Some NEW) = Js.Ok NEW ->
  EventLog.hash NEW = EventLog.hash OLD /\
  Json.eqb (EventLog.changes NEW) (EventLog.changes OLD) = true /\
  (Json.jsonb_out (EventLog.changes NEW) = Json.jsonb_out (EventLog.changes OLD) ->
   EventLog.stored_payload NEW = EventLog.stored_payload OLD /\
   String.eqb (EventLog.hash NEW) (EventLog.computed_hash NEW)
   = String.eqb (EventLog.hash OLD) (EventLog.computed_hash OLD)).
Proof.
  simpl. destruct (EventLog.core_unchanged OLD NEW) eqn:Hcore; [|discriminate].
  intros _. apply core_unchanged_iff in Hcore.
  destruct Hcore as (Hid & Htx & Hact & Htbl & Hrow & Hch & Hdev & Happ & Huser & Hhash & Hip & Hat).
  split; [exact Hhash|]. split; [exact Hch|]. intros Htext.
  assert (Hpayload : EventLog.stored_payload NEW = EventLog.stored_payload OLD).
  { unfold EventLog.stored_payload.
    rewrite Hid, Htx, Hact, Htbl, Hrow, Htext, Hdev, Happ, Huser, Hip, Hat. reflexivity. }
  split; [exact Hpayload|].
  unfold EventLog.computed_hash. rewrite Hpayload, Hhash. reflexivity.
Qed.

(** The digits do matter: an UPDATE of [changes] from 70.5 to 70.50 passes
    the trigger and changes the text the job digests. *)
Example permitted_update_can_change_the_digest :
  let OLD := EventLog.set_hash_verified None
               {| EventLog.id := "id7"; EventLog.transaction_id := "id8";
                  EventLog.action_type := "UPDATE"; EventLog.table_name := "patient_vitals";
                  EventLog.row_id := "pv1";
                  EventLog.changes := Json.JObj [("weight", Json.JNumeric 705 1)];
                  EventLog.device_id := "ua-hash"; EventLog.app_id := "web";
                  EventLog.user_id := "u1"; EventLog.ip_address := None;
                  EventLog.hash := "0000"; EventLog.hash_verified := None;
                  EventLog.metadata := Json.JObj []; EventLog.is_deleted := false;
                  EventLog.created_at := 1; EventLog.updated_at := 1;
                  EventLog.last_modified := 1; EventLog.server_created_at := 1;
                  EventLog.deleted_at := None |} in
  let NEW := {| EventLog.id := "id7"; EventLog.transaction_id := "id8";
                EventLog.action_type := "UPDATE"; EventLog.table_name := "patient_vitals";
                EventLog.row_id := "pv1";
                EventLog.changes := Json.JObj [("weight", Json.JNumeric 7050 2)];
                EventLog.device_id := "ua-hash"; EventLog.app_id := "web";
                EventLog.user_id := "u1"; EventLog.ip_address := None;
                EventLog.hash := "0000"; EventLog.hash_verified := None;
                EventLog.metadata := Json.JObj []; EventLog.is_deleted := false;
                EventLog.created_at := 1; EventLog.updated_at := 1;
                EventLog.last_modified := 1; EventLog.server_created_at := 1;
                EventLog.deleted_at := None |} in
  EventLog.prevent_event_log_mutation EventLog.TG_UPDATE OLD (Some NEW) = Js.Ok NEW /\
  Json.jsonb_out (EventLog.changes OLD) = Json.lit "{'weight': 70.5}" /\
  Json.jsonb_out (EventLog.changes NEW) = Json.lit "{'weight': 70.50}" /\
  EventLog.stored_payload (platform := Fixture.platform) NEW
  <> EventLog.stored_payload (platform := Fixture.platform) OLD.
Proof. vm_compute. repeat split; try reflexivity. discriminate. Qed.

Lemma sql_update_hash_verified (key : string) (v : option bool) (tbl : EventLog.Table) :
  EventLog.sql_update key (EventLog.set_hash_verified v) tbl
  = Js.Ok (match tbl !! key with
           | Some r => <[key := EventLog.set_hash_verified v r]> tbl
           | None => tbl
           end).
Proof.
  unfold EventLog.sql_update. destruct (tbl !! key) as [r|]; [|reflexivity].
  simpl. rewrite core_unchanged_set_hash_verified. reflexivity.
Qed.

End AuditLogMore.

(** ** The audit log as a whole *)

Section AuditLogRuns.
Context {platform : Platform}.

(** What a multi-row INSERT that goes through leaves behind. *)
Lemma insert_rows_spec (now : Z) (values : list EventLog.Insert) (tbl after : EventLog.Table) :
  EventLog.insert_rows now values tbl = Js.Ok after ->
  tbl ⊆ after /\
  size after = (size tbl + length values)%nat /\
  forall key r, after !! key = Some r ->
    tbl !! key = Some r \/
    (tbl !! key = None /\
     exists v, In v values /\ EventLog.row_of_insert now v = Js.Ok r /\ EventLog.id r = key).
Proof.
  revert tbl. induction values as [|v values IH]; intros tbl; simpl.
  - intros [= <-]. split; [reflexivity|]. split; [lia|]. intros key r Hr. left. exact Hr.
  - destruct (EventLog.row_of_insert now v) as [r|e] eqn:Hrow; [|discriminate].
    simpl. destruct (tbl !! EventLog.id r) eqn:Hfresh; [discriminate|].
    intros Hrest. destruct (IH _ Hrest) as (Hsub & Hsize & Hrows).
    split; [|split].
    + etransitivity; [|exact Hsub]. apply insert_subseteq. exact Hfresh.
    + rewrite Hsize, map_size_insert_None by exact Hfresh. lia.
    + intros key r' Hr'. destruct (Hrows key r' Hr') as [Hold | (Hnone & v' & Hin & Hv' & Hid)].
      * apply lookup_insert_Some in Hold as [[<- <-] | [Hne Hold]].
        -- right. split; [exact Hfresh|]. exists v. split; [left; reflexivity|].
           split; [exact Hrow | reflexivity].
        -- left. exact Hold.
      * right. split.
        -- apply lookup_insert_None in Hnone as [Hnone _]. exact Hnone.
        -- exists v'. split; [right; exact Hin|]. split; assumption.
Qed.

(** X10: a call of [logEvents] that goes through keeps every row the
    table had, adds exactly one row per event, and stores each new row
    with the one [created_at] of the batch, with the verification flag
    [false] and not deleted, under the transaction id of its event or else
    the shared one. *)
Theorem logEvents_appends_one_row_per_event (d : Draw) (database after : EventLog.Table)
    (events : list EventLog.LogEventParams) (ctx : EventLog.RequestContext)
    (sharedTransactionId : option string) :
  EventLog.logEvents d database events ctx sharedTransactionId = Js.Ok after ->
  database ⊆ after /\
  size after = (size database + length events)%nat /\
  forall key r, after !! key = Some r -> database !! key = None ->
    EventLog.id r = key /\
    EventLog.created_at r = Date_now d /\
    EventLog.hash_verified r = Some false /\
    EventLog.is_deleted r = false /\
    EventLog.deleted_at r = None /\
    EventLog.device_id r = EventLog.deviceId ctx /\
    EventLog.app_id r = EventLog.appId ctx /\
    exists params, In params events /\
      EventLog.table_name r = EventLog.tableName params /\
      EventLog.row_id r = EventLog.rowId params /\
      EventLog.user_id r = EventLog.userId params /\
      EventLog.action_type r = EventLog.actionTypeText (EventLog.actionType params) /\
      uuid_in (default (default (uuidv7 d 0%nat) sharedTransactionId)
                       (EventLog.transactionId params))
      = Some (EventLog.transaction_id r).
Proof.
  unfold EventLog.logEvents. destruct events as [|e0 events'] eqn:Hevents.
  - intros [= <-]. split; [reflexivity|]. split; [simpl; lia|].
    intros key r Hr Hnone. rewrite Hnone in Hr. discriminate.
  - rewrite <- Hevents. clear Hevents e0 events'. cbv zeta.
    intros Hins. apply insert_rows_spec in Hins as (Hsub & Hsize & Hrows).
    split; [exact Hsub|]. split; [rewrite Hsize, length_imap; reflexivity|].
    intros key r Hr Hnone.
    destruct (Hrows key r Hr) as [Hold | (_ & v & Hin & Hv & Hid)].
    { rewrite Hnone in Hold. discriminate. }
    apply list_elem_of_In, elem_of_lookup_imap in Hin as (i & params & -> & Hparams).
    unfold EventLog.row_of_insert in Hv. cbn in Hv.
    destruct (uuid_in (uuidv7 d _)) as [i'|]; [|discriminate].
    destruct (uuid_in (default _ (EventLog.transactionId params))) as [tx|] eqn:Htx;
      [|discriminate].
    destruct (match EventLog.ipAddress ctx with
              | Some a => Some <$> inet_in a
              | None => Some None
              end) as [ip|]; [|discriminate].
    injection Hv as <-. cbn in *. repeat (split; [first [exact Hid | reflexivity]|]).
    exists params. split; [apply list_elem_of_In, list_elem_of_lookup; exists i; exact Hparams|].
    repeat (split; [reflexivity|]). exact Htx.
Qed.

(** X11: a pushed audit row never replaces a row of the server: whatever
    the table holds under the id stays as it is, and the only row a call
    can add is the pushed one, unverified and not deleted. *)
Theorem insertFromSync_never_overwrites (d : Draw) (eventLog : EventLog.EncodedT)
    (tbl after : EventLog.Table) :
  EventLog.insertFromSync d eventLog tbl = Js.Ok after ->
  tbl ⊆ after /\
  (forall key, uuid_in (EventLog.enc_id eventLog) = Some key ->
               is_Some (tbl !! key) -> after = tbl) /\
  forall key r, after !! key = Some r -> tbl !! key = None ->
    uuid_in (EventLog.enc_id eventLog) = Some key /\
    EventLog.hash r = EventLog.enc_hash eventLog /\
    EventLog.hash_verified r = None /\
    EventLog.is_deleted r = false /\
    EventLog.deleted_at r = None /\
    EventLog.server_created_at r = db_now d.
Proof.
  unfold EventLog.insertFromSync, EventLog.insert_or_ignore, EventLog.row_of_insert.
  cbn [EventLog.ins_id EventLog.ins_transaction_id EventLog.ins_ip_address].
  destruct (uuid_in (EventLog.enc_id eventLog)) as [i|]; [|discriminate].
  destruct (uuid_in (EventLog.enc_transaction_id eventLog)) as [tx|]; [|discriminate].
  destruct (match EventLog.enc_ip_address eventLog with
            | Some a => Some <$> inet_in a
            | None => Some None
            end) as [ip|]; [|discriminate].
  cbn. destruct (tbl !! i) as [r0|] eqn:Hrow.
  - intros [= <-]. split; [reflexivity|]. split; [reflexivity|].
    intros key r Hr Hnone. rewrite Hnone in Hr. discriminate.
  - intros [= <-]. split; [apply insert_subseteq; exact Hrow|]. split.
    + intros key [= <-] [x Hx]. rewrite Hrow in Hx. discriminate.
    + intros key r Hr Hnone.
      apply lookup_insert_Some in Hr as [[<- <-] | [_ Hr]].
      * cbn. repeat split; reflexivity.
      * rewrite Hnone in Hr. discriminate.
Qed.

(** The UPDATE of the job on one row is never refused. *)
Lemma sql_update_is_alter (key : string) (v : option bool) (tbl : EventLog.Table) :
  EventLog.sql_update key (EventLog.set_hash_verified v) tbl
  = Js.Ok (alter (EventLog.set_hash_verified v) key tbl).
Proof.
  rewrite sql_update_hash_verified. f_equal. apply map_eq. intros k.
  destruct (decide (k = key)) as [->|Hne].
  - rewrite lookup_alter_eq. destruct (tbl !! key) as [r|] eqn:Hr.
    + rewrite lookup_insert_eq. reflexivity.
    + rewrite Hr. reflexivity.
  - rewrite lookup_alter_ne by congruence. destruct (tbl !! key) as [r|] eqn:Hr.
    + rewrite lookup_insert_ne by congruence. reflexivity.
    + reflexivity.
Qed.

Lemma verify_fold (us : list EventLog.Row) (tbl : EventLog.Table) :
  foldl (fun acc u =>
           t ← acc;
           EventLog.sql_update (EventLog.id u)
             (EventLog.set_hash_verified
                (Some (String.eqb (EventLog.hash u) (EventLog.computed_hash u)))) t)
        (Js.Ok tbl) us
  = Js.Ok (foldl (fun t u => alter (EventLog.set_hash_verified (Some (Job.verdict u)))
                               (EventLog.id u) t) tbl us).
Proof.
  revert tbl. induction us as [|u us IH]; intros tbl; [reflexivity|].
  simpl. rewrite sql_update_is_alter. apply IH.
Qed.

Lemma set_hash_verified_twice (v w : option bool) (r : EventLog.Row) :
  EventLog.set_hash_verified v (EventLog.set_hash_verified w r) = EventLog.set_hash_verified v r.
Proof. reflexivity. Qed.

Lemma verify_fold_keeps_the_rest (us : list EventLog.Row) (tbl : EventLog.Table) :
  EventLog.set_hash_verified None
    <$> foldl (fun t u => alter (EventLog.set_hash_verified (Some (Job.verdict u)))
                            (EventLog.id u) t) tbl us
  = EventLog.set_hash_verified None <$> tbl.
Proof.
  revert tbl. induction us as [|u us IH]; intros tbl; [reflexivity|].
  simpl. rewrite IH. apply map_eq. intros k. rewrite !lookup_fmap.
  destruct (decide (k = EventLog.id u)) as [->|Hne].
  - rewrite lookup_alter_eq. destruct (tbl !! EventLog.id u); reflexivity.
  - rewrite lookup_alter_ne by congruence. reflexivity.
Qed.

Lemma length_unverified (tbl : EventLog.Table) :
  Z.of_nat (length (EventLog.unverified tbl)) <= 10000.
Proof. unfold EventLog.unverified. rewrite length_take. lia. Qed.

(** X12: the verification job always goes through: the trigger never
    refuses its UPDATE.  It changes no column but [hash_verified], adds
    and removes no row, and the two counts it returns add up to the
    number of rows it selected, at most 10000. *)
Theorem verifyHashes_only_sets_the_flag (database : EventLog.Table) :
  exists tbl result,
    EventLog.verifyHashes database = Js.Ok (tbl, result) /\
    EventLog.set_hash_verified None <$> tbl = EventLog.set_hash_verified None <$> database /\
    EventLog.verified result + EventLog.failed result
    = Z.of_nat (length (EventLog.unverified database)) /\
    0 <= EventLog.verified result /\ 0 <= EventLog.failed result /\
    EventLog.verified result + EventLog.failed result <= 10000.
Proof.
  unfold EventLog.verifyHashes. cbv zeta. rewrite verify_fold. simpl.
  eexists _, _. split; [reflexivity|]. simpl.
  split; [apply verify_fold_keeps_the_rest|].
  pose proof (length_unverified database) as Hlen.
  pose proof (List.filter_length_le
                (fun u => negb (String.eqb (EventLog.hash u) (EventLog.computed_hash u)))
                (EventLog.unverified database)) as Hfailed.
  lia.
Qed.

Lemma fold_alter_other {A : Type} (f : A -> A -> A) (key : A -> string)
    (l : list A) (t : gmap string A) (k : string) :
  k ∉ key <$> l ->
  foldl (fun t u => alter (f u) (key u) t) t l !! k = t !! k.
Proof.
  revert t. induction l as [|a l IH]; intros t Hk; [reflexivity|].
  simpl. rewrite fmap_cons in Hk. apply not_elem_of_cons in Hk as [Hne Hk].
  rewrite IH by exact Hk. apply lookup_alter_ne. congruence.
Qed.

Lemma fold_alter_one {A : Type} (f : A -> A -> A) (key : A -> string)
    (l : list A) (t : gmap string A) (u : A) :
  NoDup (key <$> l) -> u ∈ l ->
  foldl (fun t u => alter (f u) (key u) t) t l !! key u = f u <$> t !! key u.
Proof.
  revert t. induction l as [|a l IH]; intros t Hnodup Hu; [inversion Hu|].
  rewrite fmap_cons in Hnodup. apply NoDup_cons in Hnodup as [Hfresh Hnodup].
  simpl. apply elem_of_cons in Hu as [->|Hu].
  - rewrite fold_alter_other by exact Hfresh. apply lookup_alter_eq.
  - rewrite IH by assumption. rewrite lookup_alter_ne; [reflexivity|].
    intros Heq. apply Hfresh. rewrite Heq. apply list_elem_of_fmap_2. exact Hu.
Qed.

Lemma filter_none {A : Type} (p : A -> bool) (l : list A) :
  (forall x, In x l -> p x = false) -> List.filter p l = [].
Proof.
  induction l as [|a l IH]; intros Hp; [reflexivity|].
  simpl. rewrite (Hp a) by (left; reflexivity). apply IH.
  intros x Hx. apply Hp. right. exact Hx.
Qed.

Lemma unverified_elem (tbl : EventLog.Table) (u : EventLog.Row) :
  Z.of_nat (length (EventLog.unverified tbl)) < 10000 ->
  u ∈ EventLog.unverified tbl <->
  EventLog.hash_verified u = None /\ exists key, tbl !! key = Some u.
Proof.
  intros Hshort. unfold EventLog.unverified in *.
  rewrite length_take in Hshort. rewrite take_ge by lia.
  rewrite list_elem_of_In, filter_In, <- list_elem_of_In, list_elem_of_fmap.
  split.
  - intros [([key r] & -> & Hin) Hflag]. apply elem_of_map_to_list in Hin. simpl in *.
    split; [destruct (EventLog.hash_verified r); [discriminate | reflexivity]|].
    exists key. exact Hin.
  - intros [Hflag [key Hkey]]. split.
    + exists (key, u). split; [reflexivity|]. apply elem_of_map_to_list. exact Hkey.
    + rewrite Hflag. reflexivity.
Qed.

Lemma unverified_NoDup (tbl : EventLog.Table) :
  Job.keyed_by_id tbl -> NoDup (EventLog.id <$> EventLog.unverified tbl).
Proof.
  intros Hkeyed. unfold EventLog.unverified.
  assert (Hall : NoDup (EventLog.id <$> (snd <$> map_to_list tbl))).
  { rewrite <- list_fmap_compose.
    assert (Heq : (EventLog.id ∘ snd) <$> map_to_list tbl = fst <$> map_to_list tbl).
    { apply list_fmap_ext. intros i [key r] Hlookup. simpl.
      apply list_elem_of_lookup_2, elem_of_map_to_list in Hlookup.
      exact (Hkeyed key r Hlookup). }
    rewrite Heq. apply NoDup_fst_map_to_list. }
  revert Hall. generalize (snd <$> map_to_list tbl). intros l Hall.
  assert (Hfilter : NoDup (EventLog.id <$> List.filter
            (fun r => match EventLog.hash_verified r with None => true | Some _ => false end) l)).
  { induction l as [|a l IH]; [constructor|].
    rewrite fmap_cons in Hall. apply NoDup_cons in Hall as [Hfresh Hall].
    simpl. destruct (EventLog.hash_verified a); [apply IH; exact Hall|].
    rewrite fmap_cons. apply NoDup_cons. split; [|apply IH; exact Hall].
    intros Hin. apply Hfresh. apply list_elem_of_fmap in Hin as (r & Hid & Hr).
    apply list_elem_of_fmap. exists r. split; [exact Hid|].
    apply list_elem_of_In. apply list_elem_of_In, filter_In in Hr as [Hr _]. exact Hr. }
  revert Hfilter. generalize (List.filter
            (fun r => match EventLog.hash_verified r with None => true | Some _ => false end) l).
  intros us Hus. rewrite fmap_take.
  exact (sublist_NoDup _ _ Hus (sublist_take _ _)).
Qed.

(** What a run of the job leaves when it reaches every unverified row. *)
Lemma verify_fold_settles (tbl : EventLog.Table) :
  Job.keyed_by_id tbl ->
  Z.of_nat (length (EventLog.unverified tbl)) < 10000 ->
  foldl (fun t u => alter (EventLog.set_hash_verified (Some (Job.verdict u)))
                      (EventLog.id u) t) tbl (EventLog.unverified tbl)
  = Job.settled tbl.
Proof.
  intros Hkeyed Hshort. apply map_eq. intros key.
  unfold Job.settled. rewrite lookup_fmap.
  pose proof (unverified_NoDup tbl Hkeyed) as Hnodup.
  destruct (tbl !! key) as [r|] eqn:Hr.
  - destruct (EventLog.hash_verified r) as [b|] eqn:Hflag.
    + rewrite (fold_alter_other (fun u => EventLog.set_hash_verified (Some (Job.verdict u)))).
      * rewrite Hr. simpl. rewrite Hflag. reflexivity.
      * intros Hin. apply list_elem_of_fmap in Hin as (u & Hid & Hu).
        apply unverified_elem in Hu as [Hnone [key' Hu]]; [|exact Hshort].
        pose proof (Hkeyed key' u Hu) as Hid'. rewrite <- Hid in Hid'. subst key'.
        rewrite Hr in Hu. injection Hu as <-. rewrite Hflag in Hnone. discriminate.
    + assert (Hin : r ∈ EventLog.unverified tbl).
      { apply unverified_elem; [exact Hshort|]. split; [exact Hflag|]. exists key. exact Hr. }
      rewrite <- (Hkeyed key r Hr).
      rewrite (fold_alter_one (fun u => EventLog.set_hash_verified (Some (Job.verdict u)))
                 EventLog.id _ _ r Hnodup Hin).
      rewrite (Hkeyed key r Hr), Hr. simpl. rewrite Hflag. reflexivity.
  - rewrite (fold_alter_other (fun u => EventLog.set_hash_verified (Some (Job.verdict u)))).
    + rewrite Hr. reflexivity.
    + intros Hin. apply list_elem_of_fmap in Hin as (u & Hid & Hu).
      apply unverified_elem in Hu as [_ [key' Hu]]; [|exact Hshort].
      pose proof (Hkeyed key' u Hu) as Hid'. rewrite <- Hid in Hid'. subst key'.
      rewrite Hr in Hu. discriminate.
Qed.

Lemma settled_has_no_backlog (tbl : EventLog.Table) :
  EventLog.unverified (Job.settled tbl) = [].
Proof.
  unfold EventLog.unverified. rewrite filter_none; [apply take_nil|].
  intros r Hr. apply list_elem_of_In, list_elem_of_fmap in Hr as ([key r'] & -> & Hin).
  apply elem_of_map_to_list in Hin. unfold Job.settled in Hin.
  rewrite lookup_fmap in Hin. simpl.
  destruct (tbl !! key) as [r0|]; [|discriminate]. injection Hin as <-.
  destruct (EventLog.hash_verified r0) eqn:Hflag; [rewrite Hflag|]; reflexivity.
Qed.

(** X13: when fewer rows than the limit of the query are unverified, one
    run of the job gives every one of them its verdict (the stored hash
    against the digest recomputed from the row) and leaves the rows that
    had a verdict alone; a second run then selects nothing, counts nothing
    and changes nothing. *)
Theorem verifyHashes_settles_the_backlog (database : EventLog.Table) :
  Job.keyed_by_id database ->
  Z.of_nat (length (EventLog.unverified database)) < 10000 ->
  exists result,
    EventLog.verifyHashes database = Js.Ok (Job.settled database, result) /\
    EventLog.verifyHashes (Job.settled database)
    = Js.Ok (Job.settled database, {| EventLog.verified := 0; EventLog.failed := 0 |}).
Proof.
  intros Hkeyed Hshort. unfold EventLog.verifyHashes. cbv zeta.
  rewrite !verify_fold, verify_fold_settles by assumption.
  rewrite settled_has_no_backlog. simpl. eexists. split; reflexivity.
Qed.

Lemma unverified_sound (tbl : EventLog.Table) (u : EventLog.Row) :
  u ∈ EventLog.unverified tbl ->
  EventLog.hash_verified u = None /\ exists key, tbl !! key = Some u.
Proof.
  unfold EventLog.unverified. intros Hu.
  apply (subseteq_take (Z.to_nat 10000)) in Hu.
  apply list_elem_of_In, filter_In in Hu as [Hin Hflag].
  apply list_elem_of_In, list_elem_of_fmap in Hin as ([key r] & -> & Hin).
  apply elem_of_map_to_list in Hin. simpl in *.
  split; [destruct (EventLog.hash_verified r); [discriminate | reflexivity]|].
  exists key. exact Hin.
Qed.

(** The job leaves a row that has a verdict as it is. *)
Lemma verify_fold_skips_verified (tbl : EventLog.Table) (key : string) (r : EventLog.Row)
    (b : bool) :
  Job.keyed_by_id tbl ->
  tbl !! key = Some r -> EventLog.hash_verified r = Some b ->
  foldl (fun t u => alter (EventLog.set_hash_verified (Some (Job.verdict u)))
                      (EventLog.id u) t) tbl (EventLog.unverified tbl) !! key
  = Some r.
Proof.
  intros Hkeyed Hr Hflag.
  rewrite (fold_alter_other (fun u => EventLog.set_hash_verified (Some (Job.verdict u))));
    [exact Hr|].
  intros Hin. apply list_elem_of_fmap in Hin as (u & Hid & Hu).
  apply unverified_sound in Hu as [Hnone [key' Hu]].
  pose proof (Hkeyed key' u Hu) as Hid'. rewrite <- Hid in Hid'. subst key'.
  rewrite Hr in Hu. injection Hu as <-. rewrite Hflag in Hnone. discriminate.
Qed.

(** The audit tables the code builds are keyed by the id of their rows. *)
Lemma insert_rows_keyed (now : Z) (values : list EventLog.Insert) (tbl after : EventLog.Table) :
  Job.keyed_by_id tbl ->
  EventLog.insert_rows now values tbl = Js.Ok after ->
  Job.keyed_by_id after.
Proof.
  intros Hkeyed Hins key r Hr.
  destruct (insert_rows_spec now values tbl after Hins) as (_ & _ & Hrows).
  destruct (Hrows key r Hr) as [Hold | (_ & v & _ & _ & Hid)]; [|exact Hid].
  exact (Hkeyed key r Hold).
Qed.

Lemma append_assoc (x y z : string) : (x +:+ y) +:+ z = x +:+ (y +:+ z).
Proof.
  induction x as [|ch x IH]; [reflexivity|].
  change (String ch ((x +:+ y) +:+ z) = String ch (x +:+ (y +:+ z))). f_equal. exact IH.
Qed.

(** X14: the digest does not tell the fields of an entry apart: an entry
    for row [c] of a table named [a|b] and an entry for row [b|c] of table
    [a], alike otherwise, have the same hash. *)
Theorem computeHash_does_not_separate_fields (data : EventLog.HashData) (a b c : string) :
  EventLog.computeHash (Job.filed_under data (a +:+ "|" +:+ b) c)
  = EventLog.computeHash (Job.filed_under data a (b +:+ "|" +:+ c)).
Proof.
  unfold EventLog.computeHash. f_equal. unfold EventLog.payload, Job.filed_under. simpl.
  f_equal. f_equal. f_equal. f_equal. f_equal. f_equal.
  rewrite !append_assoc. reflexivity.
Qed.

(** X15: the job never reaches an entry the server logged: in a table
    keyed by id, every row a call of [logEvents] added is the same row,
    flag included, after a run of the job. *)
Theorem logged_rows_are_never_verified (d : Draw) (database after : EventLog.Table)
    (events : list EventLog.LogEventParams) (ctx : EventLog.RequestContext)
    (sharedTransactionId : option string) :
  Job.keyed_by_id database ->
  EventLog.logEvents d database events ctx sharedTransactionId = Js.Ok after ->
  exists tbl result,
    EventLog.verifyHashes after = Js.Ok (tbl, result) /\
    forall key r, after !! key = Some r -> database !! key = None ->
      EventLog.hash_verified r = Some false /\ tbl !! key = Some r.
Proof.
  intros Hkeyed Hlog.
  assert (Hkeyed' : Job.keyed_by_id after).
  { unfold EventLog.logEvents in Hlog. destruct events as [|e0 events'].
    - injection Hlog as <-. exact Hkeyed.
    - exact (insert_rows_keyed _ _ _ _ Hkeyed Hlog). }
  unfold EventLog.verifyHashes. cbv zeta. rewrite verify_fold. simpl.
  eexists _, _. split; [reflexivity|].
  intros key r Hr Hnone.
  assert (Hflag : EventLog.hash_verified r = Some false).
  { unfold EventLog.logEvents in Hlog. destruct events as [|e0 events'].
    - injection Hlog as <-. rewrite Hnone in Hr. discriminate.
    - apply insert_rows_spec in Hlog as (_ & _ & Hrows).
      destruct (Hrows key r Hr) as [Hold | (_ & v & Hin & Hv & _)].
      { rewrite Hnone in Hold. discriminate. }
      apply list_elem_of_In, elem_of_lookup_imap in Hin as (i & params & -> & _).
      unfold EventLog.row_of_insert in Hv. cbn in Hv.
      destruct (uuid_in (uuidv7 d _)); [|discriminate].
      destruct (uuid_in (default _ (EventLog.transactionId params))); [|discriminate].
      destruct (match EventLog.ipAddress ctx with
                | Some a => Some <$> inet_in a
                | None => Some None
                end); [|discriminate].
      injection Hv as <-. reflexivity. }
  split; [exact Hflag|].
  exact (verify_fold_skips_verified after key r false Hkeyed' Hr Hflag).
Qed.

(** X16: a pushed audit row is judged by the next run of the job, which
    compares the hash the client sent with the digest the server computes
    from the stored row. *)
Theorem pushed_row_is_judged_by_the_next_run (d : Draw) (eventLog : EventLog.EncodedT)
    (tbl after : EventLog.Table) (key : string) :
  Job.keyed_by_id tbl ->
  uuid_in (EventLog.enc_id eventLog) = Some key ->
  tbl !! key = None ->
  EventLog.insertFromSync d eventLog tbl = Js.Ok after ->
  Z.of_nat (length (EventLog.unverified after)) < 10000 ->
  exists r tbl' result,
    after !! key = Some r /\
    EventLog.verifyHashes after = Js.Ok (tbl', result) /\
    tbl' !! key
    = Some (EventLog.set_hash_verified
              (Some (String.eqb (EventLog.enc_hash eventLog) (EventLog.computed_hash r))) r).
Proof.
  intros Hkeyed Hid Hfresh Hpush Hshort.
  revert Hpush.
  unfold EventLog.insertFromSync, EventLog.insert_or_ignore, EventLog.row_of_insert.
  cbn [EventLog.ins_id EventLog.ins_transaction_id EventLog.ins_ip_address].
  rewrite Hid.
  destruct (uuid_in (EventLog.enc_transaction_id eventLog)) as [tx|]; [|discriminate].
  destruct (match EventLog.enc_ip_address eventLog with
            | Some a => Some <$> inet_in a
            | None => Some None
            end) as [ip|]; [|discriminate].
  cbn. rewrite Hfresh. intros [= Hafter].
  assert (Hkeyed' : Job.keyed_by_id after).
  { subst after. intros k r Hr. apply lookup_insert_Some in Hr as [[<- <-] | [_ Hr]].
    - reflexivity.
    - exact (Hkeyed k r Hr). }
  unfold EventLog.verifyHashes. cbv zeta.
  rewrite verify_fold, verify_fold_settles by assumption. simpl.
  eexists _, _, _. split; [|split; [reflexivity|]].
  - subst after. apply lookup_insert_eq.
  - unfold Job.settled. rewrite lookup_fmap. subst after.
    rewrite lookup_insert_eq. reflexivity.
Qed.

End AuditLogRuns.

(** ** The request context *)

Section RequestContext.
Context {platform : Platform}.

Lemma or_else_not_empty (a b : option string) :
  b <> Some "" -> Request.or_else a b <> Some "".
Proof.
  intros Hb. destruct a as [s|]; simpl; [|exact Hb].
  destruct (String.eqb_spec s "") as [->|Hne]; [exact Hb|].
  intros [= ->]. contradiction.
Qed.

Lemma or_else_first (s : string) (b : option string) :
  s <> "" -> Request.or_else (Some s) b = Some s.
Proof.
  intros Hne. simpl. destruct (String.eqb_spec s "") as [->|_]; [contradiction | reflexivity].
Qed.

Lemma has_comma_before_comma (s : string) :
  Request.has_comma (Request.before_comma s) = false.
Proof.
  induction s as [|c s IH]; [reflexivity|].
  simpl. destruct (nat_of_ascii c =? 44)%nat eqn:Hc; [reflexivity|].
  simpl. rewrite Hc. exact IH.
Qed.

Lemma has_comma_append (a b : string) :
  Request.has_comma (a +:+ b) = Request.has_comma a || Request.has_comma b.
Proof.
  induction a as [|c a IH]; [reflexivity|].
  change (Request.has_comma (String c (a +:+ b))
          = Request.has_comma (String c a) || Request.has_comma b).
  simpl. rewrite IH, orb_assoc. reflexivity.
Qed.

Lemma concat_characters (s : string) : Js.concat (Js.characters s) = s.
Proof.
  induction s as [|c s IH]; [reflexivity|].
  simpl. destruct (Js.characters s) as [|[|c' tail] more].
  - simpl in *. rewrite <- IH. reflexivity.
  - simpl in *. rewrite <- IH. reflexivity.
  - destruct (Js.isContinuation c'); simpl in *; rewrite <- IH; reflexivity.
Qed.

Lemma has_comma_concat (l : list string) :
  Forall (fun c => Request.has_comma c = false) l -> Request.has_comma (Js.concat l) = false.
Proof.
  induction 1 as [|c l Hc _ IH]; [reflexivity|].
  simpl. rewrite has_comma_append, Hc, IH. reflexivity.
Qed.

Lemma characters_without_comma (s : string) :
  Request.has_comma s = false -> Forall (fun c => Request.has_comma c = false) (Js.characters s).
Proof.
  induction s as [|c s IH]; [constructor|].
  intros Hs. simpl in Hs. apply orb_false_iff in Hs as [Hc Hs]. specialize (IH Hs).
  simpl. destruct (Js.characters s) as [|[|c' tail] more].
  - repeat constructor. simpl. rewrite Hc. reflexivity.
  - constructor; [simpl; rewrite Hc; reflexivity | exact IH].
  - apply Forall_cons_1 in IH as [Hhead Hmore].
    destruct (Js.isContinuation c').
    + constructor; [|exact Hmore].
      change (Request.has_comma (String c (String c' tail)))
        with ((nat_of_ascii c =? 44)%nat || Request.has_comma (String c' tail)).
      rewrite Hc, Hhead. reflexivity.
    + constructor; [simpl; rewrite Hc; reflexivity|].
      constructor; [exact Hhead | exact Hmore].
Qed.

Lemma Forall_dropWhile {A : Type} (P : A -> Prop) (p : A -> bool) (l : list A) :
  Forall P l -> Forall P (Js.dropWhile p l).
Proof.
  induction 1 as [|x l Hx Hl IH]; [constructor|].
  simpl. destruct (p x); [exact IH | constructor; assumption].
Qed.

Lemma has_comma_trim (s : string) :
  Request.has_comma s = false -> Request.has_comma (Js.trim s) = false.
Proof.
  intros Hs. unfold Js.trim. apply has_comma_concat.
  apply Forall_rev, Forall_dropWhile, Forall_rev, Forall_dropWhile, characters_without_comma.
  exact Hs.
Qed.

Lemma first_entry_has_no_comma (s : string) :
  Request.has_comma (Js.trim (Request.before_comma s)) = false.
Proof.
  apply has_comma_trim, has_comma_before_comma.
Qed.

(** X17: the context [extractRequestContext] builds never carries an
    empty address: a header whose first entry is blank gives way to the
    address of the socket, and without either the address is null.  An
    address taken from the header is the trimmed first entry, which holds
    no comma. *)
Theorem extractRequestContext_address_is_never_empty (forwarded : option Request.HeaderValue)
    (remoteAddress userAgent : option string) :
  let ctx := Request.extractRequestContext forwarded remoteAddress userAgent in
  EventLog.ipAddress ctx <> Some "" /\
  (forall s, forwarded = Some (Request.One s) ->
     let first := Js.trim (Request.before_comma s) in
     Request.has_comma first = false /\
     (first <> "" -> EventLog.ipAddress ctx = Some first) /\
     (first = "" -> forall a, remoteAddress = Some a -> a <> "" ->
                    EventLog.ipAddress ctx = Some a) /\
     (first = "" -> remoteAddress = None -> EventLog.ipAddress ctx = None)).
Proof.
  intros ctx. split.
  - subst ctx. unfold Request.extractRequestContext. simpl.
    apply or_else_not_empty. discriminate.
  - intros s -> first. split; [apply first_entry_has_no_comma|].
    subst ctx. unfold Request.extractRequestContext. simpl. fold first.
    split; [|split].
    + intros Hne. destruct (String.eqb_spec first "") as [Heq|_]; [contradiction|].
      simpl. destruct (String.eqb_spec first "") as [Heq|_]; [contradiction|]. reflexivity.
    + intros -> a -> Hne. simpl.
      destruct (String.eqb_spec a "") as [Heq|_]; [contradiction|]. reflexivity.
    + intros -> ->. reflexivity.
Qed.

(** A forwarding header that holds a no-break space and nothing else
    gives way to the address of the socket. *)
Example no_break_space_header_gives_way_to_the_socket :
  EventLog.ipAddress
    (Request.extractRequestContext (Some (Request.One (Js.bytes [194; 160]%nat)))
       (Some "10.0.0.9") None)
  = Some "10.0.0.9".
Proof. reflexivity. Qed.

(** X18: the audit helper of the server functions keeps a blank first
    entry of the header as the address, and an address the [inet] column
    refuses makes the INSERT fail: the helper swallows the error and the
    entry is lost, the table is as before. *)
Theorem rejected_address_loses_the_audit_entry (d : Draw) (header : string -> option string)
    (forwarded : string) (database : EventLog.Table) (params : EventLog.LogEventParams) :
  header "x-forwarded-for" = Some forwarded ->
  inet_in (Js.trim (Request.before_comma forwarded)) = None ->
  EventLog.ipAddress (Request.getWebRequestContext (Some header))
  = Some (Js.trim (Request.before_comma forwarded)) /\
  Request.logAuditEvent d (Some header) database params = database.
Proof.
  intros Hheader Hinet. unfold Request.logAuditEvent, Request.getWebRequestContext.
  rewrite Hheader. split; [reflexivity|].
  unfold EventLog.logEvent, EventLog.insert_rows, EventLog.row_of_insert.
  cbn [EventLog.ins_ip_address EventLog.ipAddress EventLog.ins_id EventLog.ins_transaction_id].
  rewrite Hinet. simpl.
  destruct (uuid_in (uuidv7 d 0%nat)); [|reflexivity].
  destruct (uuid_in (default (uuidv7 d 1%nat) (EventLog.transactionId params))); reflexivity.
Qed.

(** X19: [logAuditEvent] returns in every case; it keeps every row of the
    table and adds at most one, which carries the application id [web],
    the clock of the call as [created_at] and the flag [false]. *)
Theorem logAuditEvent_only_appends (d : Draw) (getHeader : option (string -> option string))
    (database : EventLog.Table) (params : EventLog.LogEventParams) :
  let after := Request.logAuditEvent d getHeader database params in
  database ⊆ after /\
  (size after = size database \/ size after = S (size database)) /\
  forall key r, after !! key = Some r -> database !! key = None ->
    EventLog.app_id r = "web" /\
    EventLog.created_at r = Date_now d /\
    EventLog.hash_verified r = Some false /\
    EventLog.table_name r = EventLog.tableName params /\
    EventLog.row_id r = EventLog.rowId params.
Proof.
  intros after. subst after. unfold Request.logAuditEvent.
  destruct (EventLog.logEvent d database params (Request.getWebRequestContext getHeader))
    as [after|e] eqn:Hlog.
  - unfold EventLog.logEvent in Hlog.
    apply insert_rows_spec in Hlog as (Hsub & Hsize & Hrows).
    split; [exact Hsub|]. split; [right; rewrite Hsize; simpl; lia|].
    intros key r Hr Hnone.
    destruct (Hrows key r Hr) as [Hold | (_ & v & [<- | []] & Hv & _)].
    { rewrite Hnone in Hold. discriminate. }
    unfold EventLog.row_of_insert in Hv. cbn in Hv.
    destruct (uuid_in (uuidv7 d 0%nat)); [|discriminate].
    destruct (uuid_in (default _ (EventLog.transactionId params))); [|discriminate].
    destruct (match EventLog.ipAddress (Request.getWebRequestContext getHeader) with
              | Some a => Some <$> inet_in a
              | None => Some None
              end); [|discriminate].
    injection Hv as <-. cbn. split; [|repeat split; reflexivity].
    unfold Request.getWebRequestContext. destruct getHeader; reflexivity.
  - split; [reflexivity|]. split; [left; reflexivity|].
    intros key r Hr Hnone. rewrite Hnone in Hr. discriminate.
Qed.

End RequestContext.

(** ** The visits under a push, and what a pull sees of them *)

Section VisitsUnderAPush.
Context {platform : Platform}.

Lemma run_snoc (ops : list Replay.Op) (op : Replay.Op) (s : Db.Store) :
  Replay.run (ops ++ [op])%list s = Replay.apply_op (Replay.run ops s) op.
Proof. unfold Replay.run. rewrite foldl_app. reflexivity. Qed.

Lemma run_cons (ops : list Replay.Op) (op : Replay.Op) (s : Db.Store) :
  Replay.run (op :: ops) s = Replay.run ops (Replay.apply_op s op).
Proof. reflexivity. Qed.

Lemma sql_row_cells (r : Db.VisitRow) :
  Sql.cell (VisitView.sql_row r) "id" = Sql.Text (Db.id r) /\
  Sql.cell (VisitView.sql_row r) "is_deleted" = Sql.Bool (Db.is_deleted r) /\
  Sql.cell (VisitView.sql_row r) "deleted_at" = VisitView.opt_timestamp (Db.deleted_at r) /\
  Sql.cell (VisitView.sql_row r) "server_created_at" = Sql.Timestamp (Db.server_created_at r) /\
  Sql.cell (VisitView.sql_row r) "last_modified" = Sql.Timestamp (Db.last_modified r).
Proof. repeat split; reflexivity. Qed.

Lemma In_snapshot (s : Db.Store) (row : Sql.Row) :
  In row (Sql.selectFrom (VisitView.snapshot s) "visits") <->
  exists key r, Db.visits s !! key = Some r /\ row = VisitView.sql_row r.
Proof.
  simpl. rewrite <- list_elem_of_In, list_elem_of_fmap. split.
  - intros (r & -> & Hr). apply list_elem_of_fmap in Hr as ([key r'] & -> & Hin).
    apply elem_of_map_to_list in Hin. exists key, r'. split; [exact Hin | reflexivity].
  - intros (key & r & Hr & ->). exists r. split; [reflexivity|].
    apply list_elem_of_fmap. exists (key, r). split; [reflexivity|].
    apply elem_of_map_to_list. exact Hr.
Qed.

Lemma step_no_deleted_at (op : Replay.Op) (s : Db.Store) :
  VisitView.no_deleted_at s -> VisitView.no_deleted_at (Replay.apply_op s op).
Proof.
  intros Hs key r. destruct op as [d visit|d id]; cbn [Replay.apply_op].
  - rewrite lookup_upsert_core. destruct (decide (Visit.id visit = key)) as [<-|_].
    + destruct (Db.visits s !! Visit.id visit) as [old|] eqn:Hold; intros [= <-].
      * exact (Hs _ _ Hold).
      * reflexivity.
    + apply Hs.
  - rewrite lookup_softDelete. destruct (decide (id = key)) as [<-|_].
    + destruct (Db.visits s !! id) as [old|] eqn:Hold; [|discriminate].
      intros [= <-]. exact (Hs _ _ Hold).
    + apply Hs.
Qed.

Lemma run_no_deleted_at (ops : list Replay.Op) (s : Db.Store) :
  VisitView.no_deleted_at s -> VisitView.no_deleted_at (Replay.run ops s).
Proof.
  revert s. induction ops as [|op ops IH]; intros s Hs; [exact Hs|].
  rewrite run_cons. apply IH, step_no_deleted_at, Hs.
Qed.

(** X20: the sync path never gives a visit a [deleted_at]: however many
    upserts and soft deletes a push applies to a store in which no visit
    has one, a pull of any watermark reports no deleted visit, and a
    visit that is stored as deleted is in neither of the other two lists:
    a client never learns that a visit was deleted. *)
Theorem visit_deletions_never_reach_a_pull (ops : list Replay.Op) (s : Db.Store)
    (lastSyncedAt T : Z) :
  VisitView.no_deleted_at s ->
  let after := Replay.run ops s in
  let delta := Sync.entityDelta (VisitView.snapshot after) lastSyncedAt T Visit.Entity in
  Sync.deleted delta = [] /\
  (forall key r, Db.visits after !! key = Some r -> Db.is_deleted r = true ->
     ~ In (VisitView.sql_row r) (Sync.created delta) /\
     ~ In (VisitView.sql_row r) (Sync.updated delta)) /\
  (forall ops' d id r, ops = (ops' ++ [Replay.Delete d id])%list ->
     Db.visits after !! id = Some r -> Db.is_deleted r = true).
Proof.
  intros Hs after delta.
  pose proof (run_no_deleted_at ops s Hs) as Hafter. fold after in Hafter.
  split; [|split].
  - subst delta. unfold Sync.entityDelta, Sync.createDeltaData.
    cbn [Sync.deleted]. destruct (lastSyncedAt =? 0); [reflexivity|].
    unfold Sql.where_ at 2. rewrite filter_none; [reflexivity|].
    intros row Hrow. apply In_snapshot in Hrow as (key & r & Hr & ->).
    destruct (sql_row_cells r) as (_ & _ & -> & _).
    rewrite (Hafter key r Hr). reflexivity.
  - intros key r Hr Hdel. subst delta. rewrite created_spec, updated_spec. unfold Sql.live.
    destruct (sql_row_cells r) as (_ & -> & _). rewrite Hdel.
    split; intros (_ & (_ & Hlive) & _); discriminate.
  - intros ops' d id r -> Hr. subst after. rewrite run_snoc in Hr.
    cbn [Replay.apply_op] in Hr. rewrite lookup_softDelete in Hr.
    destruct (decide (id = id)) as [_|Hne]; [|contradiction].
    destruct (Db.visits (Replay.run ops' s) !! id); [|discriminate].
    injection Hr as <-. reflexivity.
Qed.

Lemma In_linked_tables (table : Db.Store -> gmap string Db.LinkedRow) (ops : list Replay.Op)
    (s : Db.Store) :
  In table VisitView.linked_tables ->
  table (Replay.run ops s) = (fun r => foldl Replay.linked_step r ops) <$> table s.
Proof.
  destruct (run_linked ops s) as (Hp & He & Ha).
  intros [<- | [<- | [<- | []]]]; assumption.
Qed.

Lemma linked_deleted_after (r : Db.LinkedRow) (ops : list Replay.Op) :
  Db.linked_is_deleted (foldl Replay.linked_step r ops)
  = Db.linked_is_deleted r || existsb (Replay.hits r) ops.
Proof.
  pose proof (linked_net_effect r ops) as Hnet.
  apply (f_equal Db.linked_is_deleted) in Hnet. simpl in Hnet. rewrite Hnet.
  destruct (existsb (Replay.hits r) ops); simpl.
  - rewrite orb_true_r. reflexivity.
  - rewrite orb_false_r. reflexivity.
Qed.

(** X21: a push of visits adds no row to and removes no row from the
    tables that point to a visit, and never changes what a row points to
    or its other cells; a row is deleted afterwards exactly when it was
    before or one of the calls deleted the visit it points to.  Upserting
    the visit again as not deleted does not bring its rows back. *)
Theorem cascaded_deletion_sticks (ops : list Replay.Op) (s : Db.Store)
    (table : Db.Store -> gmap string Db.LinkedRow) (key : string) :
  In table VisitView.linked_tables ->
  match table s !! key with
  | None => table (Replay.run ops s) !! key = None
  | Some r =>
      exists r', table (Replay.run ops s) !! key = Some r' /\
        Db.visit_ref r' = Db.visit_ref r /\
        Db.linked_cells r' = Db.linked_cells r /\
        (Db.linked_is_deleted r' = true <->
         Db.linked_is_deleted r = true \/
         exists d id, In (Replay.Delete d id) ops /\ Db.visit_ref r = Some id)
  end.
Proof.
  intros Htable. rewrite (In_linked_tables table ops s Htable), lookup_fmap.
  destruct (table s !! key) as [r|]; [|reflexivity].
  simpl. eexists. split; [reflexivity|].
  destruct (linked_step_ref r ops) as [Href Hcells].
  split; [exact Href|]. split; [exact Hcells|].
  rewrite linked_deleted_after, orb_true_iff, existsb_exists.
  split; (intros [Hwas | Hhit]; [left; exact Hwas | right]).
  - destruct Hhit as ([d visit|d id] & Hin & Hhits); simpl in Hhits; [discriminate|].
    apply bool_decide_eq_true_1 in Hhits. exists d, id. split; assumption.
  - destruct Hhit as (d & id & Hin & Href'). exists (Replay.Delete d id).
    split; [exact Hin|]. simpl. apply bool_decide_eq_true_2. exact Href'.
Qed.

Lemma step_untouched (op : Replay.Op) (s : Db.Store) (key : string) :
  key ∉ VisitView.upserted [op] -> key ∉ VisitView.deleted [op] ->
  Db.visits (Replay.apply_op s op) !! key = Db.visits s !! key.
Proof.
  destruct op as [d visit|d id]; cbn [Replay.apply_op]; intros Hup Hdel.
  - rewrite lookup_upsert_core. destruct (decide (Visit.id visit = key)) as [<-|_]; [|reflexivity].
    exfalso. apply Hup. apply list_elem_of_singleton. reflexivity.
  - rewrite lookup_softDelete. destruct (decide (id = key)) as [<-|_]; [|reflexivity].
    exfalso. apply Hdel. apply list_elem_of_singleton. reflexivity.
Qed.

Lemma upserted_cons (op : Replay.Op) (ops : list Replay.Op) :
  VisitView.upserted (op :: ops) = (VisitView.upserted [op] ++ VisitView.upserted ops)%list.
Proof. unfold VisitView.upserted. simpl. destruct op; reflexivity. Qed.

Lemma deleted_cons (op : Replay.Op) (ops : list Replay.Op) :
  VisitView.deleted (op :: ops) = (VisitView.deleted [op] ++ VisitView.deleted ops)%list.
Proof. unfold VisitView.deleted. simpl. destruct op; reflexivity. Qed.

Lemma step_key_set (op : Replay.Op) (s : Db.Store) (key : string) :
  is_Some (Db.visits (Replay.apply_op s op) !! key) <->
  is_Some (Db.visits s !! key) \/ key ∈ VisitView.upserted [op].
Proof.
  destruct op as [d visit|d id]; cbn [Replay.apply_op].
  - change (VisitView.upserted [Replay.Upsert d visit]) with [Visit.id visit].
    rewrite lookup_upsert_core. destruct (decide (Visit.id visit = key)) as [<-|Hne].
    + split; [intros _; right; apply list_elem_of_singleton; reflexivity
             | intros _; eexists; reflexivity].
    + split; [intros Hs; left; exact Hs|].
      intros [Hs | Hin]; [exact Hs|]. apply list_elem_of_singleton in Hin. congruence.
  - change (VisitView.upserted [Replay.Delete d id]) with (@nil string).
    rewrite lookup_softDelete. destruct (decide (id = key)) as [<-|Hne].
    + rewrite fmap_is_Some. split; [intros Hs; left; exact Hs|].
      intros [Hs | Hin]; [exact Hs | inversion Hin].
    + split; [intros Hs; left; exact Hs|].
      intros [Hs | Hin]; [exact Hs | inversion Hin].
Qed.

(** X22: the visits a push does not name stay exactly as they are, and
    the visits stored after the push are those stored before and those
    the push upserts: a soft delete of an id that is not stored creates
    nothing, and nothing is ever removed. *)
Theorem push_touches_only_the_named_visits (ops : list Replay.Op) (s : Db.Store)
    (key : string) :
  (key ∉ VisitView.upserted ops -> key ∉ VisitView.deleted ops ->
   Db.visits (Replay.run ops s) !! key = Db.visits s !! key) /\
  (is_Some (Db.visits (Replay.run ops s) !! key) <->
   is_Some (Db.visits s !! key) \/ key ∈ VisitView.upserted ops).
Proof.
  revert s. induction ops as [|op ops IH]; intros s.
  - split; [reflexivity|]. simpl. split; [intros Hs; left; exact Hs|].
    intros [Hs | Hin]; [exact Hs | inversion Hin].
  - rewrite run_cons, upserted_cons, deleted_cons.
    destruct (IH (Replay.apply_op s op)) as [Hsame Hkeys]. split.
    + intros Hup Hdel. apply not_elem_of_app in Hup as [Hup1 Hup2].
      apply not_elem_of_app in Hdel as [Hdel1 Hdel2].
      rewrite Hsame by assumption. apply step_untouched; assumption.
    + rewrite Hkeys, step_key_set, elem_of_app. tauto.
Qed.

(** X23: no call of a push changes the id, the creation stamps or the
    [deleted_at] of a visit that is stored: whatever the client sends as
    [created_at] for it is ignored. *)
Theorem push_keeps_the_creation_stamps (ops : list Replay.Op) (s : Db.Store)
    (key : string) (r : Db.VisitRow) :
  Db.visits s !! key = Some r ->
  exists r', Db.visits (Replay.run ops s) !! key = Some r' /\
    Db.id r' = Db.id r /\
    Db.created_at r' = Db.created_at r /\
    Db.server_created_at r' = Db.server_created_at r /\
    Db.deleted_at r' = Db.deleted_at r.
Proof.
  intros Hr. destruct (run_existing ops s key r Hr) as (r' & Hr' & Hmask).
  exists r'. split; [exact Hr'|].
  pose proof (f_equal Db.id Hmask) as Hid.
  pose proof (f_equal Db.created_at Hmask) as Hcreated.
  pose proof (f_equal Db.server_created_at Hmask) as Hserver.
  pose proof (f_equal Db.deleted_at Hmask) as Hdeleted.
  simpl in *. repeat split; assumption.
Qed.

End VisitsUnderAPush.

(** ** Saving an event *)

Section SavingEvents.
Context {platform : Platform}.
Variable isValidUUID : string -> bool.

(** The second half of [save]: the upsert of the event. *)
Lemma save_of_existing_visit (uuidV1 : nat -> string) (d : Draw) (user : option EventApi.User)
    (id : option string) (event : EventApi.EncodedT) (s : Db.Store) (v : string) :
  EventApi.visit_id event = Some v -> isValidUUID v = true ->
  is_Some (Db.visits s !! v) ->
  exists eventId row,
    EventApi.save isValidUUID uuidV1 d user id event s
    = Js.Ok {| Db.visits := Db.visits s;
               Db.prescriptions := Db.prescriptions s;
               Db.events := <[eventId := row]> (Db.events s);
               Db.appointments := Db.appointments s |} /\
    Db.visit_ref row = Some v /\ Db.linked_is_deleted row = false.
Proof.
  intros Hv Hvalid Hstored. unfold EventApi.save. cbv zeta.
  rewrite Hv, Hvalid, (bool_decide_eq_true_2 _ Hstored). simpl.
  eexists _, _. split; [reflexivity|].
  destruct (Db.events s !! _); split; reflexivity.
Qed.

Lemma save_without_visit (uuidV1 : nat -> string) (d : Draw) (user : EventApi.User)
    (id : option string) (event : EventApi.EncodedT) (s : Db.Store) :
  (forall v, EventApi.visit_id event = Some v -> isValidUUID v = true ->
             Db.visits s !! v = None) ->
  let generated := negb (EventApi.valid isValidUUID (EventApi.visit_id event)) in
  let insertVisitId :=
    if generated then uuidV1 0%nat else default "" (EventApi.visit_id event) in
  Db.visits s !! insertVisitId = None ->
  exists eventId row,
    EventApi.save isValidUUID uuidV1 d (Some user) id event s
    = Js.Ok {| Db.visits :=
                 <[insertVisitId := EventApi.artificial_visit d insertVisitId user event]>
                   (Db.visits s);
               Db.prescriptions := Db.prescriptions s;
               Db.events := <[eventId := row]> (Db.events s);
               Db.appointments := Db.appointments s |} /\
    eventId = default (uuidV1 (if generated then 1%nat else 0%nat))
                (Request.or_else (Request.or_else id (EventApi.id event)) None) /\
    Db.visit_ref row = Some insertVisitId /\ Db.linked_is_deleted row = false.
Proof.
  intros Hmissing generated insertVisitId Hfresh. unfold EventApi.save. cbv zeta.
  assert (Hexists : match EventApi.visit_id event with
                    | Some v => isValidUUID v && bool_decide (is_Some (Db.visits s !! v))
                    | None => false
                    end = false).
  { destruct (EventApi.visit_id event) as [v|]; [|reflexivity].
    destruct (isValidUUID v) eqn:Hvalid; [|reflexivity].
    rewrite (Hmissing v eq_refl Hvalid). reflexivity. }
  rewrite Hexists. fold generated. fold insertVisitId. rewrite Hfresh. simpl.
  eexists _, _. split; [reflexivity|]. split; [reflexivity|].
  destruct (Db.events s !! _); split; reflexivity.
Qed.

(** X24: when [save] returns, either nothing was written at all (no user
    could be found for the visit to create), or exactly one event was
    written: it is stored as not deleted, whatever the record said, and
    it points to a visit that is stored.  The visits are as they were,
    or exactly one visit was added under an identifier that was not
    taken; the other tables are left alone. *)
Theorem saved_event_is_live_and_has_a_visit (uuidV1 : nat -> string) (d : Draw)
    (user : option EventApi.User) (id : option string) (event : EventApi.EncodedT)
    (s after : Db.Store) :
  EventApi.save isValidUUID uuidV1 d user id event s = Js.Ok after ->
  (Db.visits after = Db.visits s \/
   exists v row, Db.visits s !! v = None /\ Db.visits after = <[v := row]> (Db.visits s)) /\
  Db.prescriptions after = Db.prescriptions s /\
  Db.appointments after = Db.appointments s /\
  ((after = s /\ user = None) \/
   exists eventId row v,
     Db.events after = <[eventId := row]> (Db.events s) /\
     Db.linked_is_deleted row = false /\
     Db.visit_ref row = Some v /\
     is_Some (Db.visits after !! v)).
Proof.
  destruct (EventApi.visit_id event) as [v|] eqn:Hv.
  - destruct (isValidUUID v) eqn:Hvalid.
    + destruct (Db.visits s !! v) as [visit|] eqn:Hvisit.
      * destruct (save_of_existing_visit uuidV1 d user id event s v Hv Hvalid)
          as (eventId & row & -> & Href & Hlive); [eexists; exact Hvisit|].
        intros [= <-]. simpl. split; [left; reflexivity|]. split; [reflexivity|].
        split; [reflexivity|]. right. exists eventId, row, v.
        split; [reflexivity|]. split; [exact Hlive|]. split; [exact Href|].
        eexists. exact Hvisit.
      * destruct user as [user|].
        -- destruct (save_without_visit uuidV1 d user id event s)
             as (eventId & row & -> & _ & Href & Hlive).
           { intros v' Hv' _. rewrite Hv in Hv'. injection Hv' as <-. exact Hvisit. }
           { rewrite Hv. simpl. rewrite Hvalid. simpl. exact Hvisit. }
           rewrite Hv in *. simpl in *. rewrite Hvalid in *. simpl in *.
           intros [= <-]. simpl. split; [right; eexists _, _; split; [exact Hvisit | reflexivity]|].
           split; [reflexivity|]. split; [reflexivity|]. right.
           exists eventId, row, v. split; [reflexivity|]. split; [exact Hlive|].
           split; [exact Href|]. rewrite lookup_insert_eq. eexists. reflexivity.
        -- unfold EventApi.save. cbv zeta. rewrite Hv, Hvalid, Hvisit. simpl.
           intros [= <-]. split; [left; reflexivity|]. split; [reflexivity|].
           split; [reflexivity|]. left. split; reflexivity.
    + destruct user as [user|].
      * destruct (Db.visits s !! uuidV1 0%nat) as [taken|] eqn:Hfresh.
        { unfold EventApi.save. cbv zeta. rewrite Hv, Hvalid. simpl. rewrite Hvalid. simpl.
          rewrite Hfresh. discriminate. }
        destruct (save_without_visit uuidV1 d user id event s)
          as (eventId & row & -> & _ & Href & Hlive).
        { intros v' Hv' Hvalid'. rewrite Hv in Hv'. injection Hv' as <-. congruence. }
        { rewrite Hv. simpl. rewrite Hvalid. simpl. exact Hfresh. }
        rewrite Hv in *. simpl in *. rewrite Hvalid in *. simpl in *.
        intros [= <-]. simpl. split; [right; eexists _, _; split; [exact Hfresh | reflexivity]|].
        split; [reflexivity|]. split; [reflexivity|]. right.
        exists eventId, row, (uuidV1 0%nat). split; [reflexivity|]. split; [exact Hlive|].
        split; [exact Href|]. rewrite lookup_insert_eq. eexists. reflexivity.
      * unfold EventApi.save. cbv zeta. rewrite Hv, Hvalid. simpl.
        intros [= <-]. split; [left; reflexivity|]. split; [reflexivity|].
        split; [reflexivity|]. left. split; reflexivity.
  - destruct user as [user|].
    + destruct (Db.visits s !! uuidV1 0%nat) as [taken|] eqn:Hfresh.
      { unfold EventApi.save. cbv zeta. rewrite Hv. simpl. rewrite Hfresh. discriminate. }
      destruct (save_without_visit uuidV1 d user id event s)
        as (eventId & row & -> & _ & Href & Hlive).
      { intros v' Hv'. rewrite Hv in Hv'. discriminate. }
      { rewrite Hv. simpl. exact Hfresh. }
      rewrite Hv in *. simpl in *.
      intros [= <-]. simpl. split; [right; eexists _, _; split; [exact Hfresh | reflexivity]|].
      split; [reflexivity|]. split; [reflexivity|]. right.
      exists eventId, row, (uuidV1 0%nat). split; [reflexivity|]. split; [exact Hlive|].
      split; [exact Href|]. rewrite lookup_insert_eq. eexists. reflexivity.
    + unfold EventApi.save. cbv zeta. rewrite Hv. simpl.
      intros [= <-]. split; [left; reflexivity|]. split; [reflexivity|].
      split; [reflexivity|]. left. split; reflexivity.
Qed.

(** X25: an event whose visit is not stored is dropped without an error
    when the table of users is empty: [save] returns and the store is as
    it was. *)
Theorem save_without_a_user_drops_the_event (uuidV1 : nat -> string) (d : Draw)
    (id : option string) (event : EventApi.EncodedT) (s : Db.Store) :
  (forall v, EventApi.visit_id event = Some v -> isValidUUID v = true ->
             Db.visits s !! v = None) ->
  EventApi.save isValidUUID uuidV1 d None id event s = Js.Ok s.
Proof.
  intros Hmissing. unfold EventApi.save. cbv zeta.
  destruct (EventApi.visit_id event) as [v|]; [|reflexivity].
  destruct (isValidUUID v) eqn:Hvalid; [|reflexivity].
  rewrite (Hmissing v eq_refl Hvalid). reflexivity.
Qed.

(** X26: saving the same event twice when it names no valid visit
    creates two visits: each call inserts a visit of its own under a
    fresh identifier, the event ends up pointing to the second one, and
    the first one is left behind with no event of its own. *)
Theorem save_without_a_visit_adds_a_visit_each_time (first second : nat -> string)
    (d1 d2 : Draw) (user : EventApi.User) (e : string) (event : EventApi.EncodedT)
    (s : Db.Store) :
  EventApi.valid isValidUUID (EventApi.visit_id event) = false ->
  e <> "" ->
  Db.visits s !! first 0%nat = None ->
  Db.visits s !! second 0%nat = None ->
  first 0%nat <> second 0%nat ->
  exists s1 s2,
    EventApi.save isValidUUID first d1 (Some user) (Some e) event s = Js.Ok s1 /\
    EventApi.save isValidUUID second d2 (Some user) (Some e) event s1 = Js.Ok s2 /\
    size (Db.visits s2) = S (S (size (Db.visits s))) /\
    is_Some (Db.visits s2 !! first 0%nat) /\
    (exists row, Db.events s2 !! e = Some row /\ Db.visit_ref row = Some (second 0%nat)) /\
    (forall k row, Db.events s2 !! k = Some row -> Db.visit_ref row = Some (first 0%nat) ->
       k <> e /\ Db.events s !! k = Some row).
Proof.
  intros Hinvalid He Hfresh1 Hfresh2 Hdistinct.
  assert (Hmissing : forall s' v, EventApi.visit_id event = Some v -> isValidUUID v = true ->
                                  Db.visits s' !! v = None).
  { intros s' v Hv Hvalid. rewrite Hv in Hinvalid. simpl in Hinvalid. congruence. }
  assert (Hid : forall fresh,
             default fresh (Request.or_else (Request.or_else (Some e) (EventApi.id event)) None)
             = e).
  { intros fresh. simpl. destruct (String.eqb_spec e "") as [Heq|_]; [contradiction|].
    simpl. destruct (String.eqb_spec e "") as [Heq|_]; [contradiction|]. reflexivity. }
  destruct (save_without_visit first d1 user (Some e) event s (Hmissing s))
    as (e1 & row1 & Hsave1 & He1 & Href1 & _).
  { rewrite Hinvalid. simpl. exact Hfresh1. }
  rewrite Hinvalid in Hsave1, He1, Href1. cbn [negb] in Hsave1, He1, Href1.
  rewrite Hid in He1. subst e1.
  destruct (save_without_visit second d2 user (Some e) event
              {| Db.visits := <[first 0%nat := EventApi.artificial_visit d1 (first 0%nat) user event]>
                                (Db.visits s);
                 Db.prescriptions := Db.prescriptions s;
                 Db.events := <[e := row1]> (Db.events s);
                 Db.appointments := Db.appointments s |} (Hmissing _))
    as (e2 & row2 & Hsave2 & He2 & Href2 & _).
  { rewrite Hinvalid. simpl. rewrite lookup_insert_ne by exact Hdistinct. exact Hfresh2. }
  rewrite Hinvalid in Hsave2, He2, Href2. cbn [negb] in Hsave2, He2, Href2.
  rewrite Hid in He2. subst e2.
  eexists _, _. split; [exact Hsave1|]. split; [exact Hsave2|]. simpl.
  split; [|split; [|split]].
  - rewrite !map_size_insert_None; [reflexivity | exact Hfresh1 |].
    rewrite lookup_insert_ne by exact Hdistinct. exact Hfresh2.
  - rewrite lookup_insert_ne by congruence. rewrite lookup_insert_eq. eexists. reflexivity.
  - exists row2. split; [apply lookup_insert_eq | exact Href2].
  - intros k row Hrow Href. destruct (decide (k = e)) as [->|Hne].
    + rewrite lookup_insert_eq in Hrow. injection Hrow as <-. congruence.
    + rewrite !lookup_insert_ne in Hrow by congruence. split; [exact Hne | exact Hrow].
Qed.

End SavingEvents.

(** ** A push of events, run twice *)

Section ReplayingEvents.
Context {platform : Platform} {models : Models}.

(** [events] is a key of the map of pushable tables, and its value is the
    event model, unless a model listed after it carries the same name. *)
Lemma events_is_pushable :
  Table_name (Table Appointment) <> "events" ->
  Table_name (Table PatientVital) <> "events" ->
  Table_name (Table DispensingRecord) <> "events" ->
  Table_name (Table PrescriptionItem) <> "events" ->
  Sync.pushTableNameModelMap "events" = Sync.Own (Build_Entity Event.Table Event_Sync).
Proof.
  intros Ha Hv Hd Hi.
  unfold Sync.pushTableNameModelMap, Sync.pushTableNameModelMap_own,
    Sync.ENTITIES_TO_PULL_FROM_MOBILE.
  cbn [foldl].
  rewrite lookup_insert_ne by exact Hi.
  rewrite lookup_insert_ne by exact Hd.
  rewrite lookup_insert_ne by discriminate.
  rewrite lookup_insert_ne by exact Hv.
  rewrite lookup_insert_ne by discriminate.
  rewrite lookup_insert_ne by exact Ha.
  rewrite lookup_insert_eq. reflexivity.
Qed.

(** C4, where the code falls short of it: a push of one event that names
    no valid visit goes through twice, and the second run stores one
    visit more than the first run left, so that the two final states
    differ in more than the stamps.  The record is read by
    [Event.Sync.upsertFromDelta] as [event]; the table of users has a row;
    the generator gives each call an identifier that is not taken. *)
Theorem replayed_event_push_adds_a_visit (draws : nat -> Draw) (isValidUUID : string -> bool)
    (uuidV1 : Draw -> nat -> string) (user : EventApi.User) (record : Js.Record)
    (event : EventApi.EncodedT) (k : nat) (s : Db.Store) :
  Sync.pushTableNameModelMap "events" = Sync.Own (Build_Entity Event.Table Event_Sync) ->
  (forall d s',
     upsertFromDelta Event_Sync d
       (Sync.clean (Date_now d) (Table_columns Event.Table) record) s'
     = EventApi.upsertFromDelta isValidUUID (uuidV1 d) d (Some user) event s') ->
  EventApi.valid isValidUUID (EventApi.visit_id event) = false ->
  Db.visits s !! uuidV1 (draws k) 0%nat = None ->
  Db.visits s !! uuidV1 (draws (S k)) 0%nat = None ->
  uuidV1 (draws k) 0%nat <> uuidV1 (draws (S k)) 0%nat ->
  let push : Sync.PushRequest :=
    [ ("events", Some {| Sync.push_created := Some [record];
                         Sync.push_updated := Some [];
                         Sync.push_deleted := Some [] |}) ] in
  exists w1 w2,
    Sync.persistClientChanges draws push (k, s) = Js.Ok w1 /\
    Sync.persistClientChanges draws push w1 = Js.Ok w2 /\
    size (Db.visits w1.2) = S (size (Db.visits s)) /\
    size (Db.visits w2.2) = S (size (Db.visits w1.2)) /\
    is_Some (Db.visits w2.2 !! uuidV1 (draws k) 0%nat) /\
    is_Some (Db.visits w2.2 !! uuidV1 (draws (S k)) 0%nat) /\
    Replay.mask w2.2 <> Replay.mask w1.2.
Proof.
  intros Hown Hread Hinvalid Hfresh1 Hfresh2 Hdistinct push.
  assert (Hmissing : forall s' v, EventApi.visit_id event = Some v -> isValidUUID v = true ->
                                  Db.visits s' !! v = None).
  { intros s' v Hv Hvalid. rewrite Hv in Hinvalid. simpl in Hinvalid. congruence. }
  destruct (save_without_visit isValidUUID (uuidV1 (draws k)) (draws k) user
              (EventApi.id event) event s (Hmissing s))
    as (e1 & row1 & Hsave1 & _).
  { rewrite Hinvalid. simpl. exact Hfresh1. }
  rewrite Hinvalid in Hsave1. cbn [negb] in Hsave1.
  destruct (save_without_visit isValidUUID (uuidV1 (draws (S k))) (draws (S k)) user
              (EventApi.id event) event
              {| Db.visits :=
                   <[uuidV1 (draws k) 0%nat :=
                       EventApi.artificial_visit (draws k) (uuidV1 (draws k) 0%nat) user event]>
                     (Db.visits s);
                 Db.prescriptions := Db.prescriptions s;
                 Db.events := <[e1 := row1]> (Db.events s);
                 Db.appointments := Db.appointments s |} (Hmissing _))
    as (e2 & row2 & Hsave2 & _).
  { rewrite Hinvalid. simpl. rewrite lookup_insert_ne by exact Hdistinct. exact Hfresh2. }
  rewrite Hinvalid in Hsave2. cbn [negb] in Hsave2.
  assert (Hsize1 : size (<[uuidV1 (draws k) 0%nat :=
                             EventApi.artificial_visit (draws k) (uuidV1 (draws k) 0%nat)
                               user event]> (Db.visits s))
                   = S (size (Db.visits s)))
    by (apply map_size_insert_None; exact Hfresh1).
  assert (Hsize2 : size (<[uuidV1 (draws (S k)) 0%nat :=
                             EventApi.artificial_visit (draws (S k))
                               (uuidV1 (draws (S k)) 0%nat) user event]>
                           (<[uuidV1 (draws k) 0%nat :=
                                EventApi.artificial_visit (draws k) (uuidV1 (draws k) 0%nat)
                                  user event]> (Db.visits s)))
                   = S (size (<[uuidV1 (draws k) 0%nat :=
                                  EventApi.artificial_visit (draws k) (uuidV1 (draws k) 0%nat)
                                    user event]> (Db.visits s)))).
  { apply map_size_insert_None. rewrite lookup_insert_ne by exact Hdistinct. exact Hfresh2. }
  eexists _, _.
  split; [|split].
  - unfold push. cbn [Sync.persistClientChanges]. unfold Sync.persistTable.
    rewrite Hown. cbn [Table Sync Sync.push_created Sync.push_updated Sync.push_deleted
                       mbind option_bind from_option id app Sync.upsertAll Sync.deleteAll
                       fst snd].
    rewrite Hread. unfold EventApi.upsertFromDelta. rewrite Hsave1. reflexivity.
  - unfold push. cbn [Sync.persistClientChanges]. unfold Sync.persistTable.
    rewrite Hown. cbn [Table Sync Sync.push_created Sync.push_updated Sync.push_deleted
                       mbind option_bind from_option id app Sync.upsertAll Sync.deleteAll
                       fst snd].
    rewrite Hread. unfold EventApi.upsertFromDelta. rewrite Hsave2. reflexivity.
  - cbn [fst snd Db.visits]. split; [exact Hsize1|]. split; [exact Hsize2|].
    split; [|split].
    + rewrite lookup_insert_ne by congruence. rewrite lookup_insert_eq. eexists. reflexivity.
    + rewrite lookup_insert_eq. eexists. reflexivity.
    + intros Heq. apply (f_equal (fun st => size (Db.visits st))) in Heq.
      cbn [Replay.mask Db.visits] in Heq. rewrite !map_size_fmap in Heq.
      rewrite Hsize2 in Heq. lia.
Qed.

End ReplayingEvents.

(** ** Patient problems under push and pull *)

Section PatientProblems.
Context {platform : Platform}.

Lemma In_problem_snapshot (tbl : PatientProblemSync.Table) (row : Sql.Row) :
  In row (Sql.selectFrom (PatientProblemSync.snapshot tbl) "patient_problems") <->
  exists key, tbl !! key = Some row.
Proof.
  simpl. rewrite <- list_elem_of_In, list_elem_of_fmap. split.
  - intros ([key r] & -> & Hin). apply elem_of_map_to_list in Hin. exists key. exact Hin.
  - intros (key & Hr). exists (key, row). split; [reflexivity|].
    apply elem_of_map_to_list. exact Hr.
Qed.

Lemma cell_insert_eq (r : Sql.Row) (column : string) (v : Sql.Value) :
  Sql.cell (<[column := v]> r) column = v.
Proof. unfold Sql.cell. rewrite lookup_insert_eq. reflexivity. Qed.

Lemma cell_insert_ne (r : Sql.Row) (column column' : string) (v : Sql.Value) :
  column <> column' -> Sql.cell (<[column := v]> r) column' = Sql.cell r column'.
Proof. intros Hne. unfold Sql.cell. rewrite lookup_insert_ne by exact Hne. reflexivity. Qed.

(** X27: a soft delete of a patient problem stamps [deleted_at], so the
    next pull with a watermark before it reports the id as deleted, and
    the row is in neither of the other two lists. *)
Theorem deleted_problem_is_reported_to_later_pulls (d : Draw) (id : string)
    (tbl : PatientProblemSync.Table) (r : Sql.Row) (sync : SyncAdapter)
    (lastSyncedAt T : Z) :
  PatientProblemSync.keyed tbl ->
  tbl !! id = Some r ->
  lastSyncedAt <> 0 ->
  T < Date_now d ->
  exists tbl' r',
    PatientProblemSync.deleteFromDelta d id tbl = Js.Ok tbl' /\
    tbl' !! id = Some r' /\
    let delta := Sync.entityDelta (PatientProblemSync.snapshot tbl') lastSyncedAt T
                   (Build_Entity PatientProblem.Table sync) in
    In id (Sync.deleted delta) /\
    ~ In r' (Sync.created delta) /\ ~ In r' (Sync.updated delta).
Proof.
  intros Hkeyed Hr Hnonzero Hlater.
  eexists _, _. split; [reflexivity|]. unfold PatientProblemSync.softDelete.
  split; [rewrite lookup_alter_eq, Hr; reflexivity|].
  cbv zeta. split; [|split].
  - unfold Sync.entityDelta, Sync.createDeltaData. cbn [Sync.deleted].
    destruct (Z.eqb_spec lastSyncedAt 0) as [Heq|_]; [contradiction|].
    apply in_map_iff.
    exists (<["is_deleted" := Sql.Bool true]> (<["deleted_at" := Sql.Timestamp (Date_now d)]> r)).
    split; [|rewrite !In_where; split; [split|]].
    + unfold Sql.id_of. rewrite cell_insert_ne, cell_insert_ne by discriminate.
      rewrite (Hkeyed id r Hr). reflexivity.
    + apply In_problem_snapshot. exists id. rewrite lookup_alter_eq, Hr. reflexivity.
    + rewrite cell_insert_ne, cell_insert_eq by discriminate. simpl.
      apply Z.ltb_lt. exact Hlater.
    + rewrite cell_insert_eq. reflexivity.
  - rewrite created_spec. unfold Sql.live. intros (_ & (_ & Hlive) & _).
    rewrite cell_insert_eq in Hlive. discriminate.
  - rewrite updated_spec. unfold Sql.live. intros (_ & (_ & Hlive) & _).
    rewrite cell_insert_eq in Hlive. discriminate.
Qed.

(** What [pickColumns] gives for the columns the pull reads. *)
Lemma pickColumns_cells (d : Draw) (delta : Js.Record) (id : string) (row : Sql.Row) :
  PatientProblemSync.pickColumns d delta = Some (id, row) ->
  PatientProblemSync.field delta "id" = Js.String id /\
  Sql.cell row "id" = Sql.Text id /\
  Sql.cell row "created_at" = Sql.Timestamp (db_now d) /\
  Sql.cell row "updated_at" = Sql.Timestamp (db_now d) /\
  Sql.cell row "last_modified" = Sql.Timestamp (db_now d) /\
  Sql.cell row "server_created_at" = Sql.Timestamp (db_now d) /\
  PatientProblemSync.bool_cell
    (PatientProblemSync.coalesce (PatientProblemSync.field delta "is_deleted") (Js.Boolean false))
  = Some (Sql.cell row "is_deleted") /\
  PatientProblemSync.opt_date_cell
    (PatientProblemSync.coalesce (PatientProblemSync.field delta "deleted_at") Js.Null)
  = Some (Sql.cell row "deleted_at").
Proof.
  unfold PatientProblemSync.pickColumns.
  destruct (PatientProblemSync.field delta "id") as [| | | |i| |]; try discriminate.
  repeat match goal with
         | |- context [mbind _ ?m] =>
             let c := fresh "c" in destruct m as [c|]; [cbn [mbind option_bind]|discriminate]
         end.
  intros Hrow. apply (inj Some), pair_equal_spec in Hrow as [<- <-].
  repeat split; reflexivity.
Qed.



(** The table stays keyed by id under the sync calls. *)
Lemma upsertFromDelta_keyed (d : Draw) (delta : Js.Record) (tbl tbl' : PatientProblemSync.Table) :
  PatientProblemSync.keyed tbl ->
  PatientProblemSync.upsertFromDelta d delta tbl = Js.Ok tbl' ->
  PatientProblemSync.keyed tbl'.
Proof.
  intros Hkeyed. unfold PatientProblemSync.upsertFromDelta.
  destruct (PatientProblemSync.pickColumns d delta) as [[i row]|] eqn:Hpick; [|discriminate].
  destruct (pickColumns_cells d delta i row Hpick) as (_ & Hid & _).
  destruct (tbl !! i) as [old|]; intros [= <-] key r Hr;
    apply lookup_insert_Some in Hr as [[<- <-] | [_ Hr]];
    try exact (Hkeyed key r Hr).
  - rewrite cell_insert_ne by discriminate. exact Hid.
  - exact Hid.
Qed.

End PatientProblems.

(** ** The further properties on the test data *)

(** A visit created after the watermark is in [created] and not in
    [updated]. *)
Lemma pull_created_and_updated_are_disjoint_witness :
  let r := Fixture.row "v1" 2000 3000 in
  let db := Fixture.only "visits" [r] in
  let delta := Sync.entityDelta db 1000 1000 (Visit.Entity (platform := Fixture.platform)) in
  Sync.getDeltaRecords (platform := Fixture.platform) (models := Fixture.models)
    None 5000 db 1000 !! "visits" = Some delta /\
  In r (Sync.created delta) /\ ~ In r (Sync.updated delta).
Proof.
  intros r db delta.
  assert (Hlookup : Sync.getDeltaRecords (platform := Fixture.platform)
                      (models := Fixture.models) None 5000 db 1000 !! "visits" = Some delta)
    by (vm_compute; reflexivity).
  assert (Hin : In r (Sync.created delta)).
  { apply created_spec. split; [left; reflexivity|]. split; [split; reflexivity|].
    exists 2000. split; [reflexivity | lia]. }
  split; [exact Hlookup|]. split; [exact Hin|].
  exact (pull_created_and_updated_are_disjoint (platform := Fixture.platform)
           (models := Fixture.models) None 5000 db 1000 "visits" delta r Hlookup Hin).
Defined.

(** With a window of 30 days a first pull on day 100 returns a visit
    created on day 80 and leaves out a visit created on day 50; the one it
    returns is younger than the window. *)
Lemma history_limit_bounds_the_backlog_witness :
  let r := Fixture.row "v1" (80 * Fixture.day) (90 * Fixture.day) in
  let old := Fixture.row "v0" (50 * Fixture.day) (50 * Fixture.day) in
  exists delta,
    Sync.getDeltaRecords (platform := Fixture.platform) (models := Fixture.models)
      (Some "30") (100 * Fixture.day) (Fixture.only "visits" [old; r]) 0 !! "visits"
    = Some delta /\
    Sync.created delta = [r] /\
    exists c, Sql.cell r "server_created_at" = Sql.Timestamp c /\
              100 * Fixture.day - 30 * 86400000 < c /\ 0 < c.
Proof.
  intros r old.
  assert (Hlookup :
            Sync.getDeltaRecords (platform := Fixture.platform) (models := Fixture.models)
              (Some "30") (100 * Fixture.day) (Fixture.only "visits" [old; r]) 0 !! "visits"
            = Some {| Sync.created := [r]; Sync.updated := []; Sync.deleted := [] |})
    by (vm_compute; reflexivity).
  eexists. split; [exact Hlookup|]. split; [reflexivity|].
  destruct (history_limit_bounds_the_backlog (platform := Fixture.platform)
              (models := Fixture.models) "30" (inject_Z 30) (100 * Fixture.day) 0 30
              (Fixture.only "visits" [old; r]) "visits"
              {| Sync.created := [r]; Sync.updated := []; Sync.deleted := [] |} r)
    as [Hcreated _];
    [discriminate | reflexivity | reflexivity | lia
    | apply (bool_decide_eq_false_1 _); reflexivity | discriminate | discriminate
    | exact Hlookup |].
  apply Hcreated. left. reflexivity.
Defined.

(** A visit that a pull at watermark 2000 creates is created by a pull
    at watermark 1000 as well. *)
Lemma created_shrinks_as_the_watermark_advances_witness :
  let r := Fixture.row "v1" 3000 3000 in
  let entity := Visit.Entity (platform := Fixture.platform) in
  In r (Sync.created (Sync.entityDelta (Fixture.only "visits" [r]) 1000
                        (Sync.lastSyncDate None 5000 1000 entity) entity)).
Proof.
  intros r entity.
  apply (created_shrinks_as_the_watermark_advances None 5000 1000 2000
           (Fixture.only "visits" [r]) entity r).
  - lia.
  - apply created_spec. split; [left; reflexivity|]. split; [split; reflexivity|].
    exists 3000. split; [reflexivity | vm_compute; reflexivity].
Defined.

(** A visit flagged as deleted without a [deleted_at] is not reported. *)
Lemma deleted_list_needs_deleted_at_witness :
  let r := <["is_deleted" := Sql.Bool true]> (Fixture.row "v1" 1000 3000) in
  Sync.deleted (Sync.entityDelta (Fixture.only "visits" [r]) 2000 2000
                  (Visit.Entity (platform := Fixture.platform))) = [].
Proof.
  intros r.
  destruct (deleted_list_needs_deleted_at (Fixture.only "visits" [r]) 2000 2000
              (Visit.Entity (platform := Fixture.platform))) as (_ & _ & Hnone).
  - lia.
  - apply Hnone. intros r' [<- | []]. reflexivity.
Defined.

(** A push for the table [foo_bar] writes nothing. *)
Lemma push_of_unknown_tables_writes_nothing_witness :
  Sync.persistClientChanges (platform := Fixture.platform) (models := Fixture.models)
    Fixture.ticking [("foo_bar", Some Fixture.visit_delta)] (0%nat, Fixture.empty_store)
  = Js.Ok (0%nat, Fixture.empty_store).
Proof.
  apply (push_of_unknown_tables_writes_nothing (platform := Fixture.platform)
           (models := Fixture.models)).
  constructor; [|constructor]. split.
  - vm_compute. reflexivity.
  - apply (bool_decide_eq_false_1 _). reflexivity.
Defined.

(** A record that holds an id only is not changed by the cleaning. *)
Lemma clean_leaves_a_clean_record_alone_witness :
  Sync.clean (platform := Fixture.platform) 7 (Table_columns Visit.Table)
    {[ "id" := Js.String "v1" ]}
  = {[ "id" := Js.String "v1" ]}.
Proof.
  apply (clean_leaves_a_clean_record_alone (platform := Fixture.platform)).
  intros key value Hlookup. apply lookup_singleton_Some in Hlookup as [<- <-].
  split; [apply (bool_decide_eq_true_1 _); reflexivity|].
  split; [reflexivity | left; reflexivity].
Defined.

(** The update of the scenario that the trigger lets through leaves the
    stored hash and the verdict of the verification as they are. *)
Lemma permitted_update_keeps_the_verdict_witness :
  EventLog.hash Fixture.surname_row_touched = EventLog.hash Fixture.surname_row /\
  String.eqb (EventLog.hash Fixture.surname_row_touched)
    (EventLog.computed_hash (platform := Fixture.platform) Fixture.surname_row_touched)
  = String.eqb (EventLog.hash Fixture.surname_row)
      (EventLog.computed_hash (platform := Fixture.platform) Fixture.surname_row).
Proof.
  destruct (permitted_update_keeps_the_verdict (platform := Fixture.platform)
              Fixture.surname_row Fixture.surname_row_touched) as (Hhash & _ & Hsame).
  - vm_compute. reflexivity.
  - split; [exact Hhash|]. apply Hsame. reflexivity.
Defined.

(** A batch of one event on the empty table leaves one row. *)
Lemma logEvents_appends_one_row_per_event_witness :
  let after : EventLog.Table := {[ "id1" := Sample.logged_row ]} in
  EventLog.logEvents (platform := Fixture.platform) Sample.draw ∅
    [Fixture.surname_update] Fixture.ctx None = Js.Ok after /\
  size after = 1%nat.
Proof.
  intros after.
  assert (Hlog : EventLog.logEvents (platform := Fixture.platform) Sample.draw ∅
                   [Fixture.surname_update] Fixture.ctx None = Js.Ok after)
    by (vm_compute; reflexivity).
  split; [exact Hlog|].
  destruct (logEvents_appends_one_row_per_event (platform := Fixture.platform)
              _ _ _ _ _ _ Hlog) as (_ & Hsize & _).
  exact Hsize.
Defined.

(** The pushed row is ignored when the server has a row of that id. *)
Lemma insertFromSync_never_overwrites_witness :
  let tbl : EventLog.Table := {[ "id7" := Sample.server_row ]} in
  exists after,
    EventLog.insertFromSync (platform := Fixture.platform) Sample.draw Sample.pushed tbl
    = Js.Ok after /\
    after = tbl.
Proof.
  intros tbl. exists tbl.
  assert (Hpush : EventLog.insertFromSync (platform := Fixture.platform) Sample.draw
                    Sample.pushed tbl = Js.Ok tbl) by (vm_compute; reflexivity).
  split; [exact Hpush|].
  destruct (insertFromSync_never_overwrites (platform := Fixture.platform)
              _ _ _ _ Hpush) as (_ & Hsame & _).
  apply (Hsame "id7" eq_refl). eexists. apply lookup_singleton_eq.
Defined.

(** One unverified row: a second run of the job finds nothing. *)
Lemma verifyHashes_settles_the_backlog_witness :
  let tbl : EventLog.Table := {[ "id7" := Sample.pushed_row ]} in
  EventLog.verifyHashes (platform := Fixture.platform) (Job.settled (platform := Fixture.platform) tbl)
  = Js.Ok (Job.settled (platform := Fixture.platform) tbl,
           {| EventLog.verified := 0; EventLog.failed := 0 |}).
Proof.
  intros tbl.
  destruct (verifyHashes_settles_the_backlog (platform := Fixture.platform) tbl)
    as (result & _ & Hsecond).
  - intros key r Hr. apply lookup_singleton_Some in Hr as [<- <-]. reflexivity.
  - vm_compute. reflexivity.
  - exact Hsecond.
Defined.

(** The entry of the scenario, logged on the empty table, is the same
    row after a run of the job. *)
Lemma logged_rows_are_never_verified_witness :
  let after : EventLog.Table := {[ "id1" := Sample.logged_row ]} in
  exists tbl result,
    EventLog.verifyHashes (platform := Fixture.platform) after = Js.Ok (tbl, result) /\
    tbl !! "id1" = Some Sample.logged_row.
Proof.
  intros after.
  destruct (logged_rows_are_never_verified (platform := Fixture.platform)
              Sample.draw ∅ after [Fixture.surname_update] Fixture.ctx None)
    as (tbl & result & Hverify & Hrows).
  - intros key r Hr. rewrite lookup_empty in Hr. discriminate.
  - vm_compute. reflexivity.
  - exists tbl, result. split; [exact Hverify|].
    exact (proj2 (Hrows "id1" Sample.logged_row (lookup_singleton_eq _ _) (lookup_empty _))).
Defined.

(** The pushed row of the scenario fails the check of the next run. *)
Lemma pushed_row_is_judged_by_the_next_run_witness :
  let after : EventLog.Table := {[ "id7" := Sample.pushed_row ]} in
  exists r tbl' result,
    after !! "id7" = Some r /\
    EventLog.verifyHashes (platform := Fixture.platform) after = Js.Ok (tbl', result) /\
    tbl' !! "id7"
    = Some (EventLog.set_hash_verified
              (Some (String.eqb (EventLog.enc_hash Sample.pushed)
                       (EventLog.computed_hash (platform := Fixture.platform) r))) r).
Proof.
  intros after.
  apply (pushed_row_is_judged_by_the_next_run (platform := Fixture.platform)
           Sample.draw Sample.pushed ∅ after "id7").
  - intros k r Hr. rewrite lookup_empty in Hr. discriminate.
  - reflexivity.
  - apply lookup_empty.
  - vm_compute. reflexivity.
  - vm_compute. reflexivity.
Defined.

(** A header that starts with a blank entry: the entry is lost. *)
Lemma rejected_address_loses_the_audit_entry_witness :
  EventLog.ipAddress
    (Request.getWebRequestContext (platform := Sample.strict) (Some Sample.blank_header))
  = Some "" /\
  Request.logAuditEvent (platform := Sample.strict) Fixture.draw (Some Sample.blank_header)
    ∅ Fixture.surname_update = ∅.
Proof.
  apply (rejected_address_loses_the_audit_entry (platform := Sample.strict) Fixture.draw
           Sample.blank_header " , 10.0.0.1" ∅ Fixture.surname_update); reflexivity.
Defined.

(** The visit of the store, deleted by a push, is in no list of a pull. *)
Lemma visit_deletions_never_reach_a_pull_witness :
  let after := Replay.run (platform := Fixture.platform)
                 [Replay.Delete (Fixture.ticking 0) "v1"] Sample.store in
  Sync.deleted (Sync.entityDelta (VisitView.snapshot after) 1000 1000
                  (Visit.Entity (platform := Fixture.platform))) = [].
Proof.
  intros after.
  destruct (visit_deletions_never_reach_a_pull (platform := Fixture.platform)
              [Replay.Delete (Fixture.ticking 0) "v1"] Sample.store 1000 1000)
    as (Hnone & _).
  - intros key r Hr.
    change (Db.visits Sample.store) with ({[ "v1" := Sample.visit ]} : gmap string Db.VisitRow) in Hr.
    apply lookup_singleton_Some in Hr as [<- <-]. reflexivity.
  - exact Hnone.
Defined.

(** The event of the visit stays deleted when the visit is deleted and
    then pushed again as not deleted. *)
Lemma cascaded_deletion_sticks_witness :
  exists r',
    Db.events (Replay.run (platform := Fixture.platform) Sample.delete_then_upsert Sample.store)
      !! "e1" = Some r' /\
    Db.linked_is_deleted r' = true.
Proof.
  pose proof (cascaded_deletion_sticks (platform := Fixture.platform)
                Sample.delete_then_upsert Sample.store Db.events "e1") as Hsticks.
  assert (Hrow : Db.events Sample.store !! "e1" = Some Sample.event_row) by reflexivity.
  rewrite Hrow in Hsticks.
  destruct Hsticks as (r' & Hr' & _ & _ & Hdeleted); [right; left; reflexivity|].
  exists r'. split; [exact Hr'|]. apply Hdeleted. right.
  exists (Fixture.ticking 0), "v1". split; [left; reflexivity | reflexivity].
Defined.

(** The visit of the store keeps its creation stamp under that push. *)
Lemma push_keeps_the_creation_stamps_witness :
  exists r',
    Db.visits (Replay.run (platform := Fixture.platform) Sample.delete_then_upsert Sample.store)
      !! "v1" = Some r' /\
    Db.created_at r' = 1000.
Proof.
  destruct (push_keeps_the_creation_stamps (platform := Fixture.platform)
              Sample.delete_then_upsert Sample.store "v1" Sample.visit)
    as (r' & Hr' & _ & Hcreated & _); [reflexivity|].
  exists r'. split; [exact Hr' | exact Hcreated].
Defined.

(** Saving the event of the test data adds no prescription. *)
Lemma saved_event_is_live_and_has_a_visit_witness :
  exists after,
    EventApi.save (platform := Fixture.platform) Sample.isValidUUID Sample.first
      Fixture.draw (Some Sample.user) (Some "e2") Sample.event Sample.store = Js.Ok after /\
    Db.prescriptions after = ∅.
Proof.
  assert (Hsave : exists after,
            EventApi.save (platform := Fixture.platform) Sample.isValidUUID Sample.first
              Fixture.draw (Some Sample.user) (Some "e2") Sample.event Sample.store
            = Js.Ok after) by (eexists; vm_compute; reflexivity).
  destruct Hsave as [after Hsave].
  exists after. split; [exact Hsave|].
  destruct (saved_event_is_live_and_has_a_visit (platform := Fixture.platform)
              _ _ _ _ _ _ _ _ Hsave) as (_ & Hprescriptions & _).
  exact Hprescriptions.
Defined.

(** Without a user the event of the test data is dropped. *)
Lemma save_without_a_user_drops_the_event_witness :
  EventApi.save (platform := Fixture.platform) Sample.isValidUUID Sample.first
    Fixture.draw None (Some "e2") Sample.event Sample.store = Js.Ok Sample.store.
Proof.
  apply (save_without_a_user_drops_the_event (platform := Fixture.platform)).
  intros v Hv. discriminate.
Defined.

(** Saving the event of the test data twice leaves three visits. *)
Lemma save_without_a_visit_adds_a_visit_each_time_witness :
  exists s1 s2,
    EventApi.save (platform := Fixture.platform) Sample.isValidUUID Sample.first
      Fixture.draw (Some Sample.user) (Some "e2") Sample.event Sample.store = Js.Ok s1 /\
    EventApi.save (platform := Fixture.platform) Sample.isValidUUID Sample.second
      Fixture.draw (Some Sample.user) (Some "e2") Sample.event s1 = Js.Ok s2 /\
    size (Db.visits s2) = 3%nat.
Proof.
  destruct (save_without_a_visit_adds_a_visit_each_time (platform := Fixture.platform)
              Sample.isValidUUID Sample.first Sample.second Fixture.draw Fixture.draw
              Sample.user "e2" Sample.event Sample.store)
    as (s1 & s2 & Hfirst & Hsecond & Hsize & _).
  - reflexivity.
  - discriminate.
  - reflexivity.
  - reflexivity.
  - discriminate.
  - exists s1, s2. split; [exact Hfirst|]. split; [exact Hsecond|]. exact Hsize.
Defined.

(** C4, on the test data: the push of one event without a visit, run
    twice on the store that holds one visit, leaves three visits. *)
Lemma replayed_event_push_adds_a_visit_witness :
  exists w1 w2,
    Sync.persistClientChanges (platform := Fixture.platform) (models := Sample.models)
      Sample.calls Sample.event_push (0%nat, Sample.store) = Js.Ok w1 /\
    Sync.persistClientChanges (platform := Fixture.platform) (models := Sample.models)
      Sample.calls Sample.event_push w1 = Js.Ok w2 /\
    size (Db.visits w1.2) = 2%nat /\
    size (Db.visits w2.2) = 3%nat /\
    Replay.mask w2.2 <> Replay.mask w1.2.
Proof.
  destruct (replayed_event_push_adds_a_visit (platform := Fixture.platform)
              (models := Sample.models) Sample.calls Sample.isValidUUID uuidv7 Sample.user
              Sample.event_record Sample.event 0%nat Sample.store)
    as (w1 & w2 & Hfirst & Hsecond & Hsize1 & Hsize2 & _ & _ & Hdiffer).
  - apply (events_is_pushable (platform := Fixture.platform) (models := Sample.models));
      discriminate.
  - intros d s'. reflexivity.
  - reflexivity.
  - reflexivity.
  - reflexivity.
  - discriminate.
  - exists w1, w2. split; [exact Hfirst|]. split; [exact Hsecond|].
    split; [exact Hsize1|]. split; [rewrite Hsize2, Hsize1; reflexivity | exact Hdiffer].
Defined.

(** The problem of the test data, deleted at the time of the scenario,
    is reported as deleted by a pull at watermark 2000. *)
Lemma deleted_problem_is_reported_to_later_pulls_witness :
  exists tbl',
    PatientProblemSync.deleteFromDelta Fixture.draw "pp1" Sample.problems = Js.Ok tbl' /\
    In "pp1" (Sync.deleted
                (Sync.entityDelta (PatientProblemSync.snapshot tbl') 2000 2000
                   (Build_Entity PatientProblem.Table Fixture.no_sync))).
Proof.
  destruct (deleted_problem_is_reported_to_later_pulls Fixture.draw "pp1" Sample.problems
              (Fixture.row "pp1" 1000 1000) Fixture.no_sync 2000 2000)
    as (tbl' & r' & Hdelete & _ & Hdeleted & _).
  - intros key r Hr. unfold Sample.problems in Hr.
    apply lookup_singleton_Some in Hr as [<- <-]. reflexivity.
  - reflexivity.
  - lia.
  - vm_compute. reflexivity.
  - exists tbl'. split; [exact Hdelete | exact Hdeleted].
Defined.


